(** * Resilient batch-scanning engine: growth, score, threshold, checkpoint

    A shallow embedding of the scanning core of the repository
    ([full_scan.py] and [niche_scanner.py]) and the proofs of its
    specification.

    Modelling conventions.
    - Python numbers (popularity samples, growth percentages, scores,
      weights) are exact rationals [Q] in the two script modules;
      statements about them use rational equality [==].  The score is
      also evaluated on IEEE 754 binary64 numbers, the numbers the
      interpreter computes with, in the module [Binary64]: what is said
      about the rounding of the score is said there.
    - Python text is [string], read as a sequence of ASCII characters.
    - A text field of a record is a [pyval]: [None], pandas' missing
      value [NaN], or a [str].
    - Dictionaries and sets are stdpp's [gmap] and [gset].
    - The remote API, the clock and the file system are explicit: a fetch
      consumes a table of responses indexed by attempt, every request and
      sleep is recorded in a trace, and files live in a finite map from
      names to tables.
    - pandas is not part of the repository.  Its CSV writer and reader are
      modelled on typed rows: a missing value is written as the empty
      field, and a text field that belongs to the reader's list of
      missing-value tokens is read back as [NaN].  The token list is a
      parameter, of which only the empty field is ever assumed.  Column
      type inference of the reader is not modelled: a text column is read
      as text.  The keyword column of a checkpoint of [full_scan.py] is
      such a column, since its first keyword is a seed of the table. *)

From Stdlib Require Import QArith Qround Qabs Lqa Lia String Ascii List.
From Stdlib Require Import Sorting.Sorted Sorting.Permutation.
From Stdlib Require Import SpecFloat.
From stdpp Require Import gmap strings list fin_maps.

Open Scope Q_scope.

(** * Part I: the embedding *)

(** ** Numbers *)

(** Python's [min(a, b)]: [b] only when [b < a]. *)
Definition py_min (a b : Q) : Q := if Qle_bool a b then a else b.

(** [x > 0] as the interpreter decides it. *)
Definition Qpos_bool (x : Q) : bool := negb (Qle_bool x 0).

(** Python's [round(x, 0)] on exact numbers: nearest integer, ties to the
    even one. *)
Definition round_half_even (x : Q) : Z :=
  let n := Qfloor x in
  let r := x - inject_Z n in
  if Qle_bool r (1 # 2)
  then if Qle_bool (1 # 2) r then (if Z.even n then n else n + 1)%Z else n
  else (n + 1)%Z.

(** Python's [round(x, 2)], on exact numbers ([Binary64.round2] is the
    same on floats). *)
Definition round2 (x : Q) : Q := inject_Z (round_half_even (x * 100)) / 100.

(** ** Text *)

Definition lower_ascii (c : ascii) : ascii :=
  let n := nat_of_ascii c in
  if ((65 <=? n) && (n <=? 90))%nat then ascii_of_nat (n + 32) else c.

(** [s.lower()] on ASCII text. *)
Fixpoint lower (s : string) : string :=
  match s with
  | EmptyString => EmptyString
  | String c s' => String (lower_ascii c) (lower s')
  end.

(** [sub in s]. *)
Fixpoint contains (sub s : string) : bool :=
  String.prefix sub s ||
  match s with
  | EmptyString => false
  | String _ s' => contains sub s'
  end.

(** [s[:n]]. *)
Definition slice_to (n : nat) (s : string) : string := String.substring 0 n s.

(** [sep.join(l)]. *)
Definition join (sep : string) (l : list string) : string := String.concat sep l.

(** ** Dynamically typed text values *)

Inductive pyval : Type :=
| PNone
| PNaN
| PStr (s : string).

#[global] Instance pyval_eq_dec : EqDecision pyval.
Proof. solve_decision. Defined.

Definition pyval_encode (v : pyval) : option (option string) :=
  match v with
  | PNone => None
  | PNaN => Some None
  | PStr s => Some (Some s)
  end.

Definition pyval_decode (o : option (option string)) : pyval :=
  match o with
  | None => PNone
  | Some None => PNaN
  | Some (Some s) => PStr s
  end.

#[global] Instance pyval_countable : Countable pyval.
Proof.
  apply (inj_countable' pyval_encode pyval_decode).
  intros []; reflexivity.
Defined.

(** Truth value of an object in a condition: [None] and the empty string
    are false, every other string is true, and so is the float [NaN]. *)
Definition truthy (v : pyval) : bool :=
  match v with
  | PNone => false
  | PNaN => true
  | PStr s => negb (String.eqb s "")
  end.

(** [Series.str.lower()] on one entry: missing values stay missing. *)
Definition str_lower (v : pyval) : pyval :=
  match v with
  | PStr s => PStr (lower s)
  | other => other
  end.

(** ** ScanResult: the result dictionary of [get_keyword_data] *)

Record ScanResult : Type := mkResult {
  keyword : pyval;
  category : pyval;
  current_interest : Q;
  growth_5yr : Q;
  growth_1yr : Q;
  growth_6mo : Q;
  growth_3mo : Q;
  growth_1mo : Q;
  related_queries : pyval;
  rising_queries : pyval;
  recommendation_score : Q;
  error : pyval
}.

(** In-place updates [result[key] = value]. *)
Definition set_error (v : pyval) (r : ScanResult) : ScanResult :=
  mkResult (keyword r) (category r) (current_interest r)
           (growth_5yr r) (growth_1yr r) (growth_6mo r) (growth_3mo r)
           (growth_1mo r) (related_queries r) (rising_queries r)
           (recommendation_score r) v.

Definition set_related_queries (v : pyval) (r : ScanResult) : ScanResult :=
  mkResult (keyword r) (category r) (current_interest r)
           (growth_5yr r) (growth_1yr r) (growth_6mo r) (growth_3mo r)
           (growth_1mo r) v (rising_queries r)
           (recommendation_score r) (error r).

Definition set_rising_queries (v : pyval) (r : ScanResult) : ScanResult :=
  mkResult (keyword r) (category r) (current_interest r)
           (growth_5yr r) (growth_1yr r) (growth_6mo r) (growth_3mo r)
           (growth_1mo r) (related_queries r) v
           (recommendation_score r) (error r).

Definition set_recommendation_score (q : Q) (r : ScanResult) : ScanResult :=
  mkResult (keyword r) (category r) (current_interest r)
           (growth_5yr r) (growth_1yr r) (growth_6mo r) (growth_3mo r)
           (growth_1mo r) (related_queries r) (rising_queries r)
           q (error r).

Definition set_metrics (cur g5 g1 g6 g3 gm : Q) (r : ScanResult) : ScanResult :=
  mkResult (keyword r) (category r) cur g5 g1 g6 g3 gm
           (related_queries r) (rising_queries r)
           (recommendation_score r) (error r).

(** The dictionary [get_keyword_data] starts from. *)
Definition initial_result (kw cat : string) : ScanResult :=
  mkResult (PStr kw) (PStr cat) 0 0 0 0 0 0 (PStr "") (PStr "") 0 PNone.

(** ** The remote API and the trace of effects *)

(** One part ([top] or [rising]) of the related-queries answer: absent
    ([None]), a frame whose [query] column holds the given texts, or
    something that raises when it is read. *)
Inductive related_part : Type :=
| PartNone
| PartQueries (queries : list string)
| PartBroken.

(** The answer of [related_queries()]: the call raises, the keyword is
    not in the answer, or it is there with its two parts. *)
Inductive related_response : Type :=
| RelatedRaises
| RelatedMissing
| RelatedEntry (top rising : related_part).

(** The answer to one attempt: [build_payload] or [interest_over_time]
    raises an exception whose text is [msg], or a frame comes back with
    the keyword's samples (oldest first; no sample: [df.empty]). *)
Inductive response : Type :=
| Raises (msg : string)
| Frame (samples : list Q) (related : related_response).

Inductive event : Type :=
| Fetch (kw : string)
| Request (kw : string)
| RelatedRequest (kw : string)
| Sleep (seconds : nat)
| CheckpointSaved (rows : nat).

(** ** get_time_periods *)

Record Periods : Type := mkPeriods {
  p_current : Q;
  p_1mo_ago : Q;
  p_3mo_ago : Q;
  p_6mo_ago : Q;
  p_1yr_ago : Q;
  p_5yr_ago : Q
}.

(** [col.iloc[-k]] for [1 <= k <= len(col)]. *)
Definition iloc_back (k : nat) (col : list Q) : Q :=
  nth (List.length col - k) col 0.

(** [col.iloc[-k] if len(df) > k else col.iloc[0]]. *)
Definition look_back (k : nat) (col : list Q) : Q :=
  if (k <? List.length col)%nat then iloc_back k col else nth 0 col 0.

Definition get_time_periods (col : list Q) : option Periods :=
  match col with
  | [] => None
  | _ =>
      Some (mkPeriods (iloc_back 1 col)
                      (look_back 5 col) (look_back 13 col) (look_back 26 col)
                      (look_back 52 col) (nth 0 col 0))
  end.

(** ** Tables on disk *)

(** One line of a CSV file with the result columns: text fields as the
    characters between the separators, numbers as their value. *)
Record csv_row : Type := mkRow {
  c_keyword : string;
  c_category : string;
  c_current_interest : Q;
  c_growth_5yr : Q;
  c_growth_1yr : Q;
  c_growth_6mo : Q;
  c_growth_3mo : Q;
  c_growth_1mo : Q;
  c_related_queries : string;
  c_rising_queries : string;
  c_recommendation_score : Q;
  c_error : string
}.

(** A file: its header line and its rows.  The field of a column that is
    not in the header is left empty in the row. *)
Record table : Type := mkTable {
  columns : list string;
  body : list csv_row
}.

Definition RESULT_COLUMNS : list string :=
  ["keyword"; "category"; "current_interest";
   "growth_5yr"; "growth_1yr"; "growth_6mo"; "growth_3mo"; "growth_1mo";
   "related_queries"; "rising_queries"; "recommendation_score"; "error"]%string.

(** [to_csv] writes a missing value as the empty field. *)
Definition write_text (v : pyval) : string :=
  match v with
  | PStr s => s
  | PNone | PNaN => ""
  end.

Definition row_of_result (r : ScanResult) : csv_row :=
  mkRow (write_text (keyword r)) (write_text (category r))
        (current_interest r)
        (growth_5yr r) (growth_1yr r) (growth_6mo r) (growth_3mo r)
        (growth_1mo r)
        (write_text (related_queries r)) (write_text (rising_queries r))
        (recommendation_score r) (write_text (error r)).

(** [pd.DataFrame(results).to_csv(name, index=False)]. *)
Definition to_csv (df : list ScanResult) : table :=
  mkTable RESULT_COLUMNS (row_of_result <$> df).

Section Reader.

(** The texts [read_csv] takes for a missing value. *)
Variable na_values : list string.

Definition read_text (s : string) : pyval :=
  if bool_decide (s ∈ na_values) then PNaN else PStr s.

Definition result_of_row (row : csv_row) : ScanResult :=
  mkResult (read_text (c_keyword row)) (read_text (c_category row))
           (c_current_interest row)
           (c_growth_5yr row) (c_growth_1yr row) (c_growth_6mo row)
           (c_growth_3mo row) (c_growth_1mo row)
           (read_text (c_related_queries row))
           (read_text (c_rising_queries row))
           (c_recommendation_score row) (read_text (c_error row)).

(** [pd.read_csv(name).to_dict('records')]. *)
Definition read_csv (t : table) : list ScanResult :=
  result_of_row <$> body t.

(** What a result becomes when it is written and read back. *)
Definition reread (r : ScanResult) : ScanResult :=
  result_of_row (row_of_result r).

End Reader.

(** The reader's default list of missing-value tokens. *)
Definition DEFAULT_NA_VALUES : list string :=
  [""; "#N/A"; "#N/A N/A"; "#NA"; "-1.#IND"; "-1.#QNAN"; "-NaN"; "-nan";
   "1.#IND"; "1.#QNAN"; "<NA>"; "N/A"; "NA"; "NULL"; "NaN"; "None";
   "n/a"; "nan"; "null"]%string.

(** The file system: file name to content. *)
Abbreviation FS := (gmap string table).

(** ** Sorting a frame *)

(** [df.sort_values(col, ascending=False)], as an insertion sort on the
    column; the order among equal keys is whatever this sort gives, and
    no statement below depends on it. *)
Fixpoint insert_desc {A : Type} (key : A -> Q) (x : A) (l : list A) : list A :=
  match l with
  | [] => [x]
  | y :: l' =>
      if Qle_bool (key y) (key x) then x :: l else y :: insert_desc key x l'
  end.

Fixpoint sort_values_desc {A : Type} (key : A -> Q) (l : list A) : list A :=
  match l with
  | [] => []
  | x :: l' => insert_desc key x (sort_values_desc key l')
  end.

Definition sorted_desc {A : Type} (key : A -> Q) (l : list A) : Prop :=
  StronglySorted (fun a b => key b <= key a) l.

(** ** Growth dictionaries *)

(** [g.get(k, 0)]. *)
Definition get0 (g : gmap string Q) (k : string) : Q := default 0 (g !! k).

(** The dictionary obtained by inserting the items one after the other. *)
Definition dict_of_items {A : Type} (items : list (string * A))
  : gmap string A :=
  foldl (fun d kv => <[kv.1 := kv.2]> d) ∅ items.

Definition HORIZON_KEYS : list string :=
  ["growth_1mo"; "growth_3mo"; "growth_6mo"; "growth_1yr"; "growth_5yr"]%string.

(** ** Pieces of [get_keyword_data] the two scripts have in common *)

(** The related-queries block of [get_keyword_data]; every exception in
    it is swallowed, what was assigned before it stays. *)
Definition read_related (rel : related_response) (result : ScanResult)
  : ScanResult :=
  match rel with
  | RelatedRaises => result
  | RelatedMissing => result
  | RelatedEntry top rising =>
      match top with
      | PartBroken => result
      | _ =>
          let result :=
            match top with
            | PartQueries qs =>
                set_related_queries (PStr (join "; " (take 5 qs))) result
            | _ => result
            end in
          match rising with
          | PartQueries qs =>
              set_rising_queries (PStr (join "; " (take 5 qs))) result
          | _ => result
          end
      end
  end.

(** What one pass through the body of the retry loop ends in. *)
Inductive step : Type :=
| Return (result : ScanResult) (trace : list event)
| Continue (result : ScanResult) (trace : list event).

Definition is_rate_limit (msg : string) : bool :=
  contains "429" msg || contains "rate" (lower msg).


(** ** full_scan.py *)

Module FullScan.

(** *** CONFIGURATION *)

Definition HEALTH_KEYWORDS : list (string * list string) :=
  [("supplements",
    ["magnesium glycinate"; "magnesium threonate"; "ashwagandha";
     "l-theanine"; "vitamin d3"; "zinc"; "omega 3"; "probiotics";
     "berberine"; "creatine"]);
   ("womens_health",
    ["hormone balance"; "cycle syncing"; "PCOS"; "spearmint tea";
     "myo-inositol"; "seed cycling"; "DIM supplement"; "vitex"]);
   ("gut_health",
    ["gut health"; "bloating relief"; "digestive enzymes"; "bone broth";
     "l-glutamine"; "leaky gut"; "SIBO"; "castor oil pack"]);
   ("sleep_stress",
    ["nervous system regulation"; "cortisol"; "burnout recovery";
     "sleep supplements"; "melatonin alternatives"; "GABA"; "adaptogens"]);
   ("natural_beauty",
    ["gua sha"; "face massage"; "natural botox"; "retinol alternative";
     "hyaluronic acid"; "collagen peptides"; "red light therapy"]);
   ("mens_optimization",
    ["tongkat ali"; "fadogia agrestis"; "testosterone booster";
     "alpha gpc"; "l-tyrosine"; "shilajit"; "turkesterone"])]%string.

Definition REQUEST_DELAY : nat := 18.
Definition MAX_RETRIES : nat := 3.
Definition RETRY_DELAY : nat := 45.

(** The items of the dictionary literal [WEIGHTS], and the dictionary. *)
Definition WEIGHT_ITEMS : list (string * Q) :=
  [("1mo"%string, 30 # 100); ("3mo"%string, 25 # 100);
   ("6mo"%string, 20 # 100); ("1yr"%string, 15 # 100);
   ("5yr"%string, 10 # 100)].

Definition WEIGHTS : gmap string Q := list_to_map WEIGHT_ITEMS.

Definition MIN_GROWTH_THRESHOLD : Q := 300.
Definition MAX_GROWTH_CAP : Q := 10000.

Definition OUTPUT_FILE : string := "full_scan_results.csv".
Definition CHECKPOINT_FILE : string := "full_scan_checkpoint.csv".
Definition CHECKPOINT_INTERVAL : nat := 5.

(** [WEIGHTS[k]]; the five keys the script subscripts with are present
    (see [weights_defined]). *)
Definition weight (k : string) : Q := default 0 (WEIGHTS !! k).

(** *** HELPERS *)

Definition calculate_growth (current past : Q) : Q :=
  if Qle_bool past 0
  then (if Qpos_bool current then MAX_GROWTH_CAP else 0)
  else
    let growth := ((current - past) / past) * 100 in
    py_min growth MAX_GROWTH_CAP.

Definition calculate_score (g : gmap string Q) : Q :=
  round2 (get0 g "growth_1mo" * weight "1mo" +
          get0 g "growth_3mo" * weight "3mo" +
          get0 g "growth_6mo" * weight "6mo" +
          get0 g "growth_1yr" * weight "1yr" +
          get0 g "growth_5yr" * weight "5yr").

Definition passes_threshold (r : ScanResult) : bool :=
  if truthy (error r) then false
  else
    existsb id
      [Qle_bool MIN_GROWTH_THRESHOLD (growth_5yr r);
       Qle_bool MIN_GROWTH_THRESHOLD (growth_1yr r);
       Qle_bool MIN_GROWTH_THRESHOLD (growth_6mo r);
       Qle_bool MIN_GROWTH_THRESHOLD (growth_3mo r);
       Qle_bool MIN_GROWTH_THRESHOLD (growth_1mo r)].

Definition load_checkpoint (na_values : list string) (fs : FS)
  : list ScanResult * gset pyval :=
  match fs !! CHECKPOINT_FILE with
  | Some t =>
      let results := read_csv na_values t in
      let processed := list_to_set (str_lower <$> (keyword <$> results)) in
      (results, processed)
  | None => ([], ∅)
  end.

Definition save_checkpoint (results : list ScanResult) (fs : FS) : FS :=
  match results with
  | [] => fs
  | _ => <[CHECKPOINT_FILE := to_csv results]> fs
  end.

Definition attempt (resp : response) (kw : string) (result : ScanResult)
  : step :=
  match resp with
  | Frame samples related =>
      match samples with
      | [] => Return (set_error (PStr "No data") result) [Request kw]
      | _ =>
          let result :=
            match get_time_periods samples with
            | Some periods =>
                set_metrics
                  (p_current periods)
                  (calculate_growth (p_current periods) (p_5yr_ago periods))
                  (calculate_growth (p_current periods) (p_1yr_ago periods))
                  (calculate_growth (p_current periods) (p_6mo_ago periods))
                  (calculate_growth (p_current periods) (p_3mo_ago periods))
                  (calculate_growth (p_current periods) (p_1mo_ago periods))
                  result
            | None => result
            end in
          let result := read_related related result in
          let result :=
            set_recommendation_score
              (calculate_score
                 (dict_of_items
                    [("growth_1mo"%string, growth_1mo result);
                     ("growth_3mo"%string, growth_3mo result);
                     ("growth_6mo"%string, growth_6mo result);
                     ("growth_1yr"%string, growth_1yr result);
                     ("growth_5yr"%string, growth_5yr result)]))
              result in
          Return result [Request kw; Sleep 2; RelatedRequest kw]
      end
  | Raises msg =>
      if is_rate_limit msg
      then Continue result [Request kw; Sleep RETRY_DELAY]
      else Return (set_error (PStr (slice_to 50 msg)) result) [Request kw]
  end.

(** [for attempt in range(MAX_RETRIES)] with [n] passes left, the next
    one being pass number [i]; [api i] is what the API answers then. *)
Fixpoint retry_loop (api : nat -> response) (kw : string)
  (n i : nat) (result : ScanResult) (trace : list event)
  : ScanResult * list event :=
  match n with
  | O => (set_error (PStr "Max retries") result, trace)
  | S n' =>
      match attempt (api i) kw result with
      | Return result' tr => (result', trace ++ tr)
      | Continue result' tr => retry_loop api kw n' (S i) result' (trace ++ tr)
      end
  end.

Definition get_keyword_data (api : nat -> response) (kw cat : string)
  : ScanResult * list event :=
  retry_loop api kw MAX_RETRIES 0 (initial_result kw cat) [].

(** *** MAIN *)

Record KeywordTask : Type := mkTask {
  task_keyword : string;
  task_category : string
}.

(** The keyword list before deduplication: the health seeds, then the
    discovered keywords (none when the file is absent). *)
Definition build_keywords (discovered : list KeywordTask) : list KeywordTask :=
  (HEALTH_KEYWORDS ≫= (fun '(cat, kws) => (fun kw => mkTask kw cat) <$> kws))
  ++ discovered.

(** The deduplication loop, with its [seen] set. *)
Fixpoint deduplicate (seen : gset string) (kws : list KeywordTask)
  : list KeywordTask :=
  match kws with
  | [] => []
  | kw :: rest =>
      let key := lower (task_keyword kw) in
      if bool_decide (key ∈ seen)
      then deduplicate seen rest
      else kw :: deduplicate ({[key]} ∪ seen) rest
  end.

Definition remaining_of (processed : gset pyval) (all_keywords : list KeywordTask)
  : list KeywordTask :=
  filter (fun k => PStr (lower (task_keyword k)) ∉ processed) all_keywords.

(** State of the scanning loop. *)
Record scan_state : Type := mkScan {
  st_results : list ScanResult;
  st_fs : FS;
  st_trace : list event
}.

(** The loop over [enumerate(remaining)], entered at index [i]. *)
Fixpoint scan_loop (api : string -> nat -> response)
  (remaining : list KeywordTask) (i : nat) (st : scan_state) : scan_state :=
  match remaining with
  | [] => st
  | kw_data :: rest =>
      let kw := task_keyword kw_data in
      let cat := task_category kw_data in
      let '(result, tr) := get_keyword_data (api kw) kw cat in
      let results := st_results st ++ [result] in
      let saved := ((i + 1) mod CHECKPOINT_INTERVAL =? 0)%nat in
      let fs := if saved then save_checkpoint results (st_fs st) else st_fs st in
      let trace :=
        st_trace st ++ [Fetch kw] ++ tr
        ++ (if saved then [CheckpointSaved (List.length results)] else [])
        ++ [Sleep REQUEST_DELAY] in
      scan_loop api rest (S i) (mkScan results fs trace)
  end.

(** The scanning phase of [main] on the deduplicated queue: load the
    checkpoint, fetch what remains, save. *)
Definition scan (na_values : list string) (api : string -> nat -> response)
  (all_keywords : list KeywordTask) (fs : FS) : scan_state :=
  let '(results, processed) := load_checkpoint na_values fs in
  let remaining := remaining_of processed all_keywords in
  match remaining with
  | [] => mkScan results fs []
  | _ =>
      let st := scan_loop api remaining 0 (mkScan results fs []) in
      mkScan (st_results st) (save_checkpoint (st_results st) (st_fs st))
             (st_trace st)
  end.

(** The scan cut short by an interrupt once [n] keywords of this run have
    gone through the loop: the final save is not reached. *)
Definition interrupted_scan (na_values : list string)
  (api : string -> nat -> response)
  (all_keywords : list KeywordTask) (n : nat) (fs : FS) : scan_state :=
  let '(results, processed) := load_checkpoint na_values fs in
  scan_loop api (take n (remaining_of processed all_keywords)) 0
            (mkScan results fs []).

(** The final output of [main]: the whole frame, sorted, goes to the
    output file; the checkpoint is removed.  A frame without rows has no
    [error] column and the summary raises [KeyError] before anything is
    written: [None]. *)
Definition write_output (results : list ScanResult) (fs : FS) : option FS :=
  match results with
  | [] => None
  | _ =>
      let df := sort_values_desc recommendation_score results in
      Some (delete CHECKPOINT_FILE (<[OUTPUT_FILE := to_csv df]> fs))
  end.

(** The rows counted as passing in the summary [main] prints. *)
Definition passing_rows (results : list ScanResult) : list ScanResult :=
  List.filter passes_threshold results.

End FullScan.

(** ** niche_scanner.py *)

Module NicheScanner.

(** *** CONFIGURATION *)

Definition REQUEST_DELAY : nat := 15.
Definition MAX_RETRIES : nat := 3.
Definition RETRY_DELAY : nat := 30.

(** The items of the dictionary literal [WEIGHTS], and the dictionary. *)
Definition WEIGHT_ITEMS : list (string * Q) :=
  [("1mo"%string, 30 # 100); ("3mo"%string, 25 # 100);
   ("6mo"%string, 20 # 100); ("1yr"%string, 15 # 100);
   ("5yr"%string, 10 # 100)].

Definition WEIGHTS : gmap string Q := list_to_map WEIGHT_ITEMS.

Definition MIN_GROWTH_THRESHOLD : Q := 300.
Definition MAX_GROWTH_CAP : Q := 10000.

Definition OUTPUT_FILE : string := "niche_trends_results.csv".
Definition CHECKPOINT_FILE : string := "checkpoint_results.csv".

Definition weight (k : string) : Q := default 0 (WEIGHTS !! k).

(** *** HELPER FUNCTIONS *)

Definition calculate_growth (current past : Q) : Q :=
  if Qle_bool past 0
  then
    if Qpos_bool current
    then MAX_GROWTH_CAP
    else 0
  else
    let growth := ((current - past) / past) * 100 in
    py_min growth MAX_GROWTH_CAP.

Definition calculate_recommendation_score (growth_dict : gmap string Q) : Q :=
  let score :=
    get0 growth_dict "growth_1mo" * weight "1mo" +
    get0 growth_dict "growth_3mo" * weight "3mo" +
    get0 growth_dict "growth_6mo" * weight "6mo" +
    get0 growth_dict "growth_1yr" * weight "1yr" +
    get0 growth_dict "growth_5yr" * weight "5yr" in
  round2 score.

Definition attempt (resp : response) (kw : string) (result : ScanResult)
  : step :=
  match resp with
  | Frame samples related =>
      match samples with
      | [] => Return (set_error (PStr "No data") result) [Request kw]
      | _ =>
          let result :=
            match get_time_periods samples with
            | Some periods =>
                set_metrics
                  (p_current periods)
                  (calculate_growth (p_current periods) (p_5yr_ago periods))
                  (calculate_growth (p_current periods) (p_1yr_ago periods))
                  (calculate_growth (p_current periods) (p_6mo_ago periods))
                  (calculate_growth (p_current periods) (p_3mo_ago periods))
                  (calculate_growth (p_current periods) (p_1mo_ago periods))
                  result
            | None => result
            end in
          let result := read_related related result in
          let growth_dict :=
            dict_of_items
              [("growth_1mo"%string, growth_1mo result);
               ("growth_3mo"%string, growth_3mo result);
               ("growth_6mo"%string, growth_6mo result);
               ("growth_1yr"%string, growth_1yr result);
               ("growth_5yr"%string, growth_5yr result)] in
          let result :=
            set_recommendation_score
              (calculate_recommendation_score growth_dict) result in
          Return result [Request kw; Sleep 2; RelatedRequest kw]
      end
  | Raises error_msg =>
      if is_rate_limit error_msg
      then Continue result [Request kw; Sleep RETRY_DELAY]
      else Return (set_error (PStr error_msg) result) [Request kw]
  end.

Fixpoint retry_loop (api : nat -> response) (kw : string)
  (n i : nat) (result : ScanResult) (trace : list event)
  : ScanResult * list event :=
  match n with
  | O => (set_error (PStr "Max retries exceeded") result, trace)
  | S n' =>
      match attempt (api i) kw result with
      | Return result' tr => (result', trace ++ tr)
      | Continue result' tr => retry_loop api kw n' (S i) result' (trace ++ tr)
      end
  end.

Definition get_keyword_data (api : nat -> response) (kw cat : string)
  : ScanResult * list event :=
  retry_loop api kw MAX_RETRIES 0 (initial_result kw cat) [].

Definition passes_threshold (result : ScanResult) : bool :=
  if truthy (error result) then false
  else
    Qle_bool MIN_GROWTH_THRESHOLD (growth_5yr result) ||
    Qle_bool MIN_GROWTH_THRESHOLD (growth_1yr result) ||
    Qle_bool MIN_GROWTH_THRESHOLD (growth_6mo result) ||
    Qle_bool MIN_GROWTH_THRESHOLD (growth_3mo result) ||
    Qle_bool MIN_GROWTH_THRESHOLD (growth_1mo result).

Definition save_checkpoint (results : list ScanResult) (filename : string)
  (fs : FS) : FS :=
  match results with
  | [] => fs
  | _ => <[filename := to_csv results]> fs
  end.

Definition load_checkpoint (na_values : list string) (filename : string)
  (fs : FS) : list ScanResult * gset pyval :=
  match fs !! filename with
  | Some t =>
      let results := read_csv na_values t in
      let processed := list_to_set (keyword <$> results) in
      (results, processed)
  | None => ([], ∅)
  end.

(** *** save_final_results *)

Definition REPORT_COLUMNS : list string :=
  ["keyword"; "category"; "current_interest";
   "growth_5yr"; "growth_1yr"; "growth_6mo"; "growth_3mo"; "growth_1mo";
   "related_queries"; "rising_queries"; "recommendation_score"]%string.

(** A row of the frame after the column selection [df[columns]]: the
    [error] column is gone. *)
Record ReportRow : Type := mkReport {
  rp_keyword : pyval;
  rp_category : pyval;
  rp_current_interest : Q;
  rp_growth_5yr : Q;
  rp_growth_1yr : Q;
  rp_growth_6mo : Q;
  rp_growth_3mo : Q;
  rp_growth_1mo : Q;
  rp_related_queries : pyval;
  rp_rising_queries : pyval;
  rp_recommendation_score : Q
}.

Definition select_columns (r : ScanResult) : ReportRow :=
  mkReport (keyword r) (category r) (current_interest r)
           (growth_5yr r) (growth_1yr r) (growth_6mo r) (growth_3mo r)
           (growth_1mo r) (related_queries r) (rising_queries r)
           (recommendation_score r).

Definition row_of_report (r : ReportRow) : csv_row :=
  mkRow (write_text (rp_keyword r)) (write_text (rp_category r))
        (rp_current_interest r)
        (rp_growth_5yr r) (rp_growth_1yr r) (rp_growth_6mo r)
        (rp_growth_3mo r) (rp_growth_1mo r)
        (write_text (rp_related_queries r)) (write_text (rp_rising_queries r))
        (rp_recommendation_score r) "".

Definition report_to_csv (df : list ReportRow) : table :=
  mkTable REPORT_COLUMNS (row_of_report <$> df).

(** The rows [save_final_results] keeps: those passing the threshold, or,
    when none passes, all those without an error. *)
Definition selected_rows (results : list ScanResult) : list ScanResult :=
  let passing := List.filter passes_threshold results in
  match passing with
  | [] => List.filter (fun r => negb (truthy (error r))) results
  | _ => passing
  end.

(** [save_final_results]: the frame it returns and the file system it
    leaves.  With no row kept the frame has no column at all and
    [sort_values] raises [KeyError]: [None], nothing is written. *)
Definition save_final_results (results : list ScanResult) (fs : FS)
  : option (list ReportRow * FS) :=
  let passing := selected_rows results in
  match passing with
  | [] => None
  | _ =>
      let df := select_columns <$> passing in
      let df := sort_values_desc rp_recommendation_score df in
      Some (df, delete CHECKPOINT_FILE (<[OUTPUT_FILE := report_to_csv df]> fs))
  end.

(** *** MAIN SCANNER *)

Definition SEED_KEYWORDS : list (string * list string) :=
  [("supplements",
    ["magnesium glycinate"; "magnesium threonate"; "ashwagandha";
     "l-theanine"; "vitamin d3"; "zinc"; "omega 3"; "probiotics";
     "berberine"; "creatine"]);
   ("womens_health",
    ["hormone balance"; "cycle syncing"; "PCOS"; "spearmint tea";
     "myo-inositol"; "seed cycling"; "DIM supplement"; "vitex"]);
   ("gut_health",
    ["gut health"; "bloating relief"; "digestive enzymes"; "bone broth";
     "l-glutamine"; "leaky gut"; "SIBO"; "castor oil pack"]);
   ("sleep_stress",
    ["nervous system regulation"; "cortisol"; "burnout recovery";
     "sleep supplements"; "melatonin alternatives"; "GABA"; "adaptogens"]);
   ("natural_beauty",
    ["gua sha"; "face massage"; "natural botox"; "retinol alternative";
     "hyaluronic acid"; "collagen peptides"; "red light therapy"]);
   ("mens_optimization",
    ["tongkat ali"; "fadogia agrestis"; "testosterone booster";
     "alpha gpc"; "l-tyrosine"; "shilajit"; "turkesterone"])]%string.

(** State of the scanning loops: the running collection, the counter
    [processed_count], the file system and the trace. *)
Record scanner_state : Type := mkScanner {
  sc_results : list ScanResult;
  sc_count : nat;
  sc_fs : FS;
  sc_trace : list event
}.

(** The inner loop [for keyword in keywords] of one category. *)
Fixpoint scan_category (api : string -> nat -> response)
  (processed_keywords : gset pyval) (cat : string) (keywords : list string)
  (st : scanner_state) : scanner_state :=
  match keywords with
  | [] => st
  | kw :: rest =>
      if bool_decide (PStr kw ∈ processed_keywords)
      then scan_category api processed_keywords cat rest st
      else
        let processed_count := S (sc_count st) in
        let '(result, tr) := get_keyword_data (api kw) kw cat in
        let all_results := sc_results st ++ [result] in
        let saved := (processed_count mod 10 =? 0)%nat in
        let fs :=
          if saved then save_checkpoint all_results CHECKPOINT_FILE (sc_fs st)
          else sc_fs st in
        let trace :=
          sc_trace st ++ [Fetch kw] ++ tr
          ++ (if saved then [CheckpointSaved (List.length all_results)] else [])
          ++ [Sleep REQUEST_DELAY] in
        scan_category api processed_keywords cat rest
          (mkScanner all_results processed_count fs trace)
  end.

(** The outer loop [for category, keywords in SEED_KEYWORDS.items()]. *)
Fixpoint scan_categories (api : string -> nat -> response)
  (processed_keywords : gset pyval) (seeds : list (string * list string))
  (st : scanner_state) : scanner_state :=
  match seeds with
  | [] => st
  | (cat, keywords) :: rest =>
      scan_categories api processed_keywords rest
        (scan_category api processed_keywords cat keywords st)
  end.

(** [scan_all_keywords] over a table of seeds: load, scan, final save. *)
Definition scan_seeds (na_values : list string)
  (api : string -> nat -> response) (seeds : list (string * list string))
  (fs : FS) : scanner_state :=
  let '(all_results, processed_keywords) :=
    load_checkpoint na_values CHECKPOINT_FILE fs in
  let st :=
    scan_categories api processed_keywords seeds
      (mkScanner all_results (size processed_keywords) fs []) in
  mkScanner (sc_results st) (sc_count st)
            (save_checkpoint (sc_results st) CHECKPOINT_FILE (sc_fs st))
            (sc_trace st).

Definition scan_all_keywords (na_values : list string)
  (api : string -> nat -> response) (fs : FS) : scanner_state :=
  scan_seeds na_values api SEED_KEYWORDS fs.

(** The entry point: scan, then [save_final_results]. *)
Definition run (na_values : list string) (api : string -> nat -> response)
  (fs : FS) : option (list ReportRow * FS) :=
  let st := scan_all_keywords na_values api fs in
  save_final_results (sc_results st) (sc_fs st).

End NicheScanner.

(** ** Binary floating point

    The interpreter computes on IEEE 754 binary64 numbers.  This module
    evaluates the growth and the score of [full_scan.py] that way, over
    the standard library's specification of the format: every sum,
    difference, product and quotient is the exact result rounded to the
    nearest double, ties to the even one; a decimal literal denotes the
    double nearest to it; an integer is converted exactly. *)

Module Binary64.

Definition prec : Z := 53.
Definition emax : Z := 1024.

Definition add : spec_float -> spec_float -> spec_float := SFadd prec emax.
Definition sub : spec_float -> spec_float -> spec_float := SFsub prec emax.
Definition mul : spec_float -> spec_float -> spec_float := SFmul prec emax.
Definition div : spec_float -> spec_float -> spec_float := SFdiv prec emax.

(** [x <= y] and [x < y]. *)
Definition leb : spec_float -> spec_float -> bool := SFleb.
Definition ltb : spec_float -> spec_float -> bool := SFltb.

(** The double nearest to [num / den], with the given sign. *)
Definition nearest (negative : bool) (num den : positive) : spec_float :=
  let '(m, e, l) := SFdiv_core_binary prec emax (Zpos num) 0 (Zpos den) 0 in
  binary_round_aux prec emax negative m e l.

(** The double a decimal literal denotes: the one nearest to its value. *)
Definition of_Q (q : Q) : spec_float :=
  match Qnum q with
  | Z0 => S754_zero false
  | Zpos n => nearest false n (Qden q)
  | Zneg n => nearest true n (Qden q)
  end.

(** An integer as a double. *)
Definition of_int (z : Z) : spec_float := of_Q (inject_Z z).

(** The exact value of a double (of a finite one; zero otherwise). *)
Definition to_Q (x : spec_float) : Q :=
  match x with
  | S754_finite s m e =>
      let v := match e with
               | Zneg p => Zpos m # (2 ^ p)
               | _ => inject_Z (Zpos m * 2 ^ e)
               end in
      if s then - v else v
  | _ => 0
  end.

(** Python's [round(x, 2)] on a float: the exact value of [x] rounded to
    the nearest multiple of 1/100, ties to the even one, and the double
    nearest to that decimal; a zero result keeps the sign of [x];
    infinities and NaN are returned as they are. *)
Definition round2 (x : spec_float) : spec_float :=
  match x with
  | S754_finite s _ _ =>
      match round_half_even (to_Q x * 100) with
      | Z0 => S754_zero s
      | Zpos n => nearest false n 100
      | Zneg n => nearest true n 100
      end
  | _ => x
  end.

(** Python's [min(a, b)]: [b] only when [b < a]. *)
Definition py_min (a b : spec_float) : spec_float := if ltb b a then b else a.

Definition MAX_GROWTH_CAP : spec_float := of_int 10000.

(** The items of the dictionary literal [WEIGHTS], and the dictionary. *)
Definition WEIGHT_ITEMS : list (string * spec_float) :=
  [("1mo"%string, of_Q (30 # 100)); ("3mo"%string, of_Q (25 # 100));
   ("6mo"%string, of_Q (20 # 100)); ("1yr"%string, of_Q (15 # 100));
   ("5yr"%string, of_Q (10 # 100))].

Definition WEIGHTS : gmap string spec_float := list_to_map WEIGHT_ITEMS.

(** [WEIGHTS[k]]; the five keys the script subscripts with are present. *)
Definition weight (k : string) : spec_float := default (of_int 0) (WEIGHTS !! k).

Definition calculate_growth (current past : spec_float) : spec_float :=
  if leb past (of_int 0)
  then (if ltb (of_int 0) current then MAX_GROWTH_CAP else of_int 0)
  else
    let growth := mul (div (sub current past) past) (of_int 100) in
    py_min growth MAX_GROWTH_CAP.

(** [g.get(k, 0)]. *)
Definition get0 (g : gmap string spec_float) (k : string) : spec_float :=
  default (of_int 0) (g !! k).

Definition calculate_score (g : gmap string spec_float) : spec_float :=
  round2 (add (add (add (add (mul (get0 g "growth_1mo") (weight "1mo"))
                             (mul (get0 g "growth_3mo") (weight "3mo")))
                        (mul (get0 g "growth_6mo") (weight "6mo")))
                   (mul (get0 g "growth_1yr") (weight "1yr")))
              (mul (get0 g "growth_5yr") (weight "5yr"))).

End Binary64.

(** ** The specification's vocabulary *)

(** The growth formula as the specification words it: the cap from a zero
    baseline, zero from zero to zero, and the percentage change clamped
    from above otherwise. *)
Definition growth_spec (cap current past g : Q) : Prop :=
  (past == 0 -> 0 < current -> g == cap) /\
  (past == 0 -> current == 0 -> g == 0) /\
  (~ past == 0 ->
     let pct := ((current - past) / past) * 100 in
     (pct <= cap -> g == pct) /\ (cap <= pct -> g == cap)).


(** The score as the specification words it.  The growth of a horizon in
    a profile, zero when the profile has no value for it. *)
Definition horizon_growth (g : gmap string spec_float) (horizon : string)
  : spec_float :=
  match g !! ("growth_" +:+ horizon)%string with
  | Some v => v
  | None => S754_zero false
  end.

(** The sum of a list of doubles, added from left to right. *)
Definition sum_left (l : list spec_float) : spec_float :=
  match l with
  | [] => S754_zero false
  | x :: l' => foldl Binary64.add x l'
  end.

(** The weighted sum of a profile over a table of weights: growth times
    weight for each horizon of the table, added in table order. *)
Definition weighted_sum (weights : list (string * spec_float))
  (g : gmap string spec_float) : spec_float :=
  sum_left ((fun hw => Binary64.mul (horizon_growth g hw.1) hw.2) <$> weights).

(** The double written with two decimals: the one nearest to [n/100]. *)
Definition hundredths (n : Z) : spec_float := Binary64.of_Q (n # 100).


(** At least one horizon reaches the threshold. *)
Definition any_horizon_reaches (t : Q) (r : ScanResult) : Prop :=
  t <= growth_5yr r \/ t <= growth_1yr r \/ t <= growth_6mo r \/
  t <= growth_3mo r \/ t <= growth_1mo r.

(** [sub] occurs in [s]; and it occurs in some mix of upper and lower
    case. *)
Definition occurs_in (sub s : string) : Prop :=
  exists pre post : string, s = (pre +:+ sub +:+ post)%string.

Definition occurs_ignoring_case (sub s : string) : Prop :=
  exists pre mid post : string,
    s = (pre +:+ mid +:+ post)%string /\ lower mid = sub.

(** The rate-limit signal in the text of a failure. *)
Definition rate_limit_signal (msg : string) : Prop :=
  occurs_in "429" msg \/ occurs_ignoring_case "rate" msg.

Definition rate_limited (resp : response) : Prop :=
  exists msg : string, resp = Raises msg /\ rate_limit_signal msg.

(** The first [k] answers of the API are rate-limit failures. *)
Definition leading_rate_limits (api : nat -> response) (k : nat) : Prop :=
  forall j : nat, (j < k)%nat -> rate_limited (api j).

(** The fetch fails terminally within [max] attempts: every attempt is
    rate-limited, or the first answer that is not is an empty frame or
    another failure. *)
Definition fails_terminally (max : nat) (api : nat -> response) : Prop :=
  leading_rate_limits api max \/
  exists k : nat,
    (k < max)%nat /\ leading_rate_limits api k /\
    ((exists rel, api k = Frame [] rel) \/
     (exists msg, api k = Raises msg /\ ~ rate_limit_signal msg)).

(** The fetch succeeds within [max] attempts: the first answer that is not
    a rate-limit failure is a frame with samples. *)
Definition succeeds (max : nat) (api : nat -> response) : Prop :=
  exists k : nat,
    (k < max)%nat /\ leading_rate_limits api k /\
    exists x xs rel, api k = Frame (x :: xs) rel.

(** The trace of [k] rate-limited attempts: a request and a backoff sleep
    each. *)
Fixpoint backoffs (kw : string) (delay k : nat) : list event :=
  match k with
  | O => []
  | S k' => Request kw :: Sleep delay :: backoffs kw delay k'
  end.

(** What a text field is after a checkpoint has been written and read
    again, in the specification's terms: a string that is not a
    missing-value token is itself, anything else is the missing value. *)
Definition reads_back (na_values : list string) (v : pyval) : pyval :=
  match v with
  | PStr s => if bool_decide (s ∈ na_values) then PNaN else PStr s
  | PNone | PNaN => PNaN
  end.

(** The same for a whole record: text fields read back, numbers as they
    were. *)
Definition reloaded (na_values : list string) (r : ScanResult) : ScanResult :=
  mkResult (reads_back na_values (keyword r))
           (reads_back na_values (category r))
           (current_interest r)
           (growth_5yr r) (growth_1yr r) (growth_6mo r) (growth_3mo r)
           (growth_1mo r)
           (reads_back na_values (related_queries r))
           (reads_back na_values (rising_queries r))
           (recommendation_score r)
           (reads_back na_values (error r)).

(** A text field that a checkpoint keeps as it is. *)
Definition kept_text (na_values : list string) (v : pyval) : Prop :=
  exists s : string, v = PStr s /\ s ∉ na_values.

Definition kept_record (na_values : list string) (r : ScanResult) : Prop :=
  kept_text na_values (keyword r) /\ kept_text na_values (category r) /\
  kept_text na_values (related_queries r) /\
  kept_text na_values (rising_queries r) /\
  kept_text na_values (error r).

(** The identity of a keyword: its text in lower case; of a record, and
    of a task of the queue. *)
Definition identity (r : ScanResult) : pyval := str_lower (keyword r).

Definition task_identity (k : FullScan.KeywordTask) : pyval :=
  PStr (lower (FullScan.task_keyword k)).

(** The keywords a run has fetched, in order. *)
Definition fetched (trace : list event) : list string :=
  omap (fun e => match e with Fetch kw => Some kw | _ => None end) trace.

(** The keyword column of the checkpoint file, as the texts in the file;
    no text without a file. *)
Definition checkpoint_keywords (fs : FS) : list string :=
  match fs !! FullScan.CHECKPOINT_FILE with
  | Some t => c_keyword <$> body t
  | None => []
  end.

(** The file systems a run of [full_scan.py] over a queue can find: one
    without a checkpoint file, or what an earlier run over the same queue
    left behind, whatever the API answered it, when it was interrupted
    once [n] keywords had gone through the loop, or after the loop and
    its last save. *)
Inductive resumable (na_values : list string)
  (queue : list FullScan.KeywordTask) : FS -> Prop :=
| resumable_fresh (fs : FS) :
    fs !! FullScan.CHECKPOINT_FILE = None ->
    resumable na_values queue fs
| resumable_interrupted (api : string -> nat -> response) (n : nat) (fs : FS) :
    resumable na_values queue fs ->
    resumable na_values queue
      (FullScan.st_fs (FullScan.interrupted_scan na_values api queue n fs))
| resumable_scanned (api : string -> nat -> response) (fs : FS) :
    resumable na_values queue fs ->
    resumable na_values queue
      (FullScan.st_fs (FullScan.scan na_values api queue fs)).



(** The number of requests a trace records, and the seconds slept. *)
Definition requests (trace : list event) : nat :=
  List.length (omap (fun e => match e with Request kw => Some kw | _ => None end)
                    trace).

Definition seconds_slept (trace : list event) : nat :=
  foldr Nat.add 0%nat
        (omap (fun e => match e with Sleep n => Some n | _ => None end) trace).

(** The pauses of a given length in a trace. *)
Definition pauses (seconds : nat) (trace : list event) : nat :=
  List.length
    (omap (fun e => match e with
                    | Sleep n => if (n =? seconds)%nat then Some n else None
                    | _ => None
                    end) trace).

(** The records one fetch per task gives, in the two scripts. *)
Definition fetch_all (api : string -> nat -> response)
  (tasks : list FullScan.KeywordTask) : list ScanResult :=
  (fun k => (FullScan.get_keyword_data (api (FullScan.task_keyword k))
               (FullScan.task_keyword k) (FullScan.task_category k)).1)
  <$> tasks.

Definition niche_fetch_all (api : string -> nat -> response)
  (tasks : list (string * string)) : list ScanResult :=
  (fun ck => (NicheScanner.get_keyword_data (api ck.2) ck.2 ck.1).1) <$> tasks.

(** The (category, keyword) pairs of a table of seeds, in scanning order. *)
Definition seed_pairs (seeds : list (string * list string))
  : list (string * string) :=
  seeds ≫= (fun '(cat, kws) => (fun kw => (cat, kw)) <$> kws).

(** Two answers of the API that differ at most in the related queries. *)
Definition same_samples (r1 r2 : response) : Prop :=
  match r1, r2 with
  | Raises m1, Raises m2 => m1 = m2
  | Frame s1 _, Frame s2 _ => s1 = s2
  | _, _ => False
  end.

(** Two records that differ at most in the two related-queries texts. *)
Definition same_but_queries (a b : ScanResult) : Prop :=
  keyword a = keyword b /\ category a = category b /\
  current_interest a = current_interest b /\
  growth_5yr a = growth_5yr b /\ growth_1yr a = growth_1yr b /\
  growth_6mo a = growth_6mo b /\ growth_3mo a = growth_3mo b /\
  growth_1mo a = growth_1mo b /\
  recommendation_score a = recommendation_score b /\ error a = error b.

(** The five horizon growths of a record. *)
Definition growths (r : ScanResult) : list Q :=
  [growth_5yr r; growth_1yr r; growth_6mo r; growth_3mo r; growth_1mo r].

(** The growth dictionary [get_keyword_data] scores. *)
Definition growth_dict (g5 g1 g6 g3 gm : Q) : gmap string Q :=
  dict_of_items [("growth_1mo"%string, gm); ("growth_3mo"%string, g3);
                 ("growth_6mo"%string, g6); ("growth_1yr"%string, g1);
                 ("growth_5yr"%string, g5)].

(** The past value of a horizon as the specification words it: the
    sample [k] places from the end when the series has that many, else
    the earliest one. *)
Definition past_at (k : nat) (col : list Q) : Q :=
  if (k <=? List.length col)%nat then nth (List.length col - k) col 0
  else nth 0 col 0.

(** The exact weighted sum [calculate_score] rounds. *)
Definition exact_score (g : gmap string Q) : Q :=
  get0 g "growth_1mo" * (30 # 100) + get0 g "growth_3mo" * (25 # 100) +
  get0 g "growth_6mo" * (20 # 100) + get0 g "growth_1yr" * (15 # 100) +
  get0 g "growth_5yr" * (10 # 100).

(** The key the deduplication loop of [main] remembers for a task, and
    the keys of a list of tasks. *)
Definition task_key (k : FullScan.KeywordTask) : string :=
  lower (FullScan.task_keyword k).

Definition task_keys (l : list FullScan.KeywordTask) : gset string :=
  list_to_set (task_key <$> l).

(** The seed tasks of [full_scan.py], in the order of the table. *)
Definition SEED_TASKS : list FullScan.KeywordTask := FullScan.build_keywords [].

(** The (category, keyword) pairs [scan_all_keywords] still has to fetch:
    those whose keyword, as written in the table, is not in the processed
    set. *)
Definition niche_remaining (processed : gset pyval)
  (seeds : list (string * list string)) : list (string * string) :=
  filter (fun ck => PStr ck.2 ∉ processed) (seed_pairs seeds).

(** Two records that differ at most in the text of their error, and
    have an error or not together. *)
Definition same_but_error_text (a b : ScanResult) : Prop :=
  keyword a = keyword b /\ category a = category b /\
  current_interest a = current_interest b /\
  growth_5yr a = growth_5yr b /\ growth_1yr a = growth_1yr b /\
  growth_6mo a = growth_6mo b /\ growth_3mo a = growth_3mo b /\
  growth_1mo a = growth_1mo b /\
  related_queries a = related_queries b /\
  rising_queries a = rising_queries b /\
  recommendation_score a = recommendation_score b /\
  (error a = PNone <-> error b = PNone).

(** * Part II: the properties *)

(** ** Numeric helpers *)

(** Closed decidable facts (no duplicates in a literal list, membership
    in one) by evaluation. *)
Ltac by_evaluation := apply (bool_decide_unpack _); vm_compute; exact I.

Lemma Qle_bool_false (a b : Q) : Qle_bool a b = false <-> b < a.
Proof.
  split; intros H.
  - apply Qnot_le_lt. intros Hle. apply Qle_bool_iff in Hle. congruence.
  - destruct (Qle_bool a b) eqn:E; [|reflexivity].
    apply Qle_bool_iff in E. lra.
Qed.

Lemma Qpos_bool_true (x : Q) : Qpos_bool x = true <-> 0 < x.
Proof.
  unfold Qpos_bool. rewrite negb_true_iff. apply Qle_bool_false.
Qed.

Lemma Qpos_bool_false (x : Q) : Qpos_bool x = false <-> x <= 0.
Proof.
  unfold Qpos_bool. rewrite negb_false_iff. apply Qle_bool_iff.
Qed.

Lemma py_min_le_r (a b : Q) : py_min a b <= b.
Proof.
  unfold py_min. destruct (Qle_bool a b) eqn:E.
  - now apply Qle_bool_iff.
  - lra.
Qed.

Lemma py_min_l (a b : Q) : a <= b -> py_min a b == a.
Proof.
  intros H. unfold py_min. apply Qle_bool_iff in H. rewrite H. reflexivity.
Qed.

Lemma py_min_r (a b : Q) : b <= a -> py_min a b == b.
Proof.
  intros H. unfold py_min. destruct (Qle_bool a b) eqn:E.
  - apply Qle_bool_iff in E. lra.
  - reflexivity.
Qed.

Lemma pct_change_floor (current past : Q) :
  0 <= current -> 0 < past -> -(100) <= ((current - past) / past) * 100.
Proof.
  intros Hc Hp.
  assert (E : ((current - past) / past) * 100 == (current / past) * 100 - 100)
    by (field; lra).
  rewrite E.
  assert (0 <= current / past) by (apply Qle_shift_div_l; lra).
  lra.
Qed.

Lemma growth_scripts_agree (current past : Q) :
  FullScan.calculate_growth current past =
  NicheScanner.calculate_growth current past.
Proof. reflexivity. Qed.

Lemma Qfloor_frac (x : Q) :
  0 <= x - inject_Z (Qfloor x) /\ x - inject_Z (Qfloor x) < 1.
Proof.
  pose proof (Qfloor_le x) as Hlo. pose proof (Qlt_floor x) as Hhi.
  rewrite inject_Z_plus in Hhi. change (inject_Z 1) with 1 in Hhi.
  split; lra.
Qed.

Lemma round_half_even_cases (x : Q) :
  (round_half_even x = Qfloor x /\ x - inject_Z (Qfloor x) <= 1 # 2) \/
  (round_half_even x = (Qfloor x + 1)%Z /\ 1 # 2 <= x - inject_Z (Qfloor x)).
Proof.
  unfold round_half_even. cbn zeta.
  destruct (Qle_bool (x - inject_Z (Qfloor x)) (1 # 2)) eqn:E1.
  - apply Qle_bool_iff in E1.
    destruct (Qle_bool (1 # 2) (x - inject_Z (Qfloor x))) eqn:E2.
    + apply Qle_bool_iff in E2.
      destruct (Z.even (Qfloor x)); [left | right]; split; auto.
    + left. split; auto.
  - apply Qle_bool_false in E1. right. split; [reflexivity | lra].
Qed.


(** ** C1: the growth formula *)

(** C1. For every pair of non-negative numbers (current, past),
    calculate_growth returns MAX_GROWTH_CAP when past is zero and current
    is positive, zero when both are zero, and otherwise the percentage
    change ((current - past) / past) * 100 clamped from above at
    MAX_GROWTH_CAP.  Both scripts' definitions are covered. *)
Theorem calculate_growth_cases (current past : Q) :
  0 <= current -> 0 <= past ->
  growth_spec FullScan.MAX_GROWTH_CAP current past (FullScan.calculate_growth current past) /\
  growth_spec NicheScanner.MAX_GROWTH_CAP current past (NicheScanner.calculate_growth current past).
Proof.
  intros Hc Hp.
  assert (G : growth_spec FullScan.MAX_GROWTH_CAP current past
                (FullScan.calculate_growth current past)).
  { unfold growth_spec, FullScan.calculate_growth.
    destruct (Qle_bool past 0) eqn:E.
    - apply Qle_bool_iff in E.
      assert (P0 : past == 0) by lra.
      repeat split.
      + intros _ Hpos. apply Qpos_bool_true in Hpos. now rewrite Hpos.
      + intros _ Hz.
        assert (Hn : Qpos_bool current = false)
          by (apply Qpos_bool_false; lra).
        now rewrite Hn.
      + contradiction.
      + contradiction.
    - apply Qle_bool_false in E.
      repeat split.
      + intros P0. lra.
      + intros P0. lra.
      + intros Hle. now apply py_min_l.
      + intros Hge. now apply py_min_r. }
  split; exact G.
Qed.

Lemma calculate_growth_cases_witness :
  growth_spec FullScan.MAX_GROWTH_CAP 80 20 (FullScan.calculate_growth 80 20) /\
  growth_spec NicheScanner.MAX_GROWTH_CAP 80 20 (NicheScanner.calculate_growth 80 20).
Proof.
  apply (calculate_growth_cases 80 20); unfold Qle; simpl; lia.
Defined.

(** ** C9: range of the growth value *)

(** C9. For every pair of non-negative numbers (current, past),
    calculate_growth is at most MAX_GROWTH_CAP and at least -100; nothing
    clamps from below, and every value between -100 and MAX_GROWTH_CAP is
    the growth of some non-negative pair. *)
Theorem calculate_growth_range :
  (forall current past : Q,
      0 <= current -> 0 <= past ->
      -(100) <= FullScan.calculate_growth current past <= FullScan.MAX_GROWTH_CAP /\
      -(100) <= NicheScanner.calculate_growth current past <= NicheScanner.MAX_GROWTH_CAP) /\
  (forall v : Q,
      -(100) <= v <= FullScan.MAX_GROWTH_CAP ->
      exists current past : Q,
        0 <= current /\ 0 <= past /\
        FullScan.calculate_growth current past == v /\
        NicheScanner.calculate_growth current past == v).
Proof.
  split.
  - intros current past Hc Hp.
    assert (G : -(100) <= FullScan.calculate_growth current past
                <= FullScan.MAX_GROWTH_CAP).
    { unfold FullScan.calculate_growth.
      destruct (Qle_bool past 0) eqn:E.
      - destruct (Qpos_bool current); unfold FullScan.MAX_GROWTH_CAP; lra.
      - apply Qle_bool_false in E. split.
        + unfold py_min.
          destruct (Qle_bool _ FullScan.MAX_GROWTH_CAP).
          * now apply pct_change_floor.
          * unfold FullScan.MAX_GROWTH_CAP; lra.
        + apply py_min_le_r. }
    split; exact G.
  - intros v [Hlo Hhi].
    exists (1 + v / 100), 1.
    assert (E : ((1 + v / 100 - 1) / 1) * 100 == v) by field.
    assert (G : FullScan.calculate_growth (1 + v / 100) 1 == v).
    { unfold FullScan.calculate_growth.
      replace (Qle_bool 1 0) with false by reflexivity.
      rewrite py_min_l; [exact E | rewrite E; exact Hhi]. }
    repeat split; try exact G.
    + assert (-(1) <= v / 100) by (apply Qle_shift_div_l; lra). lra.
    + lra.
Qed.

Lemma calculate_growth_range_witness :
  -(100) <= FullScan.calculate_growth 0 7 <= FullScan.MAX_GROWTH_CAP /\
  -(100) <= NicheScanner.calculate_growth 0 7 <= NicheScanner.MAX_GROWTH_CAP.
Proof.
  apply (proj1 calculate_growth_range 0 7); unfold Qle; simpl; lia.
Defined.

(** ** C5: passes_threshold *)

Lemma full_passes_threshold_iff (r : ScanResult) :
  FullScan.passes_threshold r = true <->
  truthy (error r) = false /\
  any_horizon_reaches FullScan.MIN_GROWTH_THRESHOLD r.
Proof.
  unfold FullScan.passes_threshold, any_horizon_reaches.
  destruct (truthy (error r)); simpl.
  - split; [discriminate | intros [? _]; discriminate].
  - unfold id. rewrite orb_false_r, !orb_true_iff, !Qle_bool_iff. tauto.
Qed.

Lemma niche_passes_threshold_iff (r : ScanResult) :
  NicheScanner.passes_threshold r = true <->
  truthy (error r) = false /\
  any_horizon_reaches NicheScanner.MIN_GROWTH_THRESHOLD r.
Proof.
  unfold NicheScanner.passes_threshold, any_horizon_reaches.
  destruct (truthy (error r)); simpl.
  - split; [discriminate | intros [? _]; discriminate].
  - rewrite !orb_true_iff, !Qle_bool_iff. tauto.
Qed.

Lemma truthy_false_iff (v : pyval) :
  truthy v = false <-> v = PNone \/ v = PStr "".
Proof.
  destruct v as [| |s]; simpl.
  - split; [auto | reflexivity].
  - split; [discriminate | intros [|]; discriminate].
  - rewrite negb_false_iff, String.eqb_eq.
    split; [intros ->; auto | intros [|[= ->]]; [discriminate | reflexivity]].
Qed.

Lemma error_read_related (rel : related_response) (r : ScanResult) :
  error (read_related rel r) = error r.
Proof.
  destruct rel as [| |top rising]; try reflexivity.
  destruct top, rising; reflexivity.
Qed.








(** ** C7: the recommendation score *)

Lemma round_half_even_comp (x y : Q) :
  x == y -> round_half_even x = round_half_even y.
Proof.
  intros E. unfold round_half_even.
  rewrite (Qfloor_comp x y E).
  assert (E' : x - inject_Z (Qfloor y) == y - inject_Z (Qfloor y))
    by (rewrite E; reflexivity).
  rewrite (Qleb_comp _ _ E' (1 # 2) (1 # 2) (Qeq_refl _)).
  rewrite (Qleb_comp (1 # 2) (1 # 2) (Qeq_refl _) _ _ E').
  reflexivity.
Qed.

(** The five subscripts [WEIGHTS['1mo']], ... are defined. *)
Lemma weights_defined :
  FullScan.WEIGHTS !! "1mo"%string = Some (30 # 100) /\
  FullScan.WEIGHTS !! "3mo"%string = Some (25 # 100) /\
  FullScan.WEIGHTS !! "6mo"%string = Some (20 # 100) /\
  FullScan.WEIGHTS !! "1yr"%string = Some (15 # 100) /\
  FullScan.WEIGHTS !! "5yr"%string = Some (10 # 100).
Proof. repeat split; reflexivity. Qed.











(** The series 7, 16, 0, 0, 0, 13: the growth over one month is -18.75,
    over the other horizons 85.71428571428571; the weighted sum is the
    double just below 54.375, and the score is 54.37. *)
Example score_of_series :
  let past := Binary64.calculate_growth (Binary64.of_int 13) (Binary64.of_int 7) in
  let month := Binary64.calculate_growth (Binary64.of_int 13) (Binary64.of_int 16) in
  let g := dict_of_items [("growth_1mo"%string, month);
                          ("growth_3mo"%string, past);
                          ("growth_6mo"%string, past);
                          ("growth_1yr"%string, past);
                          ("growth_5yr"%string, past)] in
  month = Binary64.of_Q (-1875 # 100) /\
  past = Binary64.of_Q (8571428571428571 # 100000000000000) /\
  Binary64.to_Q (weighted_sum Binary64.WEIGHT_ITEMS g)
    == (54375 # 1000) - (1 # 2 ^ 47) /\
  Binary64.calculate_score g = hundredths 5437.
Proof. vm_compute. repeat split. Qed.

(** ** Text search *)

Lemma append_nil (s : string) : ("" +:+ s)%string = s.
Proof. reflexivity. Qed.

Lemma append_cons (c : ascii) (a b : string) :
  (String c a +:+ b)%string = String c (a +:+ b).
Proof. reflexivity. Qed.

Lemma prefix_spec (p s : string) :
  String.prefix p s = true <-> exists post, s = (p +:+ post)%string.
Proof.
  revert s. induction p as [|c p IH]; intros s.
  - split; [intros _; now exists s | intros _; now destruct s].
  - destruct s as [|d s].
    + split; [discriminate | intros [post E]; discriminate E].
    + simpl. destruct (Ascii.ascii_dec c d) as [->|Hne].
      * rewrite IH. split; intros [post E]; exists post.
        -- now rewrite append_cons, <- E.
        -- rewrite append_cons in E. now injection E.
      * split; [discriminate |].
        intros [post E]. rewrite append_cons in E. injection E as E1 E2.
        congruence.
Qed.

Lemma contains_spec (sub s : string) :
  contains sub s = true <-> occurs_in sub s.
Proof.
  unfold occurs_in. induction s as [|c s IH].
  - cbn [contains]. rewrite orb_false_r, prefix_spec. split.
    + intros [post E]. now exists ""%string, post.
    + intros (pre & post & E). destruct pre as [|d pre]; [|discriminate E].
      now exists post.
  - cbn [contains]. rewrite orb_true_iff, IH, prefix_spec. split.
    + intros [[post E] | (pre & post & E)].
      * now exists ""%string, post.
      * exists (String c pre), post. now rewrite append_cons, <- E.
    + intros (pre & post & E). destruct pre as [|d pre].
      * left. now exists post.
      * right. rewrite append_cons in E. injection E as _ E.
        now exists pre, post.
Qed.

Lemma lower_app (a b : string) :
  lower (a +:+ b) = (lower a +:+ lower b)%string.
Proof.
  induction a as [|c a IH]; [reflexivity|].
  rewrite append_cons. cbn [lower]. now rewrite IH, append_cons.
Qed.

Lemma lower_split (s a b : string) :
  lower s = (a +:+ b)%string ->
  exists a' b', s = (a' +:+ b')%string /\ lower a' = a /\ lower b' = b.
Proof.
  revert s. induction a as [|c a IH]; intros s E.
  - now exists ""%string, s.
  - destruct s as [|d s]; [discriminate E|].
    rewrite append_cons in E. cbn [lower] in E. injection E as E1 E2.
    destruct (IH s E2) as (a' & b' & -> & Ha & Hb).
    exists (String d a'), b'. cbn [lower]. now rewrite E1, Ha.
Qed.

Lemma contains_lower_spec (sub s : string) :
  contains sub (lower s) = true <-> occurs_ignoring_case sub s.
Proof.
  rewrite contains_spec. unfold occurs_in, occurs_ignoring_case. split.
  - intros (pre & post & E).
    destruct (lower_split _ _ _ E) as (pre' & rest & -> & Hpre & Hrest).
    destruct (lower_split _ _ _ Hrest) as (mid & post' & -> & Hmid & Hpost).
    now exists pre', mid, post'.
  - intros (pre & mid & post & -> & <-).
    exists (lower pre), (lower post). now rewrite !lower_app.
Qed.

Lemma is_rate_limit_spec (msg : string) :
  is_rate_limit msg = true <-> rate_limit_signal msg.
Proof.
  unfold is_rate_limit, rate_limit_signal.
  now rewrite orb_true_iff, contains_spec, contains_lower_spec.
Qed.

Lemma is_rate_limit_false (msg : string) :
  is_rate_limit msg = false <-> ~ rate_limit_signal msg.
Proof.
  rewrite <- is_rate_limit_spec.
  destruct (is_rate_limit msg); split; try discriminate; auto.
  intros H; now contradict H.
Qed.

(** [s[:n]] holds at most [n] characters and starts [s]. *)
Lemma slice_to_length (n : nat) (s : string) :
  (String.length (slice_to n s) <= n)%nat.
Proof.
  unfold slice_to. revert s. induction n as [|n IH]; intros [|c s]; simpl;
    try lia.
  specialize (IH s). lia.
Qed.

Lemma slice_to_prefix (n : nat) (s : string) :
  exists rest, s = (slice_to n s +:+ rest)%string.
Proof.
  unfold slice_to. revert s. induction n as [|n IH]; intros [|c s]; simpl.
  - now exists ""%string.
  - now exists (String c s).
  - now exists ""%string.
  - destruct (IH s) as [rest E]. exists rest. now rewrite append_cons, <- E.
Qed.

Lemma slice_to_short (n : nat) (s : string) :
  (String.length s <= n)%nat -> slice_to n s = s.
Proof.
  unfold slice_to. revert s. induction n as [|n IH]; intros [|c s]; simpl;
    try reflexivity; try lia.
  intros H. rewrite IH; [reflexivity | lia].
Qed.

(** ** The retry loop of get_keyword_data *)

Lemma rate_limited_attempt (resp : response) (kw : string) (r : ScanResult) :
  rate_limited resp ->
  FullScan.attempt resp kw r =
  Continue r [Request kw; Sleep FullScan.RETRY_DELAY].
Proof.
  intros (msg & -> & Hsig). unfold FullScan.attempt.
  apply is_rate_limit_spec in Hsig. now rewrite Hsig.
Qed.

Lemma backoffs_snoc (kw : string) (delay k : nat) :
  backoffs kw delay (S k) =
  backoffs kw delay k ++ [Request kw; Sleep delay].
Proof.
  induction k as [|k IH]; [reflexivity|].
  cbn [backoffs] in *. rewrite <- !app_comm_cons. do 2 f_equal. exact IH.
Qed.

(** [k] rate-limited answers cost [k] passes of the loop, each leaving a
    request and a backoff sleep in the trace and the result untouched. *)
Lemma retry_loop_backoff (api : nat -> response) (kw : string)
  (k n : nat) (r : ScanResult) (tr : list event) :
  leading_rate_limits api k ->
  FullScan.retry_loop api kw (k + n) 0 r tr =
  FullScan.retry_loop api kw n k r
    (tr ++ backoffs kw FullScan.RETRY_DELAY k).
Proof.
  intros Hk. revert n. induction k as [|k IH]; intros n.
  - simpl. now rewrite app_nil_r.
  - replace (S k + n)%nat with (k + S n)%nat by lia.
    rewrite IH by (intros j Hj; apply Hk; lia).
    cbn [FullScan.retry_loop].
    rewrite (rate_limited_attempt (api k) kw r) by (apply Hk; lia).
    rewrite backoffs_snoc, app_assoc. reflexivity.
Qed.

Lemma get_keyword_data_after_backoff (api : nat -> response) (kw cat : string)
  (k : nat) :
  (k < FullScan.MAX_RETRIES)%nat ->
  leading_rate_limits api k ->
  FullScan.get_keyword_data api kw cat =
  match FullScan.attempt (api k) kw (initial_result kw cat) with
  | Return r tr => (r, backoffs kw FullScan.RETRY_DELAY k ++ tr)
  | Continue r tr =>
      FullScan.retry_loop api kw (FullScan.MAX_RETRIES - S k) (S k) r
        (backoffs kw FullScan.RETRY_DELAY k ++ tr)
  end.
Proof.
  intros Hlt Hk. unfold FullScan.get_keyword_data.
  replace FullScan.MAX_RETRIES
    with (k + S (FullScan.MAX_RETRIES - S k))%nat at 1 by lia.
  rewrite retry_loop_backoff by exact Hk.
  cbn [FullScan.retry_loop]. rewrite app_nil_l.
  destruct (FullScan.attempt (api k) kw (initial_result kw cat)); reflexivity.
Qed.

Lemma keyword_read_related (rel : related_response) (r : ScanResult) :
  keyword (read_related rel r) = keyword r.
Proof.
  destruct rel as [| |top rising]; try reflexivity.
  destruct top, rising; reflexivity.
Qed.

(** The retry policy of [full_scan.py]: rate-limited answers are retried
    after a backoff sleep, at most [MAX_RETRIES] attempts in all, then the
    result carries 'Max retries'; another failure ends the fetch at once
    with the first 50 characters of its text; an empty frame ends it at
    once with 'No data'. *)
Lemma full_scan_retry_policy (api : nat -> response) (kw cat : string) :
  (leading_rate_limits api FullScan.MAX_RETRIES ->
   FullScan.get_keyword_data api kw cat =
   (set_error (PStr "Max retries") (initial_result kw cat),
    backoffs kw FullScan.RETRY_DELAY FullScan.MAX_RETRIES)) /\
  (forall (k : nat) (msg : string),
      (k < FullScan.MAX_RETRIES)%nat -> leading_rate_limits api k ->
      api k = Raises msg -> ~ rate_limit_signal msg ->
      FullScan.get_keyword_data api kw cat =
      (set_error (PStr (slice_to 50 msg)) (initial_result kw cat),
       backoffs kw FullScan.RETRY_DELAY k ++ [Request kw])) /\
  (forall (k : nat) (rel : related_response),
      (k < FullScan.MAX_RETRIES)%nat -> leading_rate_limits api k ->
      api k = Frame [] rel ->
      FullScan.get_keyword_data api kw cat =
      (set_error (PStr "No data") (initial_result kw cat),
       backoffs kw FullScan.RETRY_DELAY k ++ [Request kw])).
Proof.
  repeat split.
  - intros Hall. unfold FullScan.get_keyword_data.
    replace FullScan.MAX_RETRIES with (FullScan.MAX_RETRIES + 0)%nat at 1
      by lia.
    now rewrite retry_loop_backoff.
  - intros k msg Hlt Hk Hresp Hsig.
    rewrite (get_keyword_data_after_backoff api kw cat k Hlt Hk), Hresp.
    unfold FullScan.attempt.
    apply is_rate_limit_false in Hsig. now rewrite Hsig.
  - intros k rel Hlt Hk Hresp.
    now rewrite (get_keyword_data_after_backoff api kw cat k Hlt Hk), Hresp.
Qed.

(** Every table of answers either fails terminally or succeeds. *)
Lemma response_dec (resp : response) :
  rate_limited resp \/
  (exists rel, resp = Frame [] rel) \/
  (exists msg, resp = Raises msg /\ ~ rate_limit_signal msg) \/
  (exists x xs rel, resp = Frame (x :: xs) rel).
Proof.
  destruct resp as [msg | [|x xs] rel].
  - destruct (is_rate_limit msg) eqn:E.
    + left. exists msg. split; [reflexivity | now apply is_rate_limit_spec].
    + right; right; left. exists msg.
      split; [reflexivity | now apply is_rate_limit_false].
  - right; left. now exists rel.
  - right; right; right. now exists x, xs, rel.
Qed.

Lemma fetch_outcome_total (max : nat) (api : nat -> response) :
  fails_terminally max api \/ succeeds max api.
Proof.
  assert (H : forall k, (k <= max)%nat ->
              leading_rate_limits api k \/
              fails_terminally max api \/ succeeds max api).
  { induction k as [|k IH]; intros Hle.
    - left. intros j Hj. lia.
    - destruct IH as [Hk | Hdone]; [lia | | now right].
      destruct (response_dec (api k)) as [Hr | [Hr | [Hr | Hr]]].
      + left. intros j Hj.
        destruct (decide (j = k)) as [-> | Hne]; [exact Hr | apply Hk; lia].
      + right; left; right. exists k. repeat split; auto.
      + right; left; right. exists k. repeat split; auto.
      + right; right. exists k. repeat split; auto. }
  destruct (H max (le_n _)) as [Hall | Hdone]; [|exact Hdone].
  left; left; exact Hall.
Qed.

(** ** C8: failed and successful results *)

(** C8. For every keyword whose fetch fails terminally, the ScanResult
    has an error that is a string and its metrics at their defaults:
    current_interest, the five horizon growths and the
    recommendation_score are all 0; a fetch that succeeds gives a
    ScanResult whose error is None; and every fetch does one or the
    other. *)
Theorem failed_result_neutral (api : nat -> response) (kw cat : string) :
  let r := (FullScan.get_keyword_data api kw cat).1 in
  (fails_terminally FullScan.MAX_RETRIES api ->
   (exists s, error r = PStr s) /\
   current_interest r = 0 /\
   growth_5yr r = 0 /\ growth_1yr r = 0 /\ growth_6mo r = 0 /\
   growth_3mo r = 0 /\ growth_1mo r = 0 /\
   recommendation_score r = 0) /\
  (succeeds FullScan.MAX_RETRIES api -> error r = PNone) /\
  (fails_terminally FullScan.MAX_RETRIES api \/
   succeeds FullScan.MAX_RETRIES api).
Proof.
  destruct (full_scan_retry_policy api kw cat) as (Hmax & Hother & Hnodata).
  cbn zeta. split; [|split].
  - intros [Hall | (k & Hlt & Hk & [[rel Hresp] | (msg & Hresp & Hsig)])].
    + rewrite (Hmax Hall). simpl. repeat split; eauto.
    + rewrite (Hnodata k rel Hlt Hk Hresp). simpl. repeat split; eauto.
    + rewrite (Hother k msg Hlt Hk Hresp Hsig). simpl. repeat split; eauto.
  - intros (k & Hlt & Hk & x & xs & rel & Hresp).
    rewrite (get_keyword_data_after_backoff api kw cat k Hlt Hk), Hresp.
    cbn [FullScan.attempt fst]. unfold set_recommendation_score, set_metrics.
    cbn [error]. now rewrite error_read_related.
  - apply fetch_outcome_total.
Qed.

Lemma failed_result_neutral_witness :
  let api := fun _ : nat => Frame [] RelatedMissing in
  let r := (FullScan.get_keyword_data api "zinc" "supplements").1 in
  (exists s, error r = PStr s) /\
  current_interest r = 0 /\
  growth_5yr r = 0 /\ growth_1yr r = 0 /\ growth_6mo r = 0 /\
  growth_3mo r = 0 /\ growth_1mo r = 0 /\
  recommendation_score r = 0.
Proof.
  apply (proj1 (failed_result_neutral
                  (fun _ => Frame [] RelatedMissing) "zinc" "supplements")).
  right. exists 0%nat. split; [unfold FullScan.MAX_RETRIES; lia|].
  split; [intros j Hj; lia|].
  left. now exists RelatedMissing.
Defined.

(** ** C6: the retry policy in the two scripts *)

Lemma niche_rate_limited_attempt (resp : response) (kw : string)
  (r : ScanResult) :
  rate_limited resp ->
  NicheScanner.attempt resp kw r =
  Continue r [Request kw; Sleep NicheScanner.RETRY_DELAY].
Proof.
  intros (msg & -> & Hsig). unfold NicheScanner.attempt.
  apply is_rate_limit_spec in Hsig. now rewrite Hsig.
Qed.

Lemma niche_retry_loop_backoff (api : nat -> response) (kw : string)
  (k n : nat) (r : ScanResult) (tr : list event) :
  leading_rate_limits api k ->
  NicheScanner.retry_loop api kw (k + n) 0 r tr =
  NicheScanner.retry_loop api kw n k r
    (tr ++ backoffs kw NicheScanner.RETRY_DELAY k).
Proof.
  intros Hk. revert n. induction k as [|k IH]; intros n.
  - simpl. now rewrite app_nil_r.
  - replace (S k + n)%nat with (k + S n)%nat by lia.
    rewrite IH by (intros j Hj; apply Hk; lia).
    cbn [NicheScanner.retry_loop].
    rewrite (niche_rate_limited_attempt (api k) kw r) by (apply Hk; lia).
    rewrite backoffs_snoc, app_assoc. reflexivity.
Qed.

(** The retry policy of [niche_scanner.py]: as in [full_scan.py], except
    that the text of a failure that is not retried is stored whole. *)
Lemma niche_scanner_retry_policy (api : nat -> response) (kw cat : string) :
  (leading_rate_limits api NicheScanner.MAX_RETRIES ->
   NicheScanner.get_keyword_data api kw cat =
   (set_error (PStr "Max retries exceeded") (initial_result kw cat),
    backoffs kw NicheScanner.RETRY_DELAY NicheScanner.MAX_RETRIES)) /\
  (forall (k : nat) (msg : string),
      (k < NicheScanner.MAX_RETRIES)%nat -> leading_rate_limits api k ->
      api k = Raises msg -> ~ rate_limit_signal msg ->
      NicheScanner.get_keyword_data api kw cat =
      (set_error (PStr msg) (initial_result kw cat),
       backoffs kw NicheScanner.RETRY_DELAY k ++ [Request kw])) /\
  (forall (k : nat) (rel : related_response),
      (k < NicheScanner.MAX_RETRIES)%nat -> leading_rate_limits api k ->
      api k = Frame [] rel ->
      NicheScanner.get_keyword_data api kw cat =
      (set_error (PStr "No data") (initial_result kw cat),
       backoffs kw NicheScanner.RETRY_DELAY k ++ [Request kw])).
Proof.
  assert (Hstep : forall k, (k < NicheScanner.MAX_RETRIES)%nat ->
            leading_rate_limits api k ->
            NicheScanner.get_keyword_data api kw cat =
            match NicheScanner.attempt (api k) kw (initial_result kw cat) with
            | Return r tr => (r, backoffs kw NicheScanner.RETRY_DELAY k ++ tr)
            | Continue r tr =>
                NicheScanner.retry_loop api kw
                  (NicheScanner.MAX_RETRIES - S k) (S k) r
                  (backoffs kw NicheScanner.RETRY_DELAY k ++ tr)
            end).
  { intros k Hlt Hk. unfold NicheScanner.get_keyword_data.
    replace NicheScanner.MAX_RETRIES
      with (k + S (NicheScanner.MAX_RETRIES - S k))%nat at 1 by lia.
    rewrite niche_retry_loop_backoff by exact Hk.
    cbn [NicheScanner.retry_loop]. rewrite app_nil_l.
    destruct (NicheScanner.attempt (api k) kw (initial_result kw cat));
      reflexivity. }
  repeat split.
  - intros Hall. unfold NicheScanner.get_keyword_data.
    replace NicheScanner.MAX_RETRIES
      with (NicheScanner.MAX_RETRIES + 0)%nat at 1 by lia.
    now rewrite niche_retry_loop_backoff.
  - intros k msg Hlt Hk Hresp Hsig.
    rewrite (Hstep k Hlt Hk), Hresp. unfold NicheScanner.attempt.
    apply is_rate_limit_false in Hsig. now rewrite Hsig.
  - intros k rel Hlt Hk Hresp.
    now rewrite (Hstep k Hlt Hk), Hresp.
Qed.

(** C6. The fetch whose only answer is a failure of 76 characters without
    a rate-limit signal: [full_scan.py] ends at once, without a sleep or a
    second request, and stores the first 50 characters of the text;
    [niche_scanner.py] ends at once too, and stores all 76 characters: its
    stored message is not truncated. *)
Theorem niche_error_message_not_truncated :
  let msg :=
    "Connection reset by peer while reading a very long response body from server"%string in
  let api := fun _ : nat => Raises msg in
  is_rate_limit msg = false /\
  FullScan.get_keyword_data api "PCOS" "womens_health" =
    (set_error (PStr "Connection reset by peer while reading a very long")
               (initial_result "PCOS" "womens_health"),
     [Request "PCOS"%string]) /\
  NicheScanner.get_keyword_data api "PCOS" "womens_health" =
    (set_error (PStr msg) (initial_result "PCOS" "womens_health"),
     [Request "PCOS"%string]) /\
  String.length msg = 76%nat.
Proof. repeat split. Qed.

(** ** C10: saving nothing *)

(** C10. Saving an empty collection is a no-op in both scripts: the file
    system, and with it any checkpoint file already there, is left exactly
    as it was; no empty table takes its place. *)
Theorem save_checkpoint_empty_noop (fs : FS) (filename : string) :
  FullScan.save_checkpoint [] fs = fs /\
  NicheScanner.save_checkpoint [] filename fs = fs /\
  FullScan.save_checkpoint [] fs !! FullScan.CHECKPOINT_FILE =
    fs !! FullScan.CHECKPOINT_FILE /\
  NicheScanner.save_checkpoint [] filename fs !! filename = fs !! filename.
Proof. repeat split. Qed.

(** ** C4: save, then load *)

Lemma read_write_text (na : list string) (v : pyval) :
  "" ∈ na -> read_text na (write_text v) = reads_back na v.
Proof.
  intros Hna. unfold read_text.
  destruct v as [| |s]; simpl; try reflexivity;
    now rewrite bool_decide_eq_true_2.
Qed.

Lemma reread_reloaded (na : list string) (r : ScanResult) :
  "" ∈ na -> reread na r = reloaded na r.
Proof.
  intros Hna. unfold reread, result_of_row, row_of_result, reloaded.
  cbn -[read_text write_text]. now rewrite !read_write_text.
Qed.

Lemma reads_back_kept (na : list string) (v : pyval) :
  kept_text na v -> reads_back na v = v.
Proof.
  intros (s & -> & Hs). simpl. now rewrite bool_decide_eq_false_2.
Qed.

Lemma reloaded_kept (na : list string) (r : ScanResult) :
  kept_record na r -> reloaded na r = r.
Proof.
  intros (Hk & Hc & Hq & Hr & He). unfold reloaded.
  rewrite !reads_back_kept by assumption. now destruct r.
Qed.

Lemma read_to_csv (na : list string) (results : list ScanResult) :
  "" ∈ na -> read_csv na (to_csv results) = reloaded na <$> results.
Proof.
  intros Hna. unfold read_csv, to_csv. cbn [body].
  rewrite <- list_fmap_compose. apply list_fmap_ext.
  intros i r _. now apply reread_reloaded.
Qed.

(** C4, as stated, fails.  Saving the empty collection over a checkpoint
    of one record and loading gives that record back, not the empty
    collection; and a record saved with a None error and empty query
    texts is loaded with NaN in their place. *)
Lemma checkpoint_roundtrip_counterexample :
  let r0 := initial_result "zinc" "supplements" in
  let stale : FS := {[ FullScan.CHECKPOINT_FILE := to_csv [r0] ]} in
  (FullScan.load_checkpoint DEFAULT_NA_VALUES
     (FullScan.save_checkpoint [] stale)).1 <> [] /\
  (FullScan.load_checkpoint DEFAULT_NA_VALUES
     (NicheScanner.save_checkpoint [] FullScan.CHECKPOINT_FILE stale)).1 <> [] /\
  (FullScan.load_checkpoint DEFAULT_NA_VALUES
     (FullScan.save_checkpoint [r0] ∅)).1 <> [r0] /\
  (NicheScanner.load_checkpoint DEFAULT_NA_VALUES NicheScanner.CHECKPOINT_FILE
     (NicheScanner.save_checkpoint [r0] NicheScanner.CHECKPOINT_FILE ∅)).1
    <> [r0].
Proof.
  cbn zeta. repeat split; vm_compute; discriminate.
Qed.

(** C4, amended.  For every collection of ScanResults that is not empty,
    save overwrites the checkpoint file wholesale, so saving twice leaves
    the same file system as saving once, and load then returns the saved
    records in the saved order, each with its numbers unchanged and with
    every text field unchanged unless it was None, the empty string or
    another missing-value token of the reader, which is read back as NaN;
    a collection whose text fields are all kept is loaded identically.
    (Saving the empty collection writes nothing.)  This holds for the
    save and load of both scripts. *)
Theorem checkpoint_save_load (na : list string) (results : list ScanResult)
  (filename : string) (fs : FS) :
  "" ∈ na -> results <> [] ->
  (FullScan.save_checkpoint results (FullScan.save_checkpoint results fs) =
     FullScan.save_checkpoint results fs /\
   (FullScan.load_checkpoint na (FullScan.save_checkpoint results fs)).1 =
     reloaded na <$> results /\
   (Forall (kept_record na) results ->
    (FullScan.load_checkpoint na (FullScan.save_checkpoint results fs)).1 =
      results)) /\
  (NicheScanner.save_checkpoint results filename
     (NicheScanner.save_checkpoint results filename fs) =
     NicheScanner.save_checkpoint results filename fs /\
   (NicheScanner.load_checkpoint na filename
      (NicheScanner.save_checkpoint results filename fs)).1 =
     reloaded na <$> results /\
   (Forall (kept_record na) results ->
    (NicheScanner.load_checkpoint na filename
       (NicheScanner.save_checkpoint results filename fs)).1 = results)).
Proof.
  intros Hna Hne.
  assert (Hkept : Forall (kept_record na) results ->
                  reloaded na <$> results = results).
  { intros Hall. rewrite <- (list_fmap_id results) at 2.
    apply Forall_fmap_ext_1. eapply Forall_impl; [exact Hall|].
    intros r Hr. now apply reloaded_kept. }
  destruct results as [|r results]; [contradiction|].
  unfold FullScan.save_checkpoint, FullScan.load_checkpoint,
    NicheScanner.save_checkpoint, NicheScanner.load_checkpoint.
  rewrite !insert_insert_eq, !lookup_insert_eq. cbn [fst].
  rewrite read_to_csv by exact Hna.
  repeat split; auto.
Qed.

Lemma checkpoint_save_load_witness :
  let r := mkResult (PStr "zinc") (PStr "supplements") 80
                    300 300 300 300 300 (PStr "zinc benefits")
                    (PStr "zinc picolinate") 300 (PStr "none so far") in
  (FullScan.load_checkpoint DEFAULT_NA_VALUES
     (FullScan.save_checkpoint [r] ∅)).1 = [r] /\
  (FullScan.load_checkpoint DEFAULT_NA_VALUES
     (FullScan.save_checkpoint [initial_result "zinc" "supplements"] ∅)).1 =
    [reloaded DEFAULT_NA_VALUES (initial_result "zinc" "supplements")].
Proof.
  cbn zeta. split.
  - apply (checkpoint_save_load DEFAULT_NA_VALUES _ ""%string ∅).
    + by_evaluation.
    + discriminate.
    + repeat constructor; cbn; eexists; (split; [reflexivity|]);
        by_evaluation.
  - apply (checkpoint_save_load DEFAULT_NA_VALUES
             [initial_result "zinc" "supplements"] ""%string ∅).
    + by_evaluation.
    + discriminate.
Defined.

(** ** The scanning loop: one record per keyword *)

Lemma attempt_keyword (resp : response) (kw : string) (r : ScanResult) :
  match FullScan.attempt resp kw r with
  | Return r' tr | Continue r' tr => keyword r' = keyword r /\ fetched tr = []
  end.
Proof.
  unfold FullScan.attempt.
  destruct resp as [msg | [|x xs] rel].
  - destruct (is_rate_limit msg); split; reflexivity.
  - split; reflexivity.
  - split; [|reflexivity].
    unfold set_recommendation_score. cbn [keyword].
    rewrite keyword_read_related. reflexivity.
Qed.

Lemma retry_loop_keyword (api : nat -> response) (kw : string)
  (n i : nat) (r : ScanResult) (tr : list event) :
  keyword (FullScan.retry_loop api kw n i r tr).1 = keyword r /\
  fetched (FullScan.retry_loop api kw n i r tr).2 = fetched tr.
Proof.
  revert i r tr. induction n as [|n IH]; intros i r tr.
  - split; reflexivity.
  - cbn [FullScan.retry_loop].
    pose proof (attempt_keyword (api i) kw r) as H.
    destruct (FullScan.attempt (api i) kw r) as [r' tr' | r' tr'];
      destruct H as [Hk Hf].
    + cbn [fst snd]. unfold fetched in *.
      now rewrite omap_app, Hf, app_nil_r.
    + destruct (IH (S i) r' (tr ++ tr')) as [IHk IHf].
      rewrite IHk, IHf. unfold fetched in *.
      now rewrite omap_app, Hf, app_nil_r.
Qed.

Lemma get_keyword_data_keyword (api : nat -> response) (kw cat : string) :
  keyword (FullScan.get_keyword_data api kw cat).1 = PStr kw /\
  fetched (FullScan.get_keyword_data api kw cat).2 = [].
Proof. apply retry_loop_keyword. Qed.

(** One result per keyword of the list, in order, appended to those the
    loop started with; one [Fetch] per keyword in the trace. *)
Lemma scan_loop_spec (api : string -> nat -> response)
  (remaining : list FullScan.KeywordTask) (i : nat) (st : FullScan.scan_state) :
  let st' := FullScan.scan_loop api remaining i st in
  exists fresh : list ScanResult,
    FullScan.st_results st' = FullScan.st_results st ++ fresh /\
    identity <$> fresh = task_identity <$> remaining /\
    fetched (FullScan.st_trace st') =
      fetched (FullScan.st_trace st) ++ (FullScan.task_keyword <$> remaining) /\
    keyword <$> fresh = (fun k => PStr (FullScan.task_keyword k)) <$> remaining.
Proof.
  cbn zeta. revert i st. induction remaining as [|kw_data rest IH]; intros i st.
  - exists []. cbn. now rewrite !app_nil_r.
  - cbn [FullScan.scan_loop].
    destruct (get_keyword_data_keyword
                (api (FullScan.task_keyword kw_data))
                (FullScan.task_keyword kw_data)
                (FullScan.task_category kw_data)) as [Hk Hf].
    destruct (FullScan.get_keyword_data _ _ _) as [result tr].
    cbn [fst snd] in Hk, Hf.
    match goal with
    | |- context [FullScan.scan_loop api rest (S i) ?s] =>
        destruct (IH (S i) s) as (fresh & Hres & Hid & Hfetch & Hkw)
    end.
    exists (result :: fresh).
    rewrite Hres, Hfetch. cbn [FullScan.st_results FullScan.st_trace].
    repeat split.
    + now rewrite <- app_assoc.
    + rewrite !fmap_cons, Hid. f_equal.
      unfold identity, task_identity. now rewrite Hk.
    + unfold fetched in *.
      rewrite !omap_app, Hf. cbn [omap list_omap].
      destruct ((i + 1) mod FullScan.CHECKPOINT_INTERVAL =? 0)%nat; cbn;
        now rewrite <- !app_assoc.
    + now rewrite !fmap_cons, Hkw, Hk.
Qed.

Lemma load_checkpoint_processed (na : list string) (fs : FS) (x : pyval) :
  x ∈ (FullScan.load_checkpoint na fs).2 <->
  x ∈ identity <$> (FullScan.load_checkpoint na fs).1.
Proof.
  unfold FullScan.load_checkpoint.
  destruct (fs !! FullScan.CHECKPOINT_FILE) as [t|]; cbn [fst snd].
  - rewrite elem_of_list_to_set, <- list_fmap_compose. reflexivity.
  - rewrite elem_of_empty, fmap_nil, elem_of_nil. reflexivity.
Qed.

(** The deduplication loop leaves no two tasks with the same identity. *)
Lemma deduplicate_NoDup (seen : gset string) (kws : list FullScan.KeywordTask) :
  NoDup (task_identity <$> FullScan.deduplicate seen kws) /\
  (forall k, k ∈ FullScan.deduplicate seen kws ->
             lower (FullScan.task_keyword k) ∉ seen).
Proof.
  revert seen. induction kws as [|kw rest IH]; intros seen.
  - split; [constructor | intros k Hk; now apply elem_of_nil in Hk].
  - cbn [FullScan.deduplicate]. case_bool_decide as Hseen.
    + apply IH.
    + destruct (IH ({[lower (FullScan.task_keyword kw)]} ∪ seen))
        as [IHnd IHnot].
      split.
      * rewrite fmap_cons. constructor; [|exact IHnd].
        intros Hin. apply list_elem_of_fmap in Hin as (k & Hid & Hk).
        apply IHnot in Hk. injection Hid as Hid. apply Hk.
        apply elem_of_union_l, elem_of_singleton. now symmetry.
      * intros k Hk. apply elem_of_cons in Hk as [-> | Hk]; [exact Hseen|].
        apply IHnot in Hk. intros Hin. apply Hk. now apply elem_of_union_r.
Qed.

(** ** C3: the final output *)

Lemma insert_desc_Permutation {A : Type} (key : A -> Q) (x : A) (l : list A) :
  insert_desc key x l ≡ₚ x :: l.
Proof.
  induction l as [|y l IH]; [reflexivity|].
  cbn [insert_desc]. destruct (Qle_bool (key y) (key x)); [reflexivity|].
  rewrite IH. apply perm_swap.
Qed.

Lemma sort_values_desc_Permutation {A : Type} (key : A -> Q) (l : list A) :
  sort_values_desc key l ≡ₚ l.
Proof.
  induction l as [|x l IH]; [reflexivity|].
  cbn [sort_values_desc]. now rewrite insert_desc_Permutation, IH.
Qed.

Lemma insert_desc_sorted {A : Type} (key : A -> Q) (x : A) (l : list A) :
  sorted_desc key l -> sorted_desc key (insert_desc key x l).
Proof.
  unfold sorted_desc. induction 1 as [|y l Hs IH Hall].
  - repeat constructor.
  - cbn [insert_desc]. destruct (Qle_bool (key y) (key x)) eqn:E.
    + apply Qle_bool_iff in E.
      constructor; [now constructor|].
      constructor; [exact E|].
      eapply Forall_impl; [exact Hall|].
      intros z Hz. cbn in Hz. lra.
    + apply Qle_bool_false in E.
      constructor; [exact IH|].
      rewrite insert_desc_Permutation.
      constructor; [lra | exact Hall].
Qed.

Lemma sort_values_desc_sorted {A : Type} (key : A -> Q) (l : list A) :
  sorted_desc key (sort_values_desc key l).
Proof.
  induction l as [|x l IH]; [constructor|].
  cbn [sort_values_desc]. now apply insert_desc_sorted.
Qed.

Lemma insert_desc_fmap {A B : Type} (f : A -> B) (key : B -> Q)
  (x : A) (l : list A) :
  insert_desc key (f x) (f <$> l) = f <$> insert_desc (key ∘ f) x l.
Proof.
  induction l as [|y l IH]; [reflexivity|].
  cbn [insert_desc fmap list_fmap]. unfold compose at 1 2.
  destruct (Qle_bool (key (f y)) (key (f x))); [reflexivity|].
  cbn [fmap list_fmap]. f_equal. exact IH.
Qed.

Lemma sort_values_desc_fmap {A B : Type} (f : A -> B) (key : B -> Q)
  (l : list A) :
  sort_values_desc key (f <$> l) = f <$> sort_values_desc (key ∘ f) l.
Proof.
  induction l as [|x l IH]; [reflexivity|].
  cbn [sort_values_desc fmap list_fmap].
  change (list_fmap A B f l) with (f <$> l).
  now rewrite IH, insert_desc_fmap.
Qed.

Lemma selected_rows_cases (results : list ScanResult) :
  (List.filter NicheScanner.passes_threshold results <> [] ->
   NicheScanner.selected_rows results =
   List.filter NicheScanner.passes_threshold results) /\
  (List.filter NicheScanner.passes_threshold results = [] ->
   NicheScanner.selected_rows results =
   List.filter (fun r => negb (truthy (error r))) results).
Proof.
  unfold NicheScanner.selected_rows.
  destruct (List.filter NicheScanner.passes_threshold results);
    split; intros H; congruence.
Qed.

Lemma selected_rows_errorless (results : list ScanResult) :
  Forall (fun r => truthy (error r) = false)
         (NicheScanner.selected_rows results).
Proof.
  apply Forall_forall. intros r Hr. apply list_elem_of_In in Hr.
  destruct (selected_rows_cases results) as [Hpass Hnone].
  destruct (List.filter NicheScanner.passes_threshold results) eqn:E.
  - rewrite Hnone in Hr by reflexivity.
    apply filter_In in Hr as [_ Hr]. now apply negb_true_iff in Hr.
  - rewrite Hpass in Hr by discriminate. rewrite <- E in Hr.
    apply filter_In in Hr as [_ Hr].
    now apply niche_passes_threshold_iff in Hr as [Hr _].
Qed.

(** C3, as stated, fails in both scripts.  [niche_scanner.py], given one
    result without error that does not pass the threshold, writes it;
    [full_scan.py], given one result with an error, writes it. *)
Lemma final_output_counterexample :
  let quiet := initial_result "zinc" "supplements" in
  let failed := set_error (PStr "No data") (initial_result "PCOS" "womens_health") in
  NicheScanner.passes_threshold quiet = false /\
  (fst <$> NicheScanner.save_final_results [quiet] ∅) =
    Some [NicheScanner.select_columns quiet] /\
  FullScan.passes_threshold failed = false /\
  (fs' ← FullScan.write_output [failed] ∅; fs' !! FullScan.OUTPUT_FILE) =
    Some (to_csv [failed]).
Proof. repeat split. Qed.

(** C3, amended.  [niche_scanner.py] writes to the output file the
    results that pass ThresholdFilter when at least one does, and
    otherwise all the results whose error is None or empty; every written
    row comes from a result with such an error, the error column is left
    out, and nothing is written when no row is kept.  [full_scan.py]
    writes every result, whatever its error.  In both the rows are sorted
    by recommendation_score descending and the checkpoint is removed. *)
Theorem final_output_rows (results : list ScanResult) (fs : FS) :
  ((NicheScanner.selected_rows results = [] ->
    NicheScanner.save_final_results results fs = None) /\
   (NicheScanner.selected_rows results <> [] ->
    exists rows,
      rows ≡ₚ NicheScanner.selected_rows results /\
      sorted_desc recommendation_score rows /\
      NicheScanner.save_final_results results fs =
        Some (NicheScanner.select_columns <$> rows,
              delete NicheScanner.CHECKPOINT_FILE
                (<[NicheScanner.OUTPUT_FILE :=
                     NicheScanner.report_to_csv
                       (NicheScanner.select_columns <$> rows)]> fs))) /\
   (List.filter NicheScanner.passes_threshold results <> [] ->
    NicheScanner.selected_rows results =
    List.filter NicheScanner.passes_threshold results) /\
   (List.filter NicheScanner.passes_threshold results = [] ->
    NicheScanner.selected_rows results =
    List.filter (fun r => negb (truthy (error r))) results) /\
   Forall (fun r => error r = PNone \/ error r = PStr "")
          (NicheScanner.selected_rows results)) /\
  ((results = [] -> FullScan.write_output results fs = None) /\
   (results <> [] ->
    exists rows,
      rows ≡ₚ results /\
      sorted_desc recommendation_score rows /\
      FullScan.write_output results fs =
        Some (delete FullScan.CHECKPOINT_FILE
                (<[FullScan.OUTPUT_FILE := to_csv rows]> fs)))).
Proof.
  split.
  - split; [|split; [|split; [|split]]].
    + intros E. unfold NicheScanner.save_final_results. now rewrite E.
    + intros Hne.
      exists (sort_values_desc recommendation_score
                (NicheScanner.selected_rows results)).
      split; [apply sort_values_desc_Permutation|].
      split; [apply sort_values_desc_sorted|].
      unfold NicheScanner.save_final_results.
      destruct (NicheScanner.selected_rows results) as [|r rs];
        [contradiction|].
      now rewrite (sort_values_desc_fmap NicheScanner.select_columns
                     NicheScanner.rp_recommendation_score (r :: rs)).
    + apply selected_rows_cases.
    + apply selected_rows_cases.
    + eapply Forall_impl; [apply selected_rows_errorless|].
      intros r Hr. now apply truthy_false_iff.
  - split.
    + now intros ->.
    + intros Hne.
      exists (sort_values_desc recommendation_score results).
      split; [apply sort_values_desc_Permutation|].
      split; [apply sort_values_desc_sorted|].
      destruct results; [contradiction | reflexivity].
Qed.

Lemma final_output_rows_witness :
  let passing := mkResult (PStr "zinc") (PStr "supplements") 80
                          300 300 300 300 300 (PStr "") (PStr "") 300 PNone in
  let quiet := initial_result "vitex" "womens_health" in
  exists rows,
    rows ≡ₚ NicheScanner.selected_rows [quiet; passing] /\
    sorted_desc recommendation_score rows /\
    NicheScanner.save_final_results [quiet; passing] ∅ =
      Some (NicheScanner.select_columns <$> rows,
            delete NicheScanner.CHECKPOINT_FILE
              (<[NicheScanner.OUTPUT_FILE :=
                   NicheScanner.report_to_csv
                     (NicheScanner.select_columns <$> rows)]> ∅)).
Proof.
  cbn zeta.
  apply (proj1 (proj2 (proj1 (final_output_rows
           [initial_result "vitex" "womens_health";
            mkResult (PStr "zinc") (PStr "supplements") 80
                     300 300 300 300 300 (PStr "") (PStr "") 300 PNone] ∅)))).
  vm_compute. discriminate.
Defined.

(** ** Interrupted runs *)

(** The interruption example of the specification: ten keywords, a
    checkpoint every five, an interrupt once the seventh has gone through
    the loop.  The checkpoint holds five records, and the next run fetches
    the sixth to the tenth keyword. *)
Example interruption_example :
  let queue :=
    (fun kw => FullScan.mkTask kw "catA") <$>
    ["kw1"; "kw2"; "kw3"; "kw4"; "kw5";
     "kw6"; "kw7"; "kw8"; "kw9"; "kw10"]%string in
  let api := fun (_ : string) (_ : nat) => Frame [10; 10] RelatedMissing in
  let st := FullScan.interrupted_scan DEFAULT_NA_VALUES api queue 7 ∅ in
  let resumed := FullScan.scan DEFAULT_NA_VALUES api queue (FullScan.st_fs st) in
  List.length (FullScan.st_results st) = 7%nat /\
  List.length (FullScan.load_checkpoint DEFAULT_NA_VALUES (FullScan.st_fs st)).1
    = 5%nat /\
  fetched (FullScan.st_trace resumed) =
    ["kw6"; "kw7"; "kw8"; "kw9"; "kw10"]%string /\
  List.length (FullScan.st_results resumed) = 10%nat.
Proof. vm_compute. repeat split. Qed.

Lemma remaining_of_filter (na : list string) (fs : FS)
  (queue : list FullScan.KeywordTask) :
  FullScan.remaining_of (FullScan.load_checkpoint na fs).2 queue =
  filter (fun k => task_identity k ∉
                   identity <$> (FullScan.load_checkpoint na fs).1) queue.
Proof.
  unfold FullScan.remaining_of. apply list_filter_iff.
  intros k. now rewrite load_checkpoint_processed.
Qed.

(** ** The scanning phase of [main] *)

Lemma div5_facts (n : nat) :
  (n = 5 * (n / 5) + n mod 5 /\ n mod 5 < 5)%nat.
Proof. split; [apply Nat.div_mod_eq | apply Nat.mod_upper_bound; lia]. Qed.

Lemma scan_loop_app (api : string -> nat -> response)
  (l1 l2 : list FullScan.KeywordTask) (i : nat) (st : FullScan.scan_state) :
  FullScan.scan_loop api (l1 ++ l2) i st =
  FullScan.scan_loop api l2 (i + List.length l1)
    (FullScan.scan_loop api l1 i st).
Proof.
  revert i st. induction l1 as [|k l1 IH]; intros i st.
  - cbn. now rewrite Nat.add_0_r.
  - rewrite <- app_comm_cons. cbn [FullScan.scan_loop].
    destruct (FullScan.get_keyword_data _ _ _) as [result tr].
    rewrite IH. cbn [List.length]. f_equal. lia.
Qed.

Lemma scan_loop_results (api : string -> nat -> response)
  (remaining : list FullScan.KeywordTask) (i : nat) (st : FullScan.scan_state) :
  FullScan.st_results (FullScan.scan_loop api remaining i st) =
  FullScan.st_results st ++ fetch_all api remaining.
Proof.
  revert i st. induction remaining as [|k rest IH]; intros i st.
  - cbn. now rewrite app_nil_r.
  - cbn [FullScan.scan_loop]. unfold fetch_all. rewrite fmap_cons.
    fold (fetch_all api rest).
    destruct (FullScan.get_keyword_data _ _ _) as [result tr].
    rewrite IH. cbn [FullScan.st_results fst]. now rewrite <- app_assoc.
Qed.

Lemma save_checkpoint_snoc (results : list ScanResult) (r : ScanResult)
  (fs : FS) :
  FullScan.save_checkpoint (results ++ [r]) fs =
  <[FullScan.CHECKPOINT_FILE := to_csv (results ++ [r])]> fs.
Proof.
  unfold FullScan.save_checkpoint.
  destruct (results ++ [r]) eqn:E; [|reflexivity].
  now apply app_eq_nil in E as [_ [=]].
Qed.

(** What the loop has written once it has gone through [remaining],
    entered at index 0: nothing before the fifth keyword, and after it the
    collection as it was at the last multiple of five. *)
Lemma scan_loop_checkpoint (api : string -> nat -> response)
  (remaining : list FullScan.KeywordTask) (st : FullScan.scan_state) :
  let m := List.length remaining in
  FullScan.st_fs (FullScan.scan_loop api remaining 0 st) =
  if (m / 5 =? 0)%nat then FullScan.st_fs st
  else <[FullScan.CHECKPOINT_FILE :=
           to_csv (FullScan.st_results st
                   ++ take (5 * (m / 5)) (fetch_all api remaining))]>
         (FullScan.st_fs st).
Proof.
  cbn zeta. induction remaining as [|k l IH] using rev_ind.
  - reflexivity.
  - rewrite scan_loop_app, Nat.add_0_l.
    pose proof (scan_loop_results api l 0 st) as Hres.
    set (stl := FullScan.scan_loop api l 0 st) in *.
    cbn [FullScan.scan_loop].
    unfold fetch_all at 1. rewrite fmap_app. fold (fetch_all api l).
    cbn [fmap list_fmap].
    destruct (FullScan.get_keyword_data _ _ _) as [result tr].
    cbn [FullScan.st_fs fst]. rewrite Hres, IH.
    rewrite length_app. cbn [List.length].
    assert (Hlen : List.length (fetch_all api l) = List.length l)
      by (unfold fetch_all; apply length_fmap).
    pose proof (div5_facts (List.length l)) as Hd.
    pose proof (div5_facts (List.length l + 1)) as Hd1.
    unfold FullScan.CHECKPOINT_INTERVAL.
    destruct (Nat.eqb_spec ((List.length l + 1) mod 5) 0) as [Hmod | Hmod].
    + (* the keyword completes a group of five: the whole collection *)
      rewrite save_checkpoint_snoc, <- app_assoc.
      destruct (Nat.eqb_spec ((List.length l + 1) / 5) 0) as [Hz | Hnz];
        [exfalso; lia|].
      replace (5 * ((List.length l + 1) / 5))%nat
        with (List.length (fetch_all api l ++ [result]))
        by (rewrite length_app, Hlen;
            change (List.length [result]) with 1%nat; lia).
      rewrite firstn_all.
      destruct (List.length l / 5 =? 0)%nat; [reflexivity|].
      now rewrite insert_insert_eq.
    + (* no save: what the previous keywords left *)
      replace ((List.length l + 1) / 5)%nat with (List.length l / 5)%nat
        by lia.
      destruct (Nat.eqb_spec (List.length l / 5) 0) as [Hz | Hnz];
        [reflexivity|].
      rewrite take_app_le by (rewrite Hlen; lia). reflexivity.
Qed.

Lemma scan_unfold (na : list string) (api : string -> nat -> response)
  (queue : list FullScan.KeywordTask) (fs : FS) :
  let loaded := (FullScan.load_checkpoint na fs).1 in
  let remaining :=
    FullScan.remaining_of (FullScan.load_checkpoint na fs).2 queue in
  FullScan.scan na api queue fs =
  match remaining with
  | [] => FullScan.mkScan loaded fs []
  | _ =>
      let st := FullScan.scan_loop api remaining 0
                  (FullScan.mkScan loaded fs []) in
      FullScan.mkScan (FullScan.st_results st)
        (FullScan.save_checkpoint (FullScan.st_results st) (FullScan.st_fs st))
        (FullScan.st_trace st)
  end.
Proof.
  unfold FullScan.scan.
  now destruct (FullScan.load_checkpoint na fs) as [results processed].
Qed.

Lemma scan_facts (na : list string) (api : string -> nat -> response)
  (queue : list FullScan.KeywordTask) (fs : FS) :
  let loaded := (FullScan.load_checkpoint na fs).1 in
  let remaining :=
    FullScan.remaining_of (FullScan.load_checkpoint na fs).2 queue in
  let st := FullScan.scan na api queue fs in
  FullScan.st_results st = loaded ++ fetch_all api remaining /\
  fetched (FullScan.st_trace st) = FullScan.task_keyword <$> remaining /\
  (remaining = [] -> FullScan.st_fs st = fs /\ FullScan.st_trace st = []) /\
  (remaining <> [] ->
   FullScan.st_fs st =
   <[FullScan.CHECKPOINT_FILE := to_csv (FullScan.st_results st)]> fs) /\
  (fs !! FullScan.CHECKPOINT_FILE = None -> remaining = queue).
Proof.
  cbn zeta. rewrite scan_unfold. cbn zeta.
  set (loaded := (FullScan.load_checkpoint na fs).1).
  set (remaining := FullScan.remaining_of _ queue).
  split; [|split; [|split; [|split]]].
  - destruct remaining eqn:E; cbn [FullScan.st_results].
    + now rewrite app_nil_r.
    + apply scan_loop_results.
  - destruct remaining eqn:E; [reflexivity|].
    destruct (scan_loop_spec api (k :: l) 0 (FullScan.mkScan loaded fs []))
      as (_ & _ & _ & Hf & _).
    exact Hf.
  - intros ->. now split.
  - intros Hne. destruct remaining as [|k l] eqn:E; [contradiction|].
    cbn [FullScan.st_fs FullScan.st_results].
    rewrite (scan_loop_results api (k :: l) 0 (FullScan.mkScan loaded fs [])).
    cbn [FullScan.st_results].
    rewrite (scan_loop_checkpoint api (k :: l) (FullScan.mkScan loaded fs [])).
    cbn [FullScan.st_fs FullScan.st_results].
    unfold FullScan.save_checkpoint.
    destruct (loaded ++ fetch_all api (k :: l)) as [|r rs] eqn:Er.
    { apply app_eq_nil in Er as [_ Er]. discriminate Er. }
    destruct (_ =? 0)%nat; [reflexivity | now rewrite insert_insert_eq].
  - intros Hnone. unfold remaining, FullScan.remaining_of,
      FullScan.load_checkpoint. rewrite Hnone. cbn [snd].
    induction queue as [|k l IH]; [reflexivity|].
    rewrite filter_cons.
    destruct (decide (PStr (lower (FullScan.task_keyword k)) ∉ (∅ : gset pyval)))
      as [_ | Hn]; [now rewrite IH|].
    exfalso. apply Hn, not_elem_of_empty.
Qed.

(** ** C2: resuming from a checkpoint *)

Lemma checkpoint_keywords_saved (results : list ScanResult) (fs : FS) :
  checkpoint_keywords (<[FullScan.CHECKPOINT_FILE := to_csv results]> fs) =
  (fun r => write_text (keyword r)) <$> results.
Proof.
  unfold checkpoint_keywords. rewrite lookup_insert_eq. cbn [to_csv body].
  rewrite <- list_fmap_compose. reflexivity.
Qed.

(** The keywords of the loaded records are the texts of the file, as the
    reader takes them. *)
Lemma loaded_keywords (na : list string) (fs : FS) :
  keyword <$> (FullScan.load_checkpoint na fs).1 =
  read_text na <$> checkpoint_keywords fs.
Proof.
  unfold FullScan.load_checkpoint, checkpoint_keywords.
  destruct (fs !! FullScan.CHECKPOINT_FILE) as [t|]; cbn [fst];
    [|reflexivity].
  unfold read_csv. rewrite <- !list_fmap_compose. reflexivity.
Qed.

Lemma fetch_all_keywords (api : string -> nat -> response)
  (tasks : list FullScan.KeywordTask) :
  keyword <$> fetch_all api tasks =
  (fun k => PStr (FullScan.task_keyword k)) <$> tasks.
Proof.
  unfold fetch_all. rewrite <- list_fmap_compose.
  apply list_fmap_ext. intros i k _. cbn.
  apply get_keyword_data_keyword.
Qed.

(** In a list without repetition under [f], what [f] does not find in an
    initial part is the rest of the list. *)
Lemma filter_after_prefix {A B : Type} `{EqDecision B} (f : A -> B)
  (pre suf : list A) :
  NoDup (f <$> (pre ++ suf)) ->
  filter (fun x => f x ∉ f <$> pre) (pre ++ suf) = suf.
Proof.
  rewrite fmap_app. intros Hnd.
  apply NoDup_app in Hnd as (_ & Hdisj & _).
  rewrite filter_app.
  assert (Hpre : forall l : list A, (forall x, x ∈ l -> f x ∈ f <$> pre) ->
                           filter (fun x => f x ∉ f <$> pre) l = []).
  { induction l as [|x l IH]; intros Hl; [reflexivity|].
    rewrite filter_cons.
    destruct (decide (f x ∉ f <$> pre)) as [Hx | _].
    - exfalso. apply Hx, Hl. now left.
    - apply IH. intros y Hy. apply Hl. now right. }
  assert (Hsuf : forall l : list A, (forall x, x ∈ l -> f x ∉ f <$> pre) ->
                           filter (fun x => f x ∉ f <$> pre) l = l).
  { induction l as [|x l IH]; intros Hl; [reflexivity|].
    rewrite filter_cons.
    destruct (decide (f x ∉ f <$> pre)) as [_ | Hx].
    - f_equal. apply IH. intros y Hy. apply Hl. now right.
    - exfalso. apply Hx, Hl. now left. }
  rewrite Hpre, Hsuf; [reflexivity | |].
  - intros x Hx Hin. apply (Hdisj (f x) Hin).
    apply list_elem_of_fmap. now exists x.
  - intros x Hx. apply list_elem_of_fmap. now exists x.
Qed.

Lemma filter_prefix {A B : Type} `{EqDecision B} (f : A -> B)
  (l : list A) (m : nat) :
  NoDup (f <$> l) ->
  filter (fun x => f x ∉ f <$> take m l) l = drop m l.
Proof.
  intros Hnd.
  pose proof (filter_after_prefix f (take m l) (drop m l)) as H.
  rewrite take_drop in H. now apply H.
Qed.

(** What a run finds when the checkpoint file holds the first [m]
    keywords of the queue: it loads a record for each of them and is left
    with the rest of the queue. *)
Lemma prefix_load (na : list string) (queue : list FullScan.KeywordTask)
  (m : nat) (fs : FS) :
  NoDup (task_identity <$> queue) ->
  (forall k, k ∈ queue -> FullScan.task_keyword k ∉ na) ->
  checkpoint_keywords fs = FullScan.task_keyword <$> take m queue ->
  keyword <$> (FullScan.load_checkpoint na fs).1 =
    (fun k => PStr (FullScan.task_keyword k)) <$> take m queue /\
  FullScan.remaining_of (FullScan.load_checkpoint na fs).2 queue =
    drop m queue.
Proof.
  intros Hq Hkw Hfile.
  assert (Hloaded : keyword <$> (FullScan.load_checkpoint na fs).1 =
                    (fun k => PStr (FullScan.task_keyword k)) <$> take m queue).
  { rewrite loaded_keywords, Hfile, <- list_fmap_compose.
    apply list_fmap_ext. intros i k Hk. cbn. unfold read_text.
    rewrite bool_decide_eq_false_2; [reflexivity|].
    apply Hkw. eapply elem_of_sublist; [|apply sublist_take].
    eapply list_elem_of_lookup_2. exact Hk. }
  split; [exact Hloaded|].
  rewrite remaining_of_filter.
  assert (Hid : identity <$> (FullScan.load_checkpoint na fs).1 =
                task_identity <$> take m queue).
  { unfold identity.
    rewrite (list_fmap_compose keyword str_lower), Hloaded,
      <- list_fmap_compose.
    reflexivity. }
  rewrite Hid. now apply filter_prefix.
Qed.

(** The keywords in the file once a run that loaded the first [m]
    keywords has saved the records of the next [j]. *)
Lemma prefix_saved (na : list string) (api : string -> nat -> response)
  (queue : list FullScan.KeywordTask) (m j : nat) (fs : FS) :
  keyword <$> (FullScan.load_checkpoint na fs).1 =
    (fun k => PStr (FullScan.task_keyword k)) <$> take m queue ->
  checkpoint_keywords
    (<[FullScan.CHECKPOINT_FILE :=
         to_csv ((FullScan.load_checkpoint na fs).1
                 ++ fetch_all api (take j (drop m queue)))]> fs) =
  FullScan.task_keyword <$> take (m + j) queue.
Proof.
  intros Hloaded. rewrite checkpoint_keywords_saved.
  rewrite (list_fmap_compose keyword write_text), fmap_app, Hloaded,
    fetch_all_keywords, <- fmap_app, take_take_drop, <- list_fmap_compose.
  reflexivity.
Qed.

(** The invariant of the checkpoint file: it always holds an initial
    part of the queue. *)
Lemma resumable_prefix (na : list string) (queue : list FullScan.KeywordTask)
  (fs : FS) :
  NoDup (task_identity <$> queue) ->
  (forall k, k ∈ queue -> FullScan.task_keyword k ∉ na) ->
  resumable na queue fs ->
  exists m : nat,
    (m <= List.length queue)%nat /\
    (m mod FullScan.CHECKPOINT_INTERVAL = 0 \/ m = List.length queue)%nat /\
    checkpoint_keywords fs = FullScan.task_keyword <$> take m queue.
Proof.
  intros Hq Hkw Hfs. induction Hfs as [fs Hnone | api n fs _ IH | api fs _ IH].
  - exists 0%nat. split; [lia|]. split; [now left|].
    unfold checkpoint_keywords. now rewrite Hnone.
  - destruct IH as (m & Hm & Hmod & Hfile).
    destruct (prefix_load na queue m fs Hq Hkw Hfile) as [Hloaded Hrem].
    unfold FullScan.interrupted_scan.
    destruct (FullScan.load_checkpoint na fs) as [loaded processed] eqn:Eload.
    cbn [fst snd] in Hloaded, Hrem. rewrite Hrem.
    rewrite (scan_loop_checkpoint api (take n (drop m queue))
               (FullScan.mkScan loaded fs [])).
    cbn [FullScan.st_fs FullScan.st_results].
    set (len := List.length (take n (drop m queue))).
    assert (Hlen : (len <= n /\ len <= List.length queue - m)%nat).
    { unfold len. rewrite length_take, length_drop. lia. }
    pose proof (div5_facts len) as Hd.
    destruct (Nat.eqb_spec (len / 5) 0) as [Hz | Hnz].
    + exists m. now repeat split.
    + exists (m + 5 * (len / 5))%nat. split; [lia|]. split.
      * left. destruct Hmod as [Hmod | ->]; [|lia].
        unfold FullScan.CHECKPOINT_INTERVAL in *.
        rewrite (Nat.mul_comm 5), Nat.Div0.mod_add. exact Hmod.
      * pose proof (prefix_saved na api queue m (5 * (len / 5)) fs) as Hs.
        rewrite Eload in Hs. cbn [fst] in Hs.
        rewrite <- (Hs Hloaded). do 3 f_equal.
        unfold fetch_all. rewrite <- fmap_take, take_take.
        do 3 f_equal. destruct Hd as [Hd1 Hd2]. lia.
  - destruct IH as (m & Hm & Hmod & Hfile).
    destruct (prefix_load na queue m fs Hq Hkw Hfile) as [Hloaded Hrem].
    destruct (scan_facts na api queue fs) as (Hres & _ & Hnone & Hsome & _).
    rewrite Hrem in Hres, Hnone, Hsome.
    destruct (drop m queue) as [|k rest] eqn:Edrop.
    + destruct (Hnone eq_refl) as [-> _]. exists m. now repeat split.
    + rewrite Hsome by discriminate. rewrite Hres, <- Edrop.
      exists (List.length queue). split; [lia|]. split; [now right|].
      pose proof (prefix_saved na api queue m (List.length queue) fs Hloaded)
        as Hs.
      rewrite (take_ge (drop m queue)) in Hs by (rewrite length_drop; lia).
      rewrite Hs. f_equal. rewrite !take_ge by lia. reflexivity.
Qed.



(** * Part III: further properties of the two scripts *)

(** ** Rounding *)

Lemma round_half_even_mono (x y : Q) :
  x <= y -> (round_half_even x <= round_half_even y)%Z.
Proof.
  intros Hxy.
  pose proof (Qfloor_resp_le x y Hxy) as Hfl.
  destruct (Qfloor_frac x) as [Hx0 Hx1]. destruct (Qfloor_frac y) as [Hy0 Hy1].
  destruct (Z.eq_dec (Qfloor x) (Qfloor y)) as [Heq | Hne].
  - unfold round_half_even. cbn zeta. rewrite <- Heq.
    assert (Hr : x - inject_Z (Qfloor x) <= y - inject_Z (Qfloor x)) by lra.
    destruct (Qle_bool (x - inject_Z (Qfloor x)) (1 # 2)) eqn:E1;
      destruct (Qle_bool (1 # 2) (x - inject_Z (Qfloor x))) eqn:E2;
      destruct (Qle_bool (y - inject_Z (Qfloor x)) (1 # 2)) eqn:E3;
      destruct (Qle_bool (1 # 2) (y - inject_Z (Qfloor x))) eqn:E4;
      try apply Qle_bool_iff in E1; try apply Qle_bool_false in E1;
      try apply Qle_bool_iff in E2; try apply Qle_bool_false in E2;
      try apply Qle_bool_iff in E3; try apply Qle_bool_false in E3;
      try apply Qle_bool_iff in E4; try apply Qle_bool_false in E4;
      try lra; destruct (Z.even (Qfloor x)); lia.
  - assert (Hlt : (Qfloor x + 1 <= Qfloor y)%Z) by lia.
    destruct (round_half_even_cases x) as [[-> _] | [-> _]];
      destruct (round_half_even_cases y) as [[-> _] | [-> _]]; lia.
Qed.

Lemma round2_mono (x y : Q) : x <= y -> round2 x <= round2 y.
Proof.
  intros Hxy. unfold round2.
  assert (Hz : (round_half_even (x * 100) <= round_half_even (y * 100))%Z)
    by (apply round_half_even_mono; lra).
  rewrite Zle_Qle in Hz.
  unfold Qdiv. apply Qmult_le_compat_r; [exact Hz | discriminate].
Qed.

Lemma round2_integer (z : Z) : round2 (inject_Z z) == inject_Z z.
Proof.
  unfold round2.
  assert (E : inject_Z z * 100 == inject_Z (z * 100)).
  { rewrite inject_Z_mult. reflexivity. }
  rewrite (round_half_even_comp _ _ E).
  assert (R : round_half_even (inject_Z (z * 100)) = (z * 100)%Z).
  { unfold round_half_even. cbn zeta. rewrite Qfloor_Z.
    assert (F : inject_Z (z * 100) - inject_Z (z * 100) == 0) by lra.
    rewrite (Qleb_comp _ _ F (1 # 2) (1 # 2) (Qeq_refl _)).
    rewrite (Qleb_comp (1 # 2) (1 # 2) (Qeq_refl _) _ _ F).
    reflexivity. }
  rewrite R, inject_Z_mult. field.
Qed.

(** ** The score: monotonicity and range *)

Lemma calculate_score_exact (g : gmap string Q) :
  FullScan.calculate_score g = round2 (exact_score g) /\
  NicheScanner.calculate_recommendation_score g = round2 (exact_score g).
Proof.
  unfold FullScan.calculate_score, NicheScanner.calculate_recommendation_score,
    exact_score, FullScan.weight, NicheScanner.weight.
  change NicheScanner.WEIGHTS with FullScan.WEIGHTS.
  destruct weights_defined as (-> & -> & -> & -> & ->).
  split; reflexivity.
Qed.

(** X2. The score is monotone: raising the growth of any horizon (the
    others not falling) never lowers the score. *)
Theorem score_monotone (g g' : gmap string Q) :
  (forall k, k ∈ HORIZON_KEYS -> get0 g k <= get0 g' k) ->
  FullScan.calculate_score g <= FullScan.calculate_score g' /\
  NicheScanner.calculate_recommendation_score g <=
    NicheScanner.calculate_recommendation_score g'.
Proof.
  intros H.
  destruct (calculate_score_exact g) as [-> ->].
  destruct (calculate_score_exact g') as [-> ->].
  assert (Hm : exact_score g <= exact_score g').
  { unfold exact_score.
    pose proof (H "growth_1mo"%string ltac:(by_evaluation)).
    pose proof (H "growth_3mo"%string ltac:(by_evaluation)).
    pose proof (H "growth_6mo"%string ltac:(by_evaluation)).
    pose proof (H "growth_1yr"%string ltac:(by_evaluation)).
    pose proof (H "growth_5yr"%string ltac:(by_evaluation)).
    lra. }
  split; now apply round2_mono.
Qed.

Lemma score_monotone_witness :
  FullScan.calculate_score (growth_dict 0 0 0 0 250) <=
  FullScan.calculate_score (growth_dict 0 0 0 0 500).
Proof.
  apply (score_monotone (growth_dict 0 0 0 0 250) (growth_dict 0 0 0 0 500)).
  intros k Hk.
  repeat (apply elem_of_cons in Hk as [-> | Hk];
          [vm_compute; discriminate|]).
  now apply elem_of_nil in Hk.
Defined.

(** ** get_time_periods *)

Lemma look_back_past_at (k : nat) (col : list Q) :
  (1 <= k)%nat -> look_back k col = past_at k col.
Proof.
  intros Hk. unfold look_back, past_at, iloc_back.
  destruct (Nat.ltb_spec k (List.length col)) as [Hlt | Hge];
    destruct (Nat.leb_spec k (List.length col)) as [Hle | Hgt].
  - reflexivity.
  - exfalso; lia.
  - replace (List.length col - k)%nat with 0%nat by lia. reflexivity.
  - reflexivity.
Qed.

Lemma nth_elem_of (col : list Q) (i : nat) :
  (i < List.length col)%nat -> nth i col 0 ∈ col.
Proof. intros H. apply list_elem_of_In. now apply nth_In. Qed.

Lemma past_at_elem_of (k : nat) (col : list Q) :
  col <> [] -> (1 <= k)%nat -> past_at k col ∈ col.
Proof.
  intros Hne Hk. unfold past_at.
  assert (0 < List.length col)%nat by (destruct col; [contradiction | simpl; lia]).
  destruct (k <=? List.length col)%nat; apply nth_elem_of; lia.
Qed.

Lemma get_time_periods_fields (col : list Q) :
  (get_time_periods col = None <-> col = []) /\
  (col <> [] ->
   exists p,
     get_time_periods col = Some p /\
     p_current p = past_at 1 col /\
     p_1mo_ago p = past_at 5 col /\
     p_3mo_ago p = past_at 13 col /\
     p_6mo_ago p = past_at 26 col /\
     p_1yr_ago p = past_at 52 col /\
     p_5yr_ago p = past_at (List.length col) col /\
     Forall (fun v => v ∈ col)
       [p_current p; p_1mo_ago p; p_3mo_ago p; p_6mo_ago p; p_1yr_ago p;
        p_5yr_ago p]).
Proof.
  split.
  - destruct col; simpl; split; congruence.
  - intros Hne. destruct col as [|x xs]; [contradiction|].
    eexists. split; [reflexivity|]. cbn [p_current p_1mo_ago p_3mo_ago
      p_6mo_ago p_1yr_ago p_5yr_ago].
    rewrite !look_back_past_at by lia.
    assert (E1 : iloc_back 1 (x :: xs) = past_at 1 (x :: xs)).
    { unfold iloc_back, past_at.
      replace (1 <=? List.length (x :: xs))%nat with true; [reflexivity|].
      symmetry. apply Nat.leb_le. simpl. lia. }
    assert (E5 : nth 0 (x :: xs) 0 =
                 past_at (List.length (x :: xs)) (x :: xs)).
    { unfold past_at. rewrite Nat.leb_refl, Nat.sub_diag. reflexivity. }
    rewrite E1, E5.
    repeat split.
    repeat (constructor; [apply past_at_elem_of; [discriminate | simpl; lia]|]).
    constructor.
Qed.

(** X3. [get_time_periods] returns nothing exactly for the empty series.
    For a series with samples, the current value is the last sample, the
    five-year value the first, and the value of each other horizon (5, 13,
    26 and 52 samples back) is the sample that many places from the end
    when the series has at least that many samples and the first sample
    otherwise: the strict test [len(df) > k] of the code loses nothing,
    the sample at [len - k] being the first when [len = k].  Every value
    is a sample of the series. *)
Theorem get_time_periods_spec (col : list Q) :
  (get_time_periods col = None <-> col = []) /\
  (col <> [] ->
   exists p,
     get_time_periods col = Some p /\
     p_current p = past_at 1 col /\
     p_1mo_ago p = past_at 5 col /\
     p_3mo_ago p = past_at 13 col /\
     p_6mo_ago p = past_at 26 col /\
     p_1yr_ago p = past_at 52 col /\
     p_5yr_ago p = past_at (List.length col) col /\
     Forall (fun v => v ∈ col)
       [p_current p; p_1mo_ago p; p_3mo_ago p; p_6mo_ago p; p_1yr_ago p;
        p_5yr_ago p]).
Proof. exact (get_time_periods_fields col). Qed.

Lemma get_time_periods_spec_witness :
  exists p,
    get_time_periods [20; 30; 80] = Some p /\
    p_current p = past_at 1 [20; 30; 80] /\
    p_1mo_ago p = past_at 5 [20; 30; 80] /\
    p_3mo_ago p = past_at 13 [20; 30; 80] /\
    p_6mo_ago p = past_at 26 [20; 30; 80] /\
    p_1yr_ago p = past_at 52 [20; 30; 80] /\
    p_5yr_ago p = past_at (List.length [20; 30; 80]) [20; 30; 80] /\
    Forall (fun v => v ∈ [20; 30; 80])
      [p_current p; p_1mo_ago p; p_3mo_ago p; p_6mo_ago p; p_1yr_ago p;
       p_5yr_ago p].
Proof.
  apply (proj2 (get_time_periods_spec [20; 30; 80])). discriminate.
Defined.

(** ** get_keyword_data: the successful fetch *)

Lemma read_related_same (rel : related_response) (r : ScanResult) :
  same_but_queries (read_related rel r) r.
Proof.
  destruct rel as [| |top rising]; [| |destruct top, rising];
    repeat split.
Qed.

Lemma get0_growth_dict (g5 g1 g6 g3 gm : Q) :
  get0 (growth_dict g5 g1 g6 g3 gm) "growth_1mo" = gm /\
  get0 (growth_dict g5 g1 g6 g3 gm) "growth_3mo" = g3 /\
  get0 (growth_dict g5 g1 g6 g3 gm) "growth_6mo" = g6 /\
  get0 (growth_dict g5 g1 g6 g3 gm) "growth_1yr" = g1 /\
  get0 (growth_dict g5 g1 g6 g3 gm) "growth_5yr" = g5.
Proof. repeat split. Qed.

(** The fields of the record a successful fetch returns. *)
Lemma success_fields (api : nat -> response) (kw cat : string) (k : nat)
  (x : Q) (xs : list Q) (rel : related_response) :
  (k < FullScan.MAX_RETRIES)%nat -> leading_rate_limits api k ->
  api k = Frame (x :: xs) rel ->
  let col := x :: xs in
  let cur := past_at 1 col in
  let r := (FullScan.get_keyword_data api kw cat).1 in
  keyword r = PStr kw /\ category r = PStr cat /\ error r = PNone /\
  current_interest r = cur /\
  growth_5yr r = FullScan.calculate_growth cur (past_at (List.length col) col) /\
  growth_1yr r = FullScan.calculate_growth cur (past_at 52 col) /\
  growth_6mo r = FullScan.calculate_growth cur (past_at 26 col) /\
  growth_3mo r = FullScan.calculate_growth cur (past_at 13 col) /\
  growth_1mo r = FullScan.calculate_growth cur (past_at 5 col) /\
  recommendation_score r =
    FullScan.calculate_score
      (growth_dict (growth_5yr r) (growth_1yr r) (growth_6mo r)
                   (growth_3mo r) (growth_1mo r)) /\
  (FullScan.get_keyword_data api kw cat).2 =
    backoffs kw FullScan.RETRY_DELAY k
    ++ [Request kw; Sleep 2; RelatedRequest kw].
Proof.
  intros Hlt Hk Hresp. cbn zeta.
  rewrite (get_keyword_data_after_backoff api kw cat k Hlt Hk), Hresp.
  destruct (get_time_periods_fields (x :: xs)) as [_ Hp].
  destruct (Hp ltac:(discriminate))
    as (p & Ep & Ec & E1m & E3m & E6m & E1y & E5y & _).
  unfold FullScan.attempt. rewrite Ep. cbn [fst snd].
  set (m := set_metrics _ _ _ _ _ _ (initial_result kw cat)).
  destruct (read_related_same rel m)
    as (Hkw & Hcat & Hci & H5 & H1 & H6 & H3 & Hm & Hs & He).
  unfold set_recommendation_score.
  cbn [keyword category error current_interest growth_5yr growth_1yr
       growth_6mo growth_3mo growth_1mo recommendation_score].
  rewrite Hkw, Hcat, Hci, H5, H1, H6, H3, Hm, He.
  unfold m, set_metrics, initial_result.
  cbn [keyword category error current_interest growth_5yr growth_1yr
       growth_6mo growth_3mo growth_1mo].
  rewrite Ec, E1m, E3m, E6m, E1y, E5y.
  repeat split.
Qed.

Lemma calculate_growth_bounds (current past : Q) :
  0 <= current -> 0 <= past ->
  -(100) <= FullScan.calculate_growth current past <= FullScan.MAX_GROWTH_CAP.
Proof.
  intros Hc Hp. unfold FullScan.calculate_growth, FullScan.MAX_GROWTH_CAP.
  destruct (Qle_bool past 0) eqn:E.
  - destruct (Qpos_bool current); lra.
  - apply Qle_bool_false in E. split.
    + unfold py_min. destruct (Qle_bool _ 10000).
      * now apply pct_change_floor.
      * lra.
    + apply py_min_le_r.
Qed.

(** X4. A successful fetch of a series of non-negative samples gives a
    non-negative current_interest, five horizon growths between -100 and
    MAX_GROWTH_CAP, and a recommendation_score between -100 and
    MAX_GROWTH_CAP as well. *)
Theorem successful_result_range (api : nat -> response) (kw cat : string)
  (k : nat) (x : Q) (xs : list Q) (rel : related_response) :
  (k < FullScan.MAX_RETRIES)%nat -> leading_rate_limits api k ->
  api k = Frame (x :: xs) rel ->
  Forall (fun v => 0 <= v) (x :: xs) ->
  let r := (FullScan.get_keyword_data api kw cat).1 in
  0 <= current_interest r /\
  Forall (fun g => -(100) <= g <= FullScan.MAX_GROWTH_CAP) (growths r) /\
  -(100) <= recommendation_score r <= FullScan.MAX_GROWTH_CAP.
Proof.
  intros Hlt Hk Hresp Hpos. cbn zeta.
  destruct (success_fields api kw cat k x xs rel Hlt Hk Hresp)
    as (_ & _ & _ & Hci & H5 & H1 & H6 & H3 & Hm & Hs & _).
  assert (Hin : forall j, (1 <= j)%nat -> 0 <= past_at j (x :: xs)).
  { intros j Hj.
    apply (proj1 (Forall_forall _ _) Hpos).
    apply past_at_elem_of; [discriminate | exact Hj]. }
  assert (Hg : Forall (fun g => -(100) <= g <= FullScan.MAX_GROWTH_CAP)
                      (growths (FullScan.get_keyword_data api kw cat).1)).
  { unfold growths. rewrite H5, H1, H6, H3, Hm.
    repeat (constructor;
            [apply calculate_growth_bounds; apply Hin; simpl; lia|]).
    constructor. }
  split; [rewrite Hci; apply Hin; lia|]. split; [exact Hg|].
  rewrite Hs. destruct (calculate_score_exact
    (growth_dict (growth_5yr (FullScan.get_keyword_data api kw cat).1)
                 (growth_1yr (FullScan.get_keyword_data api kw cat).1)
                 (growth_6mo (FullScan.get_keyword_data api kw cat).1)
                 (growth_3mo (FullScan.get_keyword_data api kw cat).1)
                 (growth_1mo (FullScan.get_keyword_data api kw cat).1)))
    as [-> _].
  unfold growths in Hg.
  apply Forall_cons in Hg as [B5 Hg]. apply Forall_cons in Hg as [B1 Hg].
  apply Forall_cons in Hg as [B6 Hg]. apply Forall_cons in Hg as [B3 Hg].
  apply Forall_cons in Hg as [Bm _].
  unfold FullScan.MAX_GROWTH_CAP in *.
  match goal with
  | |- _ <= round2 ?e <= _ =>
      assert (He : -(100) <= e <= 10000)
  end.
  { unfold exact_score.
    destruct (get0_growth_dict
      (growth_5yr (FullScan.get_keyword_data api kw cat).1)
      (growth_1yr (FullScan.get_keyword_data api kw cat).1)
      (growth_6mo (FullScan.get_keyword_data api kw cat).1)
      (growth_3mo (FullScan.get_keyword_data api kw cat).1)
      (growth_1mo (FullScan.get_keyword_data api kw cat).1))
      as (-> & -> & -> & -> & ->).
    split; lra. }
  destruct He as [Hlo Hhi].
  apply round2_mono in Hlo. apply round2_mono in Hhi.
  change (-(100)) with (inject_Z (-100)) in Hlo.
  change 10000 with (inject_Z 10000) in Hhi.
  rewrite round2_integer in Hlo, Hhi.
  change (inject_Z (-100)) with (-(100)) in Hlo.
  change (inject_Z 10000) with 10000 in Hhi.
  split; assumption.
Qed.

Lemma successful_result_range_witness :
  let api := fun _ : nat => Frame [20; 30; 80] RelatedMissing in
  let r := (FullScan.get_keyword_data api "zinc" "supplements").1 in
  0 <= current_interest r /\
  Forall (fun g => -(100) <= g <= FullScan.MAX_GROWTH_CAP) (growths r) /\
  -(100) <= recommendation_score r <= FullScan.MAX_GROWTH_CAP.
Proof.
  apply (successful_result_range
           (fun _ => Frame [20; 30; 80] RelatedMissing) "zinc" "supplements"
           0 20 [30; 80] RelatedMissing).
  - unfold FullScan.MAX_RETRIES. lia.
  - intros j Hj. lia.
  - reflexivity.
  - repeat (constructor; [discriminate|]). constructor.
Defined.

(** X5. A breakout: when the series of a successful fetch starts at zero
    and ends above zero, the five-year growth is MAX_GROWTH_CAP and the
    result passes the threshold, whatever the other horizons show. *)
Theorem breakout_passes (api : nat -> response) (kw cat : string)
  (k : nat) (x : Q) (xs : list Q) (rel : related_response) :
  (k < FullScan.MAX_RETRIES)%nat -> leading_rate_limits api k ->
  api k = Frame (x :: xs) rel ->
  x <= 0 -> 0 < past_at 1 (x :: xs) ->
  let r := (FullScan.get_keyword_data api kw cat).1 in
  growth_5yr r = FullScan.MAX_GROWTH_CAP /\
  FullScan.passes_threshold r = true.
Proof.
  intros Hlt Hk Hresp Hzero Hcur. cbn zeta.
  destruct (success_fields api kw cat k x xs rel Hlt Hk Hresp)
    as (_ & _ & He & _ & H5 & _).
  assert (E5 : growth_5yr (FullScan.get_keyword_data api kw cat).1 =
               FullScan.MAX_GROWTH_CAP).
  { rewrite H5. unfold past_at at 2.
    rewrite Nat.leb_refl, Nat.sub_diag. cbn [nth].
    unfold FullScan.calculate_growth.
    apply Qle_bool_iff in Hzero. rewrite Hzero.
    apply Qpos_bool_true in Hcur. now rewrite Hcur. }
  split; [exact E5|].
  apply full_passes_threshold_iff. split; [now rewrite He|].
  left. rewrite E5. discriminate.
Qed.

Lemma breakout_passes_witness :
  let api := fun _ : nat => Frame [0; 0; 12] RelatedMissing in
  let r := (FullScan.get_keyword_data api "shilajit" "mens_optimization").1 in
  growth_5yr r = FullScan.MAX_GROWTH_CAP /\
  FullScan.passes_threshold r = true.
Proof.
  apply (breakout_passes
           (fun _ => Frame [0; 0; 12] RelatedMissing)
           "shilajit" "mens_optimization" 0 0 [0; 12] RelatedMissing).
  - unfold FullScan.MAX_RETRIES. lia.
  - intros j Hj. lia.
  - reflexivity.
  - discriminate.
  - reflexivity.
Defined.

(** X6. Graceful degradation on a short series: when a successful fetch
    returns at most five samples, every horizon looks back to the first
    sample and the five growth values are all the same. *)
Theorem short_series_growths_equal (api : nat -> response) (kw cat : string)
  (k : nat) (x : Q) (xs : list Q) (rel : related_response) :
  (k < FullScan.MAX_RETRIES)%nat -> leading_rate_limits api k ->
  api k = Frame (x :: xs) rel ->
  (List.length (x :: xs) <= 5)%nat ->
  let r := (FullScan.get_keyword_data api kw cat).1 in
  growth_1yr r = growth_5yr r /\ growth_6mo r = growth_5yr r /\
  growth_3mo r = growth_5yr r /\ growth_1mo r = growth_5yr r /\
  growth_5yr r = FullScan.calculate_growth (past_at 1 (x :: xs)) x.
Proof.
  intros Hlt Hk Hresp Hlen. cbn zeta.
  destruct (success_fields api kw cat k x xs rel Hlt Hk Hresp)
    as (_ & _ & _ & _ & H5 & H1 & H6 & H3 & Hm & _).
  assert (Hfirst : forall j, (List.length (x :: xs) <= j)%nat ->
                             past_at j (x :: xs) = x).
  { intros j Hj. unfold past_at.
    destruct (Nat.leb_spec j (List.length (x :: xs))) as [Hle | Hgt];
      [|reflexivity].
    replace (List.length (x :: xs) - j)%nat with 0%nat by lia. reflexivity. }
  rewrite H5, H1, H6, H3, Hm.
  rewrite (Hfirst 52%nat), (Hfirst 26%nat), (Hfirst 13%nat), (Hfirst 5%nat),
    (Hfirst (List.length (x :: xs))) by lia.
  repeat split.
Qed.

Lemma short_series_growths_equal_witness :
  let api := fun _ : nat => Frame [20; 30; 80] RelatedMissing in
  let r := (FullScan.get_keyword_data api "zinc" "supplements").1 in
  growth_1yr r = growth_5yr r /\ growth_6mo r = growth_5yr r /\
  growth_3mo r = growth_5yr r /\ growth_1mo r = growth_5yr r /\
  growth_5yr r = FullScan.calculate_growth (past_at 1 [20; 30; 80]) 20.
Proof.
  apply (short_series_growths_equal
           (fun _ => Frame [20; 30; 80] RelatedMissing) "zinc" "supplements"
           0 20 [30; 80] RelatedMissing).
  - unfold FullScan.MAX_RETRIES. lia.
  - intros j Hj. lia.
  - reflexivity.
  - simpl. lia.
Defined.

(** ** get_keyword_data: requests, sleeps and the related queries *)

Lemma requests_app (t1 t2 : list event) :
  requests (t1 ++ t2) = (requests t1 + requests t2)%nat.
Proof. unfold requests. now rewrite omap_app, length_app. Qed.

Lemma seconds_slept_app (t1 t2 : list event) :
  seconds_slept (t1 ++ t2) = (seconds_slept t1 + seconds_slept t2)%nat.
Proof.
  unfold seconds_slept. rewrite omap_app.
  induction (omap _ t1) as [|n l IH]; simpl; [reflexivity | lia].
Qed.

Lemma full_attempt_cost (resp : response) (kw : string) (r : ScanResult) :
  match FullScan.attempt resp kw r with
  | Return _ tr | Continue _ tr =>
      requests tr = 1%nat /\ (seconds_slept tr <= FullScan.RETRY_DELAY)%nat
  end.
Proof.
  unfold FullScan.attempt, FullScan.RETRY_DELAY, requests, seconds_slept.
  destruct resp as [msg | [|x xs] rel].
  - destruct (is_rate_limit msg); split; cbn; try reflexivity; lia.
  - split; cbn; [reflexivity | lia].
  - split; cbn; [reflexivity | lia].
Qed.

Lemma niche_attempt_cost (resp : response) (kw : string) (r : ScanResult) :
  match NicheScanner.attempt resp kw r with
  | Return _ tr | Continue _ tr =>
      requests tr = 1%nat /\ (seconds_slept tr <= NicheScanner.RETRY_DELAY)%nat
  end.
Proof.
  unfold NicheScanner.attempt, NicheScanner.RETRY_DELAY, requests, seconds_slept.
  destruct resp as [msg | [|x xs] rel].
  - destruct (is_rate_limit msg); split; cbn; try reflexivity; lia.
  - split; cbn; [reflexivity | lia].
  - split; cbn; [reflexivity | lia].
Qed.

Lemma full_retry_loop_cost (api : nat -> response) (kw : string)
  (n i : nat) (r : ScanResult) (tr : list event) :
  let out := (FullScan.retry_loop api kw n i r tr).2 in
  (requests tr + Nat.min 1 n <= requests out <= requests tr + n)%nat /\
  (seconds_slept out <= seconds_slept tr + n * FullScan.RETRY_DELAY)%nat.
Proof.
  cbn zeta. revert i r tr. induction n as [|n IH]; intros i r tr.
  - simpl. lia.
  - cbn [FullScan.retry_loop].
    pose proof (full_attempt_cost (api i) kw r) as H.
    destruct (FullScan.attempt (api i) kw r) as [r' t | r' t];
      destruct H as [Hr Hs].
    + cbn [snd]. rewrite requests_app, seconds_slept_app. nia.
    + destruct (IH (S i) r' (tr ++ t)) as [[IH1 IH2] IH3].
      rewrite requests_app in IH1, IH2. rewrite seconds_slept_app in IH3.
      nia.
Qed.

Lemma niche_retry_loop_cost (api : nat -> response) (kw : string)
  (n i : nat) (r : ScanResult) (tr : list event) :
  let out := (NicheScanner.retry_loop api kw n i r tr).2 in
  (requests tr + Nat.min 1 n <= requests out <= requests tr + n)%nat /\
  (seconds_slept out <= seconds_slept tr + n * NicheScanner.RETRY_DELAY)%nat.
Proof.
  cbn zeta. revert i r tr. induction n as [|n IH]; intros i r tr.
  - simpl. lia.
  - cbn [NicheScanner.retry_loop].
    pose proof (niche_attempt_cost (api i) kw r) as H.
    destruct (NicheScanner.attempt (api i) kw r) as [r' t | r' t];
      destruct H as [Hr Hs].
    + cbn [snd]. rewrite requests_app, seconds_slept_app. nia.
    + destruct (IH (S i) r' (tr ++ t)) as [[IH1 IH2] IH3].
      rewrite requests_app in IH1, IH2. rewrite seconds_slept_app in IH3.
      nia.
Qed.

(** X7. Whatever the API answers, one call of [get_keyword_data] issues
    at least one and at most MAX_RETRIES (three) requests for the keyword
    and sleeps at most MAX_RETRIES times RETRY_DELAY seconds: 135 in
    [full_scan.py], 90 in [niche_scanner.py]. *)
Theorem get_keyword_data_cost (api : nat -> response) (kw cat : string) :
  let full := (FullScan.get_keyword_data api kw cat).2 in
  let niche := (NicheScanner.get_keyword_data api kw cat).2 in
  (1 <= requests full <= 3)%nat /\ (seconds_slept full <= 135)%nat /\
  (1 <= requests niche <= 3)%nat /\ (seconds_slept niche <= 90)%nat.
Proof.
  cbn zeta.
  destruct (full_retry_loop_cost api kw FullScan.MAX_RETRIES 0
              (initial_result kw cat) []) as [[F1 F2] F3].
  destruct (niche_retry_loop_cost api kw NicheScanner.MAX_RETRIES 0
              (initial_result kw cat) []) as [[N1 N2] N3].
  unfold FullScan.get_keyword_data, NicheScanner.get_keyword_data.
  unfold FullScan.MAX_RETRIES, FullScan.RETRY_DELAY in *.
  unfold NicheScanner.MAX_RETRIES, NicheScanner.RETRY_DELAY in *.
  change (requests []) with 0%nat in *.
  change (seconds_slept []) with 0%nat in *.
  lia.
Qed.

Lemma same_but_queries_refl (r : ScanResult) : same_but_queries r r.
Proof. repeat split. Qed.

Lemma full_attempt_same (r1 r2 : response) (kw : string) (a b : ScanResult) :
  same_samples r1 r2 -> same_but_queries a b ->
  match FullScan.attempt r1 kw a, FullScan.attempt r2 kw b with
  | Return a' t1, Return b' t2 => same_but_queries a' b' /\ t1 = t2
  | Continue a' t1, Continue b' t2 => same_but_queries a' b' /\ t1 = t2
  | _, _ => False
  end.
Proof.
  intros Hs Hab.
  destruct Hab as (Hkw & Hcat & Hci & H5 & H1 & H6 & H3 & Hm & Hsc & He).
  destruct r1 as [m1 | s1 rel1], r2 as [m2 | s2 rel2]; simpl in Hs;
    try contradiction; subst.
  - unfold FullScan.attempt. destruct (is_rate_limit m2).
    + split; [repeat split; assumption | reflexivity].
    + split; [repeat split; assumption | reflexivity].
  - unfold FullScan.attempt. destruct s2 as [|x xs].
    + split; [repeat split; assumption | reflexivity].
    + split; [|reflexivity].
      destruct (get_time_periods (x :: xs)) as [p|].
      * set (ma := set_metrics _ _ _ _ _ _ a).
        set (mb := set_metrics _ _ _ _ _ _ b).
        destruct (read_related_same rel1 ma)
          as (A1 & A2 & A3 & A4 & A5 & A6 & A7 & A8 & A9 & A10).
        destruct (read_related_same rel2 mb)
          as (B1 & B2 & B3 & B4 & B5 & B6 & B7 & B8 & B9 & B10).
        unfold same_but_queries, set_recommendation_score.
        cbn [keyword category error current_interest growth_5yr growth_1yr
             growth_6mo growth_3mo growth_1mo recommendation_score].
        rewrite A1, A2, A3, A4, A5, A6, A7, A8, A10.
        rewrite B1, B2, B3, B4, B5, B6, B7, B8, B10.
        unfold ma, mb, set_metrics.
        cbn [keyword category error current_interest growth_5yr growth_1yr
             growth_6mo growth_3mo growth_1mo recommendation_score].
        repeat split; assumption.
      * destruct (read_related_same rel1 a)
          as (A1 & A2 & A3 & A4 & A5 & A6 & A7 & A8 & A9 & A10).
        destruct (read_related_same rel2 b)
          as (B1 & B2 & B3 & B4 & B5 & B6 & B7 & B8 & B9 & B10).
        unfold same_but_queries, set_recommendation_score.
        cbn [keyword category error current_interest growth_5yr growth_1yr
             growth_6mo growth_3mo growth_1mo recommendation_score].
        rewrite A1, A2, A3, A4, A5, A6, A7, A8, A10.
        rewrite B1, B2, B3, B4, B5, B6, B7, B8, B10.
        rewrite H5, H1, H6, H3, Hm.
        repeat split; assumption.
Qed.

Lemma full_retry_loop_same (api1 api2 : nat -> response) (kw : string)
  (n i : nat) (a b : ScanResult) (tr : list event) :
  (forall j, same_samples (api1 j) (api2 j)) -> same_but_queries a b ->
  same_but_queries (FullScan.retry_loop api1 kw n i a tr).1
                   (FullScan.retry_loop api2 kw n i b tr).1 /\
  (FullScan.retry_loop api1 kw n i a tr).2 =
  (FullScan.retry_loop api2 kw n i b tr).2.
Proof.
  intros Hs. revert i a b tr. induction n as [|n IH]; intros i a b tr Hab.
  - split; [|reflexivity].
    destruct Hab as (Hkw & Hcat & Hci & H5 & H1 & H6 & H3 & Hm & Hsc & He).
    repeat split; assumption.
  - cbn [FullScan.retry_loop].
    pose proof (full_attempt_same (api1 i) (api2 i) kw a b (Hs i) Hab) as H.
    destruct (FullScan.attempt (api1 i) kw a) as [a' t1 | a' t1];
      destruct (FullScan.attempt (api2 i) kw b) as [b' t2 | b' t2];
      try contradiction; destruct H as [H ->].
    + split; [exact H | reflexivity].
    + now apply IH.
Qed.

(** X8. The related queries never escalate: two runs of
    [get_keyword_data] whose API answers differ only in what
    [related_queries()] does (raising, missing the keyword, or holding any
    top and rising parts) return records with the same keyword, category,
    metrics, score and error, differing at most in the two query texts,
    and leave the same trace. *)
Theorem related_queries_never_escalate (api1 api2 : nat -> response)
  (kw cat : string) :
  (forall j, same_samples (api1 j) (api2 j)) ->
  same_but_queries (FullScan.get_keyword_data api1 kw cat).1
                   (FullScan.get_keyword_data api2 kw cat).1 /\
  (FullScan.get_keyword_data api1 kw cat).2 =
  (FullScan.get_keyword_data api2 kw cat).2.
Proof.
  intros Hs. unfold FullScan.get_keyword_data.
  apply full_retry_loop_same; [exact Hs | apply same_but_queries_refl].
Qed.

Lemma related_queries_never_escalate_witness :
  same_but_queries
    (FullScan.get_keyword_data
       (fun _ => Frame [20; 30; 80] RelatedRaises) "zinc" "supplements").1
    (FullScan.get_keyword_data
       (fun _ => Frame [20; 30; 80]
                   (RelatedEntry (PartQueries ["zinc benefits"%string])
                                 PartBroken))
       "zinc" "supplements").1 /\
  (FullScan.get_keyword_data
     (fun _ => Frame [20; 30; 80] RelatedRaises) "zinc" "supplements").2 =
  (FullScan.get_keyword_data
     (fun _ => Frame [20; 30; 80]
                 (RelatedEntry (PartQueries ["zinc benefits"%string])
                               PartBroken))
     "zinc" "supplements").2.
Proof.
  apply (related_queries_never_escalate
           (fun _ => Frame [20; 30; 80] RelatedRaises)
           (fun _ => Frame [20; 30; 80]
                       (RelatedEntry (PartQueries ["zinc benefits"%string])
                                     PartBroken))).
  intros j. reflexivity.
Defined.

(** X9. A fetch that fails terminally never passes the threshold, in
    either script, whatever the text of the failure (the empty text
    included): its growths are all 0, below the minimum of 300. *)
Theorem failed_fetch_never_passes (api : nat -> response) (kw cat : string) :
  (fails_terminally FullScan.MAX_RETRIES api ->
   FullScan.passes_threshold (FullScan.get_keyword_data api kw cat).1 = false) /\
  (fails_terminally NicheScanner.MAX_RETRIES api ->
   NicheScanner.passes_threshold
     (NicheScanner.get_keyword_data api kw cat).1 = false).
Proof.
  split.
  - destruct (full_scan_retry_policy api kw cat) as (Hmax & Hother & Hnodata).
    intros [Hall | (k & Hlt & Hk & [[rel Hresp] | (msg & Hresp & Hsig)])].
    + now rewrite (Hmax Hall).
    + now rewrite (Hnodata k rel Hlt Hk Hresp).
    + rewrite (Hother k msg Hlt Hk Hresp Hsig).
      unfold FullScan.passes_threshold. cbn [fst error set_error].
      now destruct (truthy (PStr (slice_to 50 msg))).
  - destruct (niche_scanner_retry_policy api kw cat)
      as (Hmax & Hother & Hnodata).
    intros [Hall | (k & Hlt & Hk & [[rel Hresp] | (msg & Hresp & Hsig)])].
    + now rewrite (Hmax Hall).
    + now rewrite (Hnodata k rel Hlt Hk Hresp).
    + rewrite (Hother k msg Hlt Hk Hresp Hsig).
      unfold NicheScanner.passes_threshold. cbn [fst error set_error].
      now destruct (truthy (PStr msg)).
Qed.

Lemma failed_fetch_never_passes_witness :
  FullScan.passes_threshold
    (FullScan.get_keyword_data (fun _ => Raises "") "zinc" "supplements").1
  = false.
Proof.
  apply (proj1 (failed_fetch_never_passes (fun _ => Raises "")
                  "zinc" "supplements")).
  right. exists 0%nat. split; [unfold FullScan.MAX_RETRIES; lia|].
  split; [intros j Hj; lia|].
  right. exists ""%string. split; [reflexivity|].
  apply is_rate_limit_false. reflexivity.
Defined.

(** X10. The classification of a failure as rate-limited: the test of the
    two scripts holds exactly when the text of the exception contains
    '429', or contains 'rate' in any mix of upper and lower case. *)
Theorem rate_limit_classification (msg : string) :
  is_rate_limit msg = true <->
  occurs_in "429" msg \/ occurs_ignoring_case "rate" msg.
Proof. apply is_rate_limit_spec. Qed.

(** X11. The outcomes of a fetch in [full_scan.py].  When the first [k]
    answers are rate-limit failures: with [k] = MAX_RETRIES the result
    carries 'Max retries' after [k] requests, each followed by a sleep of
    RETRY_DELAY, the last one included; with [k] below MAX_RETRIES and the
    next answer another failure, an empty frame or a frame with samples,
    the fetch ends there: with the first 50 characters of the text, with
    'No data', or with no error after a sleep of 2 seconds and the
    related-queries request. *)
Theorem full_scan_fetch_outcomes (api : nat -> response) (kw cat : string)
  (k : nat) :
  leading_rate_limits api k ->
  let out := FullScan.get_keyword_data api kw cat in
  let waits := backoffs kw FullScan.RETRY_DELAY k in
  (k = FullScan.MAX_RETRIES ->
   out = (set_error (PStr "Max retries") (initial_result kw cat), waits)) /\
  ((k < FullScan.MAX_RETRIES)%nat ->
   (forall msg, api k = Raises msg -> ~ rate_limit_signal msg ->
      out = (set_error (PStr (slice_to 50 msg)) (initial_result kw cat),
             waits ++ [Request kw])) /\
   (forall rel, api k = Frame [] rel ->
      out = (set_error (PStr "No data") (initial_result kw cat),
             waits ++ [Request kw])) /\
   (forall x xs rel, api k = Frame (x :: xs) rel ->
      error out.1 = PNone /\
      out.2 = waits ++ [Request kw; Sleep 2; RelatedRequest kw])).
Proof.
  intros Hk. cbn zeta.
  destruct (full_scan_retry_policy api kw cat) as (Hmax & Hother & Hnodata).
  split.
  - intros ->. now apply Hmax.
  - intros Hlt. split; [|split].
    + intros msg Hresp Hsig. now apply (Hother k msg).
    + intros rel Hresp. now apply (Hnodata k rel).
    + intros x xs rel Hresp.
      destruct (success_fields api kw cat k x xs rel Hlt Hk Hresp)
        as (_ & _ & He & _ & _ & _ & _ & _ & _ & _ & Htr).
      now split.
Qed.

Lemma full_scan_fetch_outcomes_witness :
  let api := fun i : nat =>
    if (i <? 2)%nat then Raises "Too many requests: error 429"
    else Frame [20; 30; 80] RelatedMissing in
  error (FullScan.get_keyword_data api "zinc" "supplements").1 = PNone /\
  (FullScan.get_keyword_data api "zinc" "supplements").2 =
    backoffs "zinc" FullScan.RETRY_DELAY 2
    ++ [Request "zinc"%string; Sleep 2; RelatedRequest "zinc"%string].
Proof.
  cbn zeta.
  refine (proj2 (proj2 (proj2 (full_scan_fetch_outcomes _ "zinc" "supplements"
                                 2 _) _)) 20 [30; 80] RelatedMissing _).
  - intros j Hj. exists "Too many requests: error 429"%string.
    split; [|apply is_rate_limit_spec; reflexivity].
    destruct j as [|[|j]]; [reflexivity | reflexivity | lia].
  - unfold FullScan.MAX_RETRIES. lia.
  - reflexivity.
Defined.

(** X12. The outcomes of a fetch in [niche_scanner.py] are those of
    [full_scan.py] with a RETRY_DELAY of 30 seconds, 'Max retries
    exceeded' as the text after MAX_RETRIES rate-limited attempts, and the
    text of another failure stored whole. *)
Theorem niche_scanner_fetch_outcomes (api : nat -> response) (kw cat : string)
  (k : nat) :
  leading_rate_limits api k ->
  let out := NicheScanner.get_keyword_data api kw cat in
  let waits := backoffs kw NicheScanner.RETRY_DELAY k in
  (k = NicheScanner.MAX_RETRIES ->
   out = (set_error (PStr "Max retries exceeded") (initial_result kw cat),
          waits)) /\
  ((k < NicheScanner.MAX_RETRIES)%nat ->
   (forall msg, api k = Raises msg -> ~ rate_limit_signal msg ->
      out = (set_error (PStr msg) (initial_result kw cat),
             waits ++ [Request kw])) /\
   (forall rel, api k = Frame [] rel ->
      out = (set_error (PStr "No data") (initial_result kw cat),
             waits ++ [Request kw]))).
Proof.
  intros Hk. cbn zeta.
  destruct (niche_scanner_retry_policy api kw cat) as (Hmax & Hother & Hnodata).
  split.
  - intros ->. now apply Hmax.
  - intros Hlt. split.
    + intros msg Hresp Hsig. now apply (Hother k msg).
    + intros rel Hresp. now apply (Hnodata k rel).
Qed.

Lemma niche_scanner_fetch_outcomes_witness :
  NicheScanner.get_keyword_data (fun _ => Raises "HTTP 429") "zinc" "supplements"
  = (set_error (PStr "Max retries exceeded")
               (initial_result "zinc" "supplements"),
     backoffs "zinc" NicheScanner.RETRY_DELAY 3).
Proof.
  refine (proj1 (niche_scanner_fetch_outcomes (fun _ => Raises "HTTP 429")
                   "zinc" "supplements" 3 _) eq_refl).
  intros j Hj. exists "HTTP 429"%string.
  split; [reflexivity | apply is_rate_limit_spec; reflexivity].
Defined.

(** ** The deduplication of the queue *)

Lemma task_identity_key (k k' : FullScan.KeywordTask) :
  task_identity k = task_identity k' <-> task_key k = task_key k'.
Proof.
  unfold task_identity, task_key. split; [intros [= H]; exact H | now intros ->].
Qed.

Lemma deduplicate_cons (seen : gset string) (k : FullScan.KeywordTask)
  (l : list FullScan.KeywordTask) :
  FullScan.deduplicate seen (k :: l) =
  if bool_decide (task_key k ∈ seen) then FullScan.deduplicate seen l
  else k :: FullScan.deduplicate ({[task_key k]} ∪ seen) l.
Proof. reflexivity. Qed.

Lemma deduplicate_sublist (seen : gset string) (l : list FullScan.KeywordTask) :
  FullScan.deduplicate seen l `sublist_of` l.
Proof.
  revert seen. induction l as [|k l IH]; intros seen.
  - constructor.
  - rewrite deduplicate_cons. case_bool_decide.
    + apply sublist_cons, IH.
    + apply sublist_skip, IH.
Qed.

Lemma deduplicate_covers (seen : gset string) (l : list FullScan.KeywordTask)
  (k : FullScan.KeywordTask) :
  k ∈ l -> task_key k ∉ seen ->
  exists k', k' ∈ FullScan.deduplicate seen l /\ task_key k' = task_key k.
Proof.
  revert seen. induction l as [|h l IH]; intros seen Hin Hseen.
  - now apply elem_of_nil in Hin.
  - rewrite deduplicate_cons. apply elem_of_cons in Hin as [-> | Hin].
    + rewrite bool_decide_eq_false_2 by exact Hseen.
      exists h. split; [apply elem_of_cons; now left | reflexivity].
    + case_bool_decide as Hh.
      * now apply IH.
      * destruct (decide (task_key k = task_key h)) as [E | Hne].
        -- exists h. split; [apply elem_of_cons; now left | now symmetry].
        -- destruct (IH ({[task_key h]} ∪ seen) Hin) as (k' & Hk' & E).
           ++ intros Hu. apply elem_of_union in Hu as [Hu | Hu];
                [apply elem_of_singleton in Hu; contradiction | contradiction].
           ++ exists k'. split; [apply elem_of_cons; now right | exact E].
Qed.

Lemma deduplicate_first (seen : gset string)
  (pre post : list FullScan.KeywordTask) (k : FullScan.KeywordTask) :
  task_key k ∉ seen ->
  (forall k', k' ∈ pre -> task_key k' <> task_key k) ->
  k ∈ FullScan.deduplicate seen (pre ++ k :: post).
Proof.
  revert seen. induction pre as [|h pre IH]; intros seen Hseen Hpre.
  - rewrite app_nil_l, deduplicate_cons.
    rewrite bool_decide_eq_false_2 by exact Hseen.
    apply elem_of_cons. now left.
  - rewrite <- app_comm_cons, deduplicate_cons.
    assert (Hh : task_key h <> task_key k)
      by (apply Hpre, elem_of_cons; now left).
    assert (Hrest : forall k', k' ∈ pre -> task_key k' <> task_key k)
      by (intros k' Hk'; apply Hpre, elem_of_cons; now right).
    case_bool_decide.
    + now apply IH.
    + apply elem_of_cons. right. apply IH; [|exact Hrest].
      intros Hu. apply elem_of_union in Hu as [Hu | Hu]; [|contradiction].
      apply elem_of_singleton in Hu. congruence.
Qed.

Lemma deduplicate_fixed (seen : gset string) (l : list FullScan.KeywordTask) :
  NoDup (task_identity <$> l) ->
  (forall k, k ∈ l -> task_key k ∉ seen) ->
  FullScan.deduplicate seen l = l.
Proof.
  revert seen. induction l as [|h l IH]; intros seen Hnd Hseen.
  - reflexivity.
  - rewrite deduplicate_cons.
    rewrite bool_decide_eq_false_2
      by (apply Hseen, elem_of_cons; now left).
    rewrite fmap_cons in Hnd. apply NoDup_cons in Hnd as [Hh Hnd].
    f_equal. apply IH; [exact Hnd|].
    intros k Hk Hu. apply elem_of_union in Hu as [Hu | Hu].
    + apply elem_of_singleton in Hu. apply Hh.
      apply list_elem_of_fmap. exists k. split; [|exact Hk].
      now apply task_identity_key.
    + apply (Hseen k); [apply elem_of_cons; now right | exact Hu].
Qed.

Lemma deduplicate_app (seen : gset string) (a b : list FullScan.KeywordTask) :
  FullScan.deduplicate seen (a ++ b) =
  FullScan.deduplicate seen a ++
  FullScan.deduplicate (task_keys a ∪ seen) b.
Proof.
  revert seen. induction a as [|h a IH]; intros seen.
  - cbn. f_equal. unfold task_keys. cbn. now rewrite (left_id_L ∅ (∪)).
  - rewrite <- app_comm_cons, !deduplicate_cons.
    assert (Hkeys : task_keys (h :: a) = {[task_key h]} ∪ task_keys a)
      by reflexivity.
    case_bool_decide as Hh.
    + rewrite IH. do 2 f_equal. rewrite Hkeys.
      apply set_eq. intros x. rewrite !elem_of_union, elem_of_singleton.
      split; [tauto | intros [[-> | ?] | ?]; tauto].
    + rewrite IH, <- app_comm_cons. do 3 f_equal. rewrite Hkeys.
      apply set_eq. intros x. rewrite !elem_of_union, elem_of_singleton.
      tauto.
Qed.

(** X13. The deduplication loop of [main] keeps a sub-list of the tasks,
    in their order, in which no two tasks have the same keyword up to
    case, and in which every keyword of the input is still represented up
    to case. *)
Theorem deduplicate_spec (l : list FullScan.KeywordTask) :
  FullScan.deduplicate ∅ l `sublist_of` l /\
  NoDup (task_identity <$> FullScan.deduplicate ∅ l) /\
  (forall k, k ∈ l ->
     task_identity k ∈ task_identity <$> FullScan.deduplicate ∅ l).
Proof.
  split; [apply deduplicate_sublist|]. split; [apply deduplicate_NoDup|].
  intros k Hk.
  destruct (deduplicate_covers ∅ l k Hk (not_elem_of_empty _))
    as (k' & Hk' & E).
  apply list_elem_of_fmap. exists k'. split; [|exact Hk'].
  symmetry. now apply task_identity_key.
Qed.

(** X14. Of several tasks with the same keyword up to case, the
    deduplication keeps the first: a task that no earlier task of the
    list matches is in the result (with its own category), and a task
    that an earlier task matches is dropped wherever the two differ. *)
Theorem deduplicate_keeps_first (pre post : list FullScan.KeywordTask)
  (k : FullScan.KeywordTask) :
  (forall k', k' ∈ pre -> task_key k' <> task_key k) ->
  k ∈ FullScan.deduplicate ∅ (pre ++ k :: post) /\
  (forall k', k' ∈ FullScan.deduplicate ∅ (pre ++ k :: post) ->
              task_key k' = task_key k -> k' = k).
Proof.
  intros Hpre.
  assert (Hin : k ∈ FullScan.deduplicate ∅ (pre ++ k :: post))
    by (apply deduplicate_first; [apply not_elem_of_empty | exact Hpre]).
  split; [exact Hin|].
  intros k' Hk' E.
  destruct (deduplicate_NoDup ∅ (pre ++ k :: post)) as [Hnd _].
  apply list_elem_of_lookup in Hin as [i Hi].
  apply list_elem_of_lookup in Hk' as [j Hj].
  assert (i = j).
  { eapply NoDup_lookup; [exact Hnd | |].
    - rewrite list_lookup_fmap, Hi. reflexivity.
    - rewrite list_lookup_fmap, Hj. cbn. f_equal.
      now apply task_identity_key. }
  subst j. congruence.
Qed.

Lemma deduplicate_keeps_first_witness :
  let seed := FullScan.mkTask "PCOS" "womens_health" in
  let late := FullScan.mkTask "pcos" "discovered" in
  seed ∈ FullScan.deduplicate ∅
           ([FullScan.mkTask "zinc" "supplements"] ++ seed :: [late]) /\
  (forall k', k' ∈ FullScan.deduplicate ∅
                     ([FullScan.mkTask "zinc" "supplements"] ++ seed :: [late]) ->
              task_key k' = task_key seed -> k' = seed).
Proof.
  cbn zeta.
  apply (deduplicate_keeps_first [FullScan.mkTask "zinc" "supplements"]
           [FullScan.mkTask "pcos" "discovered"]
           (FullScan.mkTask "PCOS" "womens_health")).
  intros k' Hk'.
  apply elem_of_cons in Hk' as [-> | Hk']; [|now apply elem_of_nil in Hk'].
  vm_compute. discriminate.
Defined.

(** X15. A list in which no two keywords agree up to case is left as it
    is by the deduplication; so deduplicating twice is deduplicating
    once. *)
Theorem deduplicate_idempotent (l : list FullScan.KeywordTask) :
  (NoDup (task_identity <$> l) -> FullScan.deduplicate ∅ l = l) /\
  FullScan.deduplicate ∅ (FullScan.deduplicate ∅ l) = FullScan.deduplicate ∅ l.
Proof.
  assert (H : forall l', NoDup (task_identity <$> l') ->
                         FullScan.deduplicate ∅ l' = l').
  { intros l' Hnd. apply deduplicate_fixed; [exact Hnd|].
    intros k _. apply not_elem_of_empty. }
  split; [apply H|]. apply H, deduplicate_NoDup.
Qed.

Lemma deduplicate_idempotent_witness :
  FullScan.deduplicate ∅
    [FullScan.mkTask "zinc" "supplements"; FullScan.mkTask "PCOS" "womens_health"]
  = [FullScan.mkTask "zinc" "supplements"; FullScan.mkTask "PCOS" "womens_health"].
Proof.
  apply (proj1 (deduplicate_idempotent
                  [FullScan.mkTask "zinc" "supplements";
                   FullScan.mkTask "PCOS" "womens_health"])).
  by_evaluation.
Defined.

Lemma seed_tasks_distinct : NoDup (task_identity <$> SEED_TASKS).
Proof. by_evaluation. Qed.

(** X16. The queue of [main] starts with the 47 seed tasks, in the order
    of the table and with their categories, whatever was discovered; the
    discovered keywords follow, deduplicated against the seeds and among
    themselves: a discovered keyword that matches a seed up to case is
    dropped. *)
Theorem queue_starts_with_seeds (discovered : list FullScan.KeywordTask) :
  FullScan.deduplicate ∅ (FullScan.build_keywords discovered) =
    SEED_TASKS ++ FullScan.deduplicate (task_keys SEED_TASKS) discovered /\
  List.length SEED_TASKS = 47%nat /\
  (forall k, k ∈ FullScan.deduplicate (task_keys SEED_TASKS) discovered ->
     k ∈ discovered /\
     task_identity k ∉ task_identity <$> SEED_TASKS).
Proof.
  assert (Hb : FullScan.build_keywords discovered = SEED_TASKS ++ discovered).
  { unfold SEED_TASKS, FullScan.build_keywords. now rewrite app_nil_r. }
  split; [|split; [reflexivity|]].
  - rewrite Hb, deduplicate_app.
    rewrite (deduplicate_fixed ∅ SEED_TASKS seed_tasks_distinct)
      by (intros k _; apply not_elem_of_empty).
    now rewrite (right_id_L ∅ (∪)).
  - intros k Hk. split.
    + eapply elem_of_sublist; [exact Hk | apply deduplicate_sublist].
    + destruct (deduplicate_NoDup (task_keys SEED_TASKS) discovered)
        as [_ Hnot].
      intros Hin. apply (Hnot k Hk).
      apply list_elem_of_fmap in Hin as (s & E & Hs).
      unfold task_keys. apply elem_of_list_to_set.
      apply list_elem_of_fmap. exists s. split; [|exact Hs].
      now apply task_identity_key.
Qed.

(** ** The scanning loop of [full_scan.py] *)

Lemma pauses_app (s : nat) (t1 t2 : list event) :
  pauses s (t1 ++ t2) = (pauses s t1 + pauses s t2)%nat.
Proof. unfold pauses. now rewrite omap_app, length_app. Qed.

Lemma full_retry_loop_pauses (api : nat -> response) (kw : string)
  (n i : nat) (r : ScanResult) (tr : list event) :
  pauses FullScan.REQUEST_DELAY (FullScan.retry_loop api kw n i r tr).2 =
  pauses FullScan.REQUEST_DELAY tr.
Proof.
  revert i r tr. induction n as [|n IH]; intros i r tr.
  - reflexivity.
  - cbn [FullScan.retry_loop]. unfold FullScan.attempt.
    destruct (api i) as [msg | [|x xs] rel].
    + destruct (is_rate_limit msg).
      * rewrite IH, pauses_app. cbn. lia.
      * cbn [snd]. rewrite pauses_app. cbn. lia.
    + cbn [snd]. rewrite pauses_app. cbn. lia.
    + cbn [snd]. rewrite pauses_app. cbn. lia.
Qed.

Lemma scan_loop_trace (api : string -> nat -> response)
  (remaining : list FullScan.KeywordTask) (i : nat) (st : FullScan.scan_state) :
  let st' := FullScan.scan_loop api remaining i st in
  pauses FullScan.REQUEST_DELAY (FullScan.st_trace st') =
    (pauses FullScan.REQUEST_DELAY (FullScan.st_trace st)
     + List.length remaining)%nat /\
  (requests (FullScan.st_trace st') <=
   requests (FullScan.st_trace st) + 3 * List.length remaining)%nat /\
  (requests (FullScan.st_trace st) + List.length remaining <=
   requests (FullScan.st_trace st'))%nat.
Proof.
  cbn zeta. revert i st. induction remaining as [|k rest IH]; intros i st.
  - cbn. lia.
  - cbn [FullScan.scan_loop].
    pose proof (full_retry_loop_pauses
                  (api (FullScan.task_keyword k)) (FullScan.task_keyword k)
                  FullScan.MAX_RETRIES 0
                  (initial_result (FullScan.task_keyword k)
                                  (FullScan.task_category k)) []) as Hp.
    pose proof (full_retry_loop_cost
                  (api (FullScan.task_keyword k)) (FullScan.task_keyword k)
                  FullScan.MAX_RETRIES 0
                  (initial_result (FullScan.task_keyword k)
                                  (FullScan.task_category k)) []) as Hc.
    cbn zeta in Hc. fold (FullScan.get_keyword_data
                  (api (FullScan.task_keyword k)) (FullScan.task_keyword k)
                  (FullScan.task_category k)) in Hp, Hc.
    destruct (FullScan.get_keyword_data _ _ _) as [result tr].
    cbn [snd] in Hp, Hc. destruct Hc as [[Hc1 Hc2] _].
    match goal with
    | |- context [FullScan.scan_loop api rest (S i) ?s] =>
        destruct (IH (S i) s) as (IH1 & IH2 & IH3)
    end.
    cbn [FullScan.st_trace] in IH1, IH2, IH3.
    rewrite !pauses_app in IH1. rewrite !requests_app in IH2, IH3.
    rewrite Hp in IH1.
    change (requests []) with 0%nat in *.
    unfold FullScan.MAX_RETRIES in *.
    assert (Hs : forall b : bool,
              pauses FullScan.REQUEST_DELAY
                (if b then [CheckpointSaved
                              (List.length (FullScan.st_results st ++ [result]))]
                 else []) = 0%nat /\
              requests
                (if b then [CheckpointSaved
                              (List.length (FullScan.st_results st ++ [result]))]
                 else []) = 0%nat)
      by (intros []; split; reflexivity).
    destruct (Hs ((i + 1) mod FullScan.CHECKPOINT_INTERVAL =? 0)%nat)
      as [Hs1 Hs2].
    rewrite Hs1 in IH1. rewrite Hs2 in IH2, IH3.
    change (pauses FullScan.REQUEST_DELAY []) with 0%nat in IH1.
    change (pauses FullScan.REQUEST_DELAY [Fetch (FullScan.task_keyword k)])
      with 0%nat in IH1.
    change (pauses FullScan.REQUEST_DELAY [Sleep FullScan.REQUEST_DELAY])
      with 1%nat in IH1.
    change (requests [Fetch (FullScan.task_keyword k)]) with 0%nat in *.
    change (requests [Sleep FullScan.REQUEST_DELAY]) with 0%nat in *.
    cbn [List.length]. lia.
Qed.

(** X17. The scanning phase of [main]: the final collection is the
    checkpointed records followed by one record per remaining keyword, in
    queue order, and exactly the remaining keywords are fetched.  When
    nothing remains no request is made and nothing is written; otherwise
    the checkpoint file ends up holding the whole collection.  Without a
    checkpoint file the whole queue remains. *)
Theorem scan_spec (na : list string) (api : string -> nat -> response)
  (queue : list FullScan.KeywordTask) (fs : FS) :
  let loaded := (FullScan.load_checkpoint na fs).1 in
  let remaining :=
    FullScan.remaining_of (FullScan.load_checkpoint na fs).2 queue in
  let st := FullScan.scan na api queue fs in
  FullScan.st_results st = loaded ++ fetch_all api remaining /\
  fetched (FullScan.st_trace st) = FullScan.task_keyword <$> remaining /\
  (remaining = [] -> FullScan.st_fs st = fs /\ FullScan.st_trace st = []) /\
  (remaining <> [] ->
   FullScan.st_fs st =
   <[FullScan.CHECKPOINT_FILE := to_csv (FullScan.st_results st)]> fs) /\
  (fs !! FullScan.CHECKPOINT_FILE = None -> remaining = queue).
Proof. exact (scan_facts na api queue fs). Qed.

Lemma scan_spec_witness :
  let api := fun (_ : string) (_ : nat) => Frame [20; 30; 80] RelatedMissing in
  let queue := [FullScan.mkTask "zinc" "supplements";
                FullScan.mkTask "PCOS" "womens_health"] in
  FullScan.st_fs (FullScan.scan DEFAULT_NA_VALUES api queue ∅) =
  <[FullScan.CHECKPOINT_FILE :=
      to_csv (FullScan.st_results
                (FullScan.scan DEFAULT_NA_VALUES api queue ∅))]> ∅.
Proof.
  cbn zeta.
  apply (proj1 (proj2 (proj2 (proj2 (scan_spec DEFAULT_NA_VALUES
           (fun _ _ => Frame [20; 30; 80] RelatedMissing)
           [FullScan.mkTask "zinc" "supplements";
            FullScan.mkTask "PCOS" "womens_health"] ∅))))).
  vm_compute. discriminate.
Defined.

(** X18. Pacing: the scan sleeps REQUEST_DELAY seconds exactly once per
    remaining keyword, whether its fetch succeeded or failed, and makes at
    least one and at most three requests per remaining keyword. *)
Theorem scan_pacing (na : list string) (api : string -> nat -> response)
  (queue : list FullScan.KeywordTask) (fs : FS) :
  let remaining :=
    FullScan.remaining_of (FullScan.load_checkpoint na fs).2 queue in
  let trace := FullScan.st_trace (FullScan.scan na api queue fs) in
  pauses FullScan.REQUEST_DELAY trace = List.length remaining /\
  (List.length remaining <= requests trace <= 3 * List.length remaining)%nat.
Proof.
  cbn zeta. rewrite scan_unfold. cbn zeta.
  set (loaded := (FullScan.load_checkpoint na fs).1).
  destruct (FullScan.remaining_of _ queue) as [|k l] eqn:E.
  - cbn. split; [reflexivity | lia].
  - destruct (scan_loop_trace api (k :: l) 0 (FullScan.mkScan loaded fs []))
      as (H1 & H2 & H3).
    cbn [FullScan.st_trace] in *.
    change (pauses FullScan.REQUEST_DELAY []) with 0%nat in H1.
    change (requests []) with 0%nat in H2, H3.
    split; [exact H1 | lia].
Qed.

(** X19. What an interrupt leaves on disk.  When the run is interrupted
    once [n] of its remaining keywords have gone through the loop (all of
    them, if fewer remain), the checkpoint file is the one the run found
    if fewer than five went through, and otherwise holds the loaded
    records followed by the records of the first 5*(m div 5) remaining
    keywords, [m] being the number that went through: the results since
    the last multiple of five are lost. *)
Theorem interrupted_scan_durable (na : list string)
  (api : string -> nat -> response)
  (queue : list FullScan.KeywordTask) (n : nat) (fs : FS) :
  let loaded := (FullScan.load_checkpoint na fs).1 in
  let remaining :=
    FullScan.remaining_of (FullScan.load_checkpoint na fs).2 queue in
  let m := Nat.min n (List.length remaining) in
  FullScan.st_fs (FullScan.interrupted_scan na api queue n fs) =
  if (m / 5 =? 0)%nat then fs
  else <[FullScan.CHECKPOINT_FILE :=
           to_csv (loaded ++ take (5 * (m / 5)) (fetch_all api remaining))]> fs.
Proof.
  cbn zeta. unfold FullScan.interrupted_scan.
  destruct (FullScan.load_checkpoint na fs) as [loaded processed].
  cbn [fst snd].
  set (remaining := FullScan.remaining_of processed queue).
  rewrite (scan_loop_checkpoint api (take n remaining)
             (FullScan.mkScan loaded fs [])).
  cbn [FullScan.st_fs FullScan.st_results]. rewrite length_take.
  destruct (_ =? 0)%nat; [reflexivity|].
  do 3 f_equal. unfold fetch_all. rewrite fmap_take, take_take.
  f_equal.
  pose proof (div5_facts (n `min` List.length remaining)). lia.
Qed.

(** ** The checkpoint across interrupted runs *)

(** X21. Whatever the number of interrupted runs over main's queue, the
    checkpoint file holds the keywords of an initial part of the queue,
    in queue order and as they are written in the queue; the length of
    that part is a multiple of CHECKPOINT_INTERVAL unless it is the whole
    queue; and the next run loads one record per keyword of that part
    and is left with the rest of the queue. *)
Theorem checkpoint_holds_prefix (na : list string)
  (discovered : list FullScan.KeywordTask) (fs : FS) :
  let queue := FullScan.deduplicate ∅ (FullScan.build_keywords discovered) in
  (forall k, k ∈ queue -> FullScan.task_keyword k ∉ na) ->
  resumable na queue fs ->
  exists m : nat,
    (m <= List.length queue)%nat /\
    (m mod FullScan.CHECKPOINT_INTERVAL = 0 \/ m = List.length queue)%nat /\
    checkpoint_keywords fs = FullScan.task_keyword <$> take m queue /\
    keyword <$> (FullScan.load_checkpoint na fs).1 =
      (fun k => PStr (FullScan.task_keyword k)) <$> take m queue /\
    FullScan.remaining_of (FullScan.load_checkpoint na fs).2 queue =
      drop m queue.
Proof.
  cbn zeta.
  set (queue := FullScan.deduplicate ∅ (FullScan.build_keywords discovered)).
  intros Hkw Hfs.
  assert (Hq : NoDup (task_identity <$> queue))
    by apply deduplicate_NoDup.
  destruct (resumable_prefix na queue fs Hq Hkw Hfs) as (m & Hm & Hmod & Hfile).
  destruct (prefix_load na queue m fs Hq Hkw Hfile) as [Hloaded Hrem].
  exists m. repeat split; assumption.
Qed.

Lemma checkpoint_holds_prefix_witness :
  let api := fun (_ : string) (_ : nat) => Raises "HTTP 500" in
  let queue := FullScan.deduplicate ∅ (FullScan.build_keywords []) in
  let once :=
    FullScan.st_fs (FullScan.interrupted_scan DEFAULT_NA_VALUES api queue 12 ∅) in
  let twice :=
    FullScan.st_fs
      (FullScan.interrupted_scan DEFAULT_NA_VALUES api queue 8 once) in
  exists m : nat,
    (m <= List.length queue)%nat /\
    (m mod FullScan.CHECKPOINT_INTERVAL = 0 \/ m = List.length queue)%nat /\
    checkpoint_keywords twice = FullScan.task_keyword <$> take m queue /\
    keyword <$> (FullScan.load_checkpoint DEFAULT_NA_VALUES twice).1 =
      (fun k => PStr (FullScan.task_keyword k)) <$> take m queue /\
    FullScan.remaining_of (FullScan.load_checkpoint DEFAULT_NA_VALUES twice).2
      queue = drop m queue.
Proof.
  cbn zeta.
  apply (checkpoint_holds_prefix DEFAULT_NA_VALUES []).
  - apply Forall_forall. by_evaluation.
  - apply resumable_interrupted, resumable_interrupted, resumable_fresh.
    apply lookup_empty.
Defined.

(** ** Records read back from a checkpoint *)

Lemma read_text_truthy (na : list string) (s : string) :
  "" ∈ na -> truthy (read_text na s) = true.
Proof.
  intros Hna. unfold read_text. case_bool_decide as Hs; [reflexivity|].
  simpl. apply negb_true_iff, String.eqb_neq. intros ->. contradiction.
Qed.

Lemma read_csv_truthy (na : list string) (t : table) (r : ScanResult) :
  "" ∈ na -> r ∈ read_csv na t -> truthy (error r) = true.
Proof.
  intros Hna Hr. unfold read_csv in Hr.
  apply list_elem_of_fmap in Hr as (row & -> & _).
  apply read_text_truthy, Hna.
Qed.

Lemma full_loaded_truthy (na : list string) (fs : FS) (r : ScanResult) :
  "" ∈ na -> r ∈ (FullScan.load_checkpoint na fs).1 ->
  truthy (error r) = true.
Proof.
  intros Hna. unfold FullScan.load_checkpoint.
  destruct (fs !! FullScan.CHECKPOINT_FILE) as [t|]; cbn [fst].
  - now apply read_csv_truthy.
  - intros Hr. now apply elem_of_nil in Hr.
Qed.

Lemma niche_loaded_truthy (na : list string) (filename : string) (fs : FS)
  (r : ScanResult) :
  "" ∈ na -> r ∈ (NicheScanner.load_checkpoint na filename fs).1 ->
  truthy (error r) = true.
Proof.
  intros Hna. unfold NicheScanner.load_checkpoint.
  destruct (fs !! filename) as [t|]; cbn [fst].
  - now apply read_csv_truthy.
  - intros Hr. now apply elem_of_nil in Hr.
Qed.

(** X22. No record read back from a checkpoint file passes the threshold,
    in either script and whatever its growths: the reader turns the empty
    error field of a successful record into NaN, which counts as an error
    in [passes_threshold], and a written error text stays an error. *)
Theorem loaded_record_never_passes (na : list string) (filename : string)
  (fs : FS) (r : ScanResult) :
  "" ∈ na ->
  (r ∈ (FullScan.load_checkpoint na fs).1 ->
   FullScan.passes_threshold r = false) /\
  (r ∈ (NicheScanner.load_checkpoint na filename fs).1 ->
   NicheScanner.passes_threshold r = false).
Proof.
  intros Hna. split; intros Hr.
  - unfold FullScan.passes_threshold.
    now rewrite (full_loaded_truthy na fs r Hna Hr).
  - unfold NicheScanner.passes_threshold.
    now rewrite (niche_loaded_truthy na filename fs r Hna Hr).
Qed.

Lemma loaded_record_never_passes_witness :
  let r := mkResult (PStr "zinc") (PStr "supplements") 80
                    500 500 500 500 500 (PStr "") (PStr "") 500 PNone in
  FullScan.passes_threshold r = true /\
  FullScan.passes_threshold (reloaded DEFAULT_NA_VALUES r) = false.
Proof.
  cbn zeta. split; [reflexivity|].
  apply (proj1 (loaded_record_never_passes DEFAULT_NA_VALUES ""%string
           (FullScan.save_checkpoint
              [mkResult (PStr "zinc") (PStr "supplements") 80
                        500 500 500 500 500 (PStr "") (PStr "") 500 PNone] ∅)
           _ ltac:(by_evaluation))).
  vm_compute. apply elem_of_cons. now left.
Defined.

Lemma reloaded_idempotent (na : list string) (r : ScanResult) :
  reloaded na (reloaded na r) = reloaded na r.
Proof.
  assert (H : forall v, reads_back na (reads_back na v) = reads_back na v).
  { intros [| |s]; simpl; try reflexivity.
    case_bool_decide as Hs; simpl; [reflexivity|].
    now rewrite bool_decide_eq_false_2. }
  unfold reloaded.
  cbn [keyword category current_interest growth_5yr growth_1yr growth_6mo
       growth_3mo growth_1mo related_queries rising_queries
       recommendation_score error].
  now rewrite !H.
Qed.

Lemma full_load_save (na : list string) (results : list ScanResult) (fs : FS) :
  "" ∈ na -> results <> [] ->
  (FullScan.load_checkpoint na (FullScan.save_checkpoint results fs)).1 =
  reloaded na <$> results.
Proof.
  intros Hna Hne. destruct results as [|r rs]; [contradiction|].
  unfold FullScan.save_checkpoint, FullScan.load_checkpoint.
  rewrite lookup_insert_eq. cbn [fst]. now apply read_to_csv.
Qed.

(** X23. One save/load cycle is all the change there is: the records that
    come back from a checkpoint come back unchanged from any further save
    and load. *)
Theorem checkpoint_cycle_stable (na : list string) (results : list ScanResult)
  (fs fs' : FS) :
  "" ∈ na -> results <> [] ->
  let once :=
    (FullScan.load_checkpoint na (FullScan.save_checkpoint results fs)).1 in
  (FullScan.load_checkpoint na (FullScan.save_checkpoint once fs')).1 = once.
Proof.
  intros Hna Hne. cbn zeta.
  rewrite (full_load_save na results fs Hna Hne).
  rewrite full_load_save; [|exact Hna|].
  - rewrite <- list_fmap_compose. apply list_fmap_ext.
    intros i r _. apply reloaded_idempotent.
  - destruct results; [contradiction | discriminate].
Qed.

Lemma checkpoint_cycle_stable_witness :
  let once :=
    (FullScan.load_checkpoint DEFAULT_NA_VALUES
       (FullScan.save_checkpoint [initial_result "zinc" "supplements"] ∅)).1 in
  (FullScan.load_checkpoint DEFAULT_NA_VALUES
     (FullScan.save_checkpoint once ∅)).1 = once.
Proof.
  apply (checkpoint_cycle_stable DEFAULT_NA_VALUES
           [initial_result "zinc" "supplements"] ∅ ∅).
  - by_evaluation.
  - discriminate.
Defined.

(** ** The scanner of [niche_scanner.py] *)

Lemma niche_attempt_fetched (resp : response) (kw : string) (r : ScanResult) :
  match NicheScanner.attempt resp kw r with
  | Return _ tr | Continue _ tr => fetched tr = []
  end.
Proof.
  unfold NicheScanner.attempt.
  destruct resp as [msg | [|x xs] rel]; [destruct (is_rate_limit msg)| |];
    reflexivity.
Qed.

Lemma niche_retry_loop_fetched (api : nat -> response) (kw : string)
  (n i : nat) (r : ScanResult) (tr : list event) :
  fetched (NicheScanner.retry_loop api kw n i r tr).2 = fetched tr.
Proof.
  revert i r tr. induction n as [|n IH]; intros i r tr.
  - reflexivity.
  - cbn [NicheScanner.retry_loop].
    pose proof (niche_attempt_fetched (api i) kw r) as H.
    destruct (NicheScanner.attempt (api i) kw r) as [r' t | r' t].
    + cbn [snd]. unfold fetched in *. now rewrite omap_app, H, app_nil_r.
    + rewrite IH. unfold fetched in *. now rewrite omap_app, H, app_nil_r.
Qed.

Lemma scan_category_spec (api : string -> nat -> response)
  (processed : gset pyval) (cat : string) (keywords : list string)
  (st : NicheScanner.scanner_state) :
  let todo := (fun kw => (cat, kw)) <$>
              filter (fun kw => PStr kw ∉ processed) keywords in
  let st' := NicheScanner.scan_category api processed cat keywords st in
  NicheScanner.sc_results st' =
    NicheScanner.sc_results st ++ niche_fetch_all api todo /\
  fetched (NicheScanner.sc_trace st') =
    fetched (NicheScanner.sc_trace st) ++ todo.*2 /\
  (NicheScanner.sc_fs st' = NicheScanner.sc_fs st \/
   exists saved more,
     saved <> [] /\
     NicheScanner.sc_results st' = saved ++ more /\
     NicheScanner.sc_fs st' =
       <[NicheScanner.CHECKPOINT_FILE := to_csv saved]> (NicheScanner.sc_fs st)).
Proof.
  cbn zeta. revert st. induction keywords as [|kw rest IH]; intros st.
  - cbn. rewrite !app_nil_r. repeat split. now left.
  - cbn [NicheScanner.scan_category]. rewrite filter_cons.
    destruct (decide (PStr kw ∉ processed)) as [Hnot | Hin].
    + rewrite bool_decide_eq_false_2 by exact Hnot.
      pose proof (niche_retry_loop_fetched (api kw) kw
                    NicheScanner.MAX_RETRIES 0 (initial_result kw cat) [])
        as Hf.
      fold (NicheScanner.get_keyword_data (api kw) kw cat) in Hf.
      unfold niche_fetch_all. rewrite !fmap_cons. cbn [fst snd].
      fold (niche_fetch_all api
              ((fun kw => (cat, kw)) <$>
               filter (fun kw => PStr kw ∉ processed) rest)).
      destruct (NicheScanner.get_keyword_data (api kw) kw cat)
        as [result tr]. cbn [fst snd] in Hf.
      match goal with
      | |- context [NicheScanner.scan_category api processed cat rest ?s] =>
          destruct (IH s) as (Hres & Hfetch & Hfs)
      end.
      cbn [NicheScanner.sc_results NicheScanner.sc_trace NicheScanner.sc_fs]
        in Hres, Hfetch, Hfs.
      split; [now rewrite Hres, <- app_assoc|]. split.
      * rewrite Hfetch. unfold fetched in *.
        rewrite !omap_app, Hf. cbn [omap list_omap].
        destruct (S (NicheScanner.sc_count st) mod 10 =? 0)%nat; cbn;
          now rewrite <- !app_assoc.
      * destruct Hfs as [Hfs | (saved & more & Hsne & Hs & Hfs)].
        -- rewrite Hfs.
           destruct (S (NicheScanner.sc_count st) mod 10 =? 0)%nat;
             [|now left].
           right.
           exists (NicheScanner.sc_results st ++ [result]),
             (niche_fetch_all api
                ((fun kw => (cat, kw)) <$>
                 filter (fun kw => PStr kw ∉ processed) rest)).
           split; [intros E; now apply app_eq_nil in E as [_ [=]]|].
           split; [exact Hres|].
           unfold NicheScanner.save_checkpoint.
           now destruct (NicheScanner.sc_results st ++ [result]) eqn:E;
             [apply app_eq_nil in E as [_ [=]]|].
        -- right. exists saved, more. split; [exact Hsne|].
           split; [exact Hs|]. rewrite Hfs.
           destruct (S (NicheScanner.sc_count st) mod 10 =? 0)%nat;
             [|reflexivity].
           unfold NicheScanner.save_checkpoint.
           destruct (NicheScanner.sc_results st ++ [result]); [reflexivity|].
           now rewrite insert_insert_eq.
    + apply dec_stable in Hin.
      rewrite bool_decide_eq_true_2 by exact Hin. apply IH.
Qed.

Lemma niche_remaining_cons (processed : gset pyval) (cat : string)
  (keywords : list string) (seeds : list (string * list string)) :
  niche_remaining processed ((cat, keywords) :: seeds) =
  ((fun kw => (cat, kw)) <$> filter (fun kw => PStr kw ∉ processed) keywords)
  ++ niche_remaining processed seeds.
Proof.
  unfold niche_remaining, seed_pairs. cbn [mbind list_bind].
  rewrite filter_app. f_equal.
  induction keywords as [|kw rest IH]; [reflexivity|].
  rewrite fmap_cons, !filter_cons. cbn [snd].
  destruct (decide (PStr kw ∉ processed)); [rewrite fmap_cons|]; now rewrite IH.
Qed.

Lemma scan_categories_spec (api : string -> nat -> response)
  (processed : gset pyval) (seeds : list (string * list string))
  (st : NicheScanner.scanner_state) :
  let todo := niche_remaining processed seeds in
  let st' := NicheScanner.scan_categories api processed seeds st in
  NicheScanner.sc_results st' =
    NicheScanner.sc_results st ++ niche_fetch_all api todo /\
  fetched (NicheScanner.sc_trace st') =
    fetched (NicheScanner.sc_trace st) ++ todo.*2 /\
  (NicheScanner.sc_fs st' = NicheScanner.sc_fs st \/
   exists saved more,
     saved <> [] /\
     NicheScanner.sc_results st' = saved ++ more /\
     NicheScanner.sc_fs st' =
       <[NicheScanner.CHECKPOINT_FILE := to_csv saved]> (NicheScanner.sc_fs st)).
Proof.
  cbn zeta. revert st. induction seeds as [|[cat keywords] rest IH]; intros st.
  - cbn. rewrite !app_nil_r. repeat split. now left.
  - cbn [NicheScanner.scan_categories]. rewrite niche_remaining_cons.
    destruct (scan_category_spec api processed cat keywords st)
      as (Hres1 & Hf1 & Hfs1).
    destruct (IH (NicheScanner.scan_category api processed cat keywords st))
      as (Hres & Hf & Hfs).
    unfold niche_fetch_all in *. rewrite !fmap_app.
    split; [now rewrite Hres, Hres1, <- app_assoc|].
    split; [now rewrite Hf, Hf1, <- app_assoc|].
    destruct Hfs as [Hfs | (saved & more & Hsne & Hs & Hfs)].
    + rewrite Hfs.
      destruct Hfs1 as [Hfs1 | (saved & more & Hsne1 & Hs1 & Hfs1)];
        [now left|].
      right. exists saved, (more ++
        ((fun ck => (NicheScanner.get_keyword_data (api ck.2) ck.2 ck.1).1)
         <$> niche_remaining processed rest)).
      split; [exact Hsne1|]. split; [|exact Hfs1].
      now rewrite Hres, Hs1, <- app_assoc.
    + right. exists saved, more. split; [exact Hsne|].
      split; [exact Hs|]. rewrite Hfs.
      destruct Hfs1 as [-> | (saved1 & more1 & _ & _ & ->)]; [reflexivity|].
      now rewrite insert_insert_eq.
Qed.

Lemma scan_seeds_facts (na : list string)
  (api : string -> nat -> response) (seeds : list (string * list string))
  (fs : FS) :
  let loaded := (NicheScanner.load_checkpoint na NicheScanner.CHECKPOINT_FILE fs).1 in
  let todo :=
    niche_remaining
      (NicheScanner.load_checkpoint na NicheScanner.CHECKPOINT_FILE fs).2 seeds in
  let st := NicheScanner.scan_seeds na api seeds fs in
  NicheScanner.sc_results st = loaded ++ niche_fetch_all api todo /\
  fetched (NicheScanner.sc_trace st) = todo.*2 /\
  (NicheScanner.sc_results st <> [] ->
   NicheScanner.sc_fs st =
   <[NicheScanner.CHECKPOINT_FILE := to_csv (NicheScanner.sc_results st)]> fs) /\
  (NicheScanner.sc_results st = [] -> NicheScanner.sc_fs st = fs).
Proof.
  cbn zeta. unfold NicheScanner.scan_seeds.
  destruct (NicheScanner.load_checkpoint na NicheScanner.CHECKPOINT_FILE fs)
    as [loaded processed].
  cbn [fst snd].
  destruct (scan_categories_spec api processed seeds
              (NicheScanner.mkScanner loaded (size processed) fs []))
    as (Hres & Hf & Hfs).
  cbn [NicheScanner.sc_results NicheScanner.sc_trace NicheScanner.sc_fs] in *.
  split; [exact Hres|]. split; [exact Hf|].
  set (st := NicheScanner.scan_categories api processed seeds _) in *.
  split.
  - intros Hne. unfold NicheScanner.save_checkpoint.
    destruct (NicheScanner.sc_results st) as [|r rs] eqn:E; [contradiction|].
    destruct Hfs as [-> | (saved & more & _ & _ & ->)]; [reflexivity|].
    now rewrite insert_insert_eq.
  - intros E. rewrite E in *. cbn [NicheScanner.save_checkpoint].
    destruct Hfs as [-> | (saved & more & Hsne & Hs & ->)]; [reflexivity|].
    symmetry in Hs. now apply app_eq_nil in Hs as [-> _].
Qed.

(** X24. [scan_all_keywords]: the collection it returns is the
    checkpointed records followed by one record for each seed keyword
    that is not, exactly as written, among the keywords of the
    checkpoint, in the order of the table; exactly these keywords are
    fetched; when the collection is not empty the checkpoint file ends up
    holding all of it, and no other file is touched. *)
Theorem scan_all_keywords_spec (na : list string)
  (api : string -> nat -> response) (seeds : list (string * list string))
  (fs : FS) :
  let loaded := (NicheScanner.load_checkpoint na NicheScanner.CHECKPOINT_FILE fs).1 in
  let todo :=
    niche_remaining
      (NicheScanner.load_checkpoint na NicheScanner.CHECKPOINT_FILE fs).2 seeds in
  let st := NicheScanner.scan_seeds na api seeds fs in
  NicheScanner.sc_results st = loaded ++ niche_fetch_all api todo /\
  fetched (NicheScanner.sc_trace st) = todo.*2 /\
  (NicheScanner.sc_results st <> [] ->
   NicheScanner.sc_fs st =
   <[NicheScanner.CHECKPOINT_FILE := to_csv (NicheScanner.sc_results st)]> fs) /\
  (NicheScanner.sc_results st = [] -> NicheScanner.sc_fs st = fs).
Proof. exact (scan_seeds_facts na api seeds fs). Qed.

Lemma scan_all_keywords_spec_witness :
  let api := fun (_ : string) (_ : nat) => Frame [20; 30; 80] RelatedMissing in
  let seeds := [("supplements"%string, ["zinc"; "creatine"]%string)] in
  NicheScanner.sc_fs (NicheScanner.scan_seeds DEFAULT_NA_VALUES api seeds ∅) =
  <[NicheScanner.CHECKPOINT_FILE :=
      to_csv (NicheScanner.sc_results
                (NicheScanner.scan_seeds DEFAULT_NA_VALUES api seeds ∅))]> ∅.
Proof.
  cbn zeta.
  apply (proj1 (proj2 (proj2 (scan_all_keywords_spec DEFAULT_NA_VALUES
           (fun _ _ => Frame [20; 30; 80] RelatedMissing)
           [("supplements"%string, ["zinc"; "creatine"]%string)] ∅)))).
  vm_compute. discriminate.
Defined.

Lemma filter_all_false {A : Type} (f : A -> bool) (l : list A) :
  Forall (fun x => f x = false) l -> List.filter f l = [].
Proof.
  induction 1 as [|x l Hx _ IH]; [reflexivity|].
  cbn. now rewrite Hx.
Qed.

Lemma selected_rows_skips_loaded (loaded fresh : list ScanResult) :
  Forall (fun r => truthy (error r) = true) loaded ->
  NicheScanner.selected_rows (loaded ++ fresh) =
  NicheScanner.selected_rows fresh.
Proof.
  intros Hl. unfold NicheScanner.selected_rows.
  rewrite !List.filter_app.
  rewrite (filter_all_false NicheScanner.passes_threshold loaded).
  - rewrite (filter_all_false (fun r => negb (truthy (error r))) loaded).
    + reflexivity.
    + eapply Forall_impl; [exact Hl|]. intros r Hr. cbn. now rewrite Hr.
  - eapply Forall_impl; [exact Hl|]. intros r Hr. cbn.
    unfold NicheScanner.passes_threshold. now rewrite Hr.
Qed.

(** X25. The report of a resumed run of [niche_scanner.py] is the report
    of the newly fetched keywords alone: [save_final_results] keeps no
    record that came from the checkpoint, whatever its growths were when
    it was saved, so on a run that resumes, the final report (and whether
    there is one) is what it would be for the records fetched in this run
    only. *)
Theorem resumed_report_drops_checkpoint (na : list string)
  (api : string -> nat -> response) (fs : FS) :
  "" ∈ na ->
  let todo :=
    niche_remaining
      (NicheScanner.load_checkpoint na NicheScanner.CHECKPOINT_FILE fs).2
      NicheScanner.SEED_KEYWORDS in
  let st := NicheScanner.scan_all_keywords na api fs in
  NicheScanner.selected_rows (NicheScanner.sc_results st) =
    NicheScanner.selected_rows (niche_fetch_all api todo) /\
  NicheScanner.run na api fs =
    NicheScanner.save_final_results (niche_fetch_all api todo)
                                    (NicheScanner.sc_fs st).
Proof.
  intros Hna. cbn zeta.
  destruct (scan_seeds_facts na api NicheScanner.SEED_KEYWORDS fs)
    as (Hres & _).
  fold (NicheScanner.scan_all_keywords na api fs) in Hres.
  assert (Hsel : NicheScanner.selected_rows
                   (NicheScanner.sc_results
                      (NicheScanner.scan_all_keywords na api fs)) =
                 NicheScanner.selected_rows
                   (niche_fetch_all api
                      (niche_remaining
                         (NicheScanner.load_checkpoint na
                            NicheScanner.CHECKPOINT_FILE fs).2
                         NicheScanner.SEED_KEYWORDS))).
  { rewrite Hres. apply selected_rows_skips_loaded.
    apply Forall_forall. intros r Hr.
    now apply (niche_loaded_truthy na NicheScanner.CHECKPOINT_FILE fs). }
  split; [exact Hsel|].
  unfold NicheScanner.run, NicheScanner.save_final_results.
  now rewrite Hsel.
Qed.

Lemma resumed_report_drops_checkpoint_witness :
  let api := fun (_ : string) (_ : nat) => Frame [20; 30; 80] RelatedMissing in
  let st := NicheScanner.scan_all_keywords DEFAULT_NA_VALUES api ∅ in
  NicheScanner.run DEFAULT_NA_VALUES api ∅ =
  NicheScanner.save_final_results
    (niche_fetch_all api
       (niche_remaining
          (NicheScanner.load_checkpoint DEFAULT_NA_VALUES
             NicheScanner.CHECKPOINT_FILE ∅).2
          NicheScanner.SEED_KEYWORDS))
    (NicheScanner.sc_fs st).
Proof.
  cbn zeta.
  apply (proj2 (resumed_report_drops_checkpoint DEFAULT_NA_VALUES
                  (fun _ _ => Frame [20; 30; 80] RelatedMissing) ∅
                  ltac:(by_evaluation))).
Defined.

(** ** The two copies of get_keyword_data *)

Lemma attempts_agree (resp : response) (kw : string) (r : ScanResult) :
  match FullScan.attempt resp kw r, NicheScanner.attempt resp kw r with
  | Return a t1, Return b t2 =>
      (a = b \/ exists s1 s2, a = set_error (PStr s1) r /\
                              b = set_error (PStr s2) r) /\
      requests t1 = requests t2
  | Continue a t1, Continue b t2 => a = r /\ b = r /\ requests t1 = requests t2
  | _, _ => False
  end.
Proof.
  unfold FullScan.attempt, NicheScanner.attempt.
  destruct resp as [msg | [|x xs] rel].
  - destruct (is_rate_limit msg).
    + repeat split.
    + split; [|reflexivity]. right. now exists (slice_to 50 msg), msg.
  - split; [now left | reflexivity].
  - split; [now left | reflexivity].
Qed.

Lemma retry_loops_agree (api : nat -> response) (kw : string)
  (n i : nat) (r : ScanResult) (t1 t2 : list event) :
  requests t1 = requests t2 ->
  same_but_error_text (FullScan.retry_loop api kw n i r t1).1
                      (NicheScanner.retry_loop api kw n i r t2).1 /\
  requests (FullScan.retry_loop api kw n i r t1).2 =
  requests (NicheScanner.retry_loop api kw n i r t2).2.
Proof.
  revert i t1 t2. induction n as [|n IH]; intros i t1 t2 Ht.
  - split; [|exact Ht]. repeat split; discriminate.
  - cbn [FullScan.retry_loop NicheScanner.retry_loop].
    pose proof (attempts_agree (api i) kw r) as H.
    destruct (FullScan.attempt (api i) kw r) as [a ta | a ta];
      destruct (NicheScanner.attempt (api i) kw r) as [b tb | b tb];
      try contradiction.
    + destruct H as [[-> | (s1 & s2 & -> & ->)] Hr]; cbn [fst snd].
      * split; [repeat split; auto | now rewrite !requests_app, Ht, Hr].
      * split; [repeat split; discriminate
               | now rewrite !requests_app, Ht, Hr].
    + destruct H as (-> & -> & Hr).
      apply IH. now rewrite !requests_app, Ht, Hr.
Qed.

(** X26. The two copies of [get_keyword_data] agree: for the same answers
    of the API, [full_scan.py] and [niche_scanner.py] return records with
    the same keyword, category, metrics, query texts and score, with an
    error in the one exactly when there is an error in the other (only
    its text may differ), and they make the same number of requests. *)
Theorem get_keyword_data_copies_agree (api : nat -> response)
  (kw cat : string) :
  same_but_error_text (FullScan.get_keyword_data api kw cat).1
                      (NicheScanner.get_keyword_data api kw cat).1 /\
  requests (FullScan.get_keyword_data api kw cat).2 =
  requests (NicheScanner.get_keyword_data api kw cat).2.
Proof.
  unfold FullScan.get_keyword_data, NicheScanner.get_keyword_data.
  now apply retry_loops_agree.
Qed.
